(** * ClaimGuard AI: the claim adjudication pipeline

    A shallow embedding of the backend services

    - [app/services/fraud_detection.py]   (module [Fraud])
    - [app/services/damage_assessment.py] (module [Damage])
    - [app/services/decision_engine.py]   (module [Engine])
    - [app/services/claim_processor.py]   (module [Processor])

    together with the fragment of the Python runtime they rely on
    (module [Py]): exceptions, [str] helpers, dynamically typed JSON values,
    [datetime] arithmetic.  The properties of the specification are proved
    at the end of the file. *)

From Stdlib Require Import ZArith Bool List Ascii String Lia.
From Stdlib Require Import Floats.PrimFloat Floats.SpecFloat Floats.FloatOps.
From stdpp Require Import gmap strings pretty.

Set Warnings "-inexact-float,-register-all".
Local Open Scope string_scope.
Local Open Scope list_scope.
Local Open Scope Z_scope.

(* ===================================================================== *)
(** * The Python fragment *)
(* ===================================================================== *)

Module Py.

(** ** Exceptions and fallible computations *)

(** The exception classes that the services raise or catch by name.
    [json.JSONDecodeError] is listed apart from [ValueError]: the handler of
    [_parse_response] names it. *)
Inductive exn_kind :=
  | ValueError | TypeError | AttributeError | AssertionError
  | JSONDecodeError | NameError | RuntimeError.

Record exn := Exn { kind : exn_kind; message : string }.

Inductive result (A : Type) :=
  | Ok (a : A)
  | Raise (e : exn).
Arguments Ok {A} a.
Arguments Raise {A} e.

Definition bind {A B} (r : result A) (k : A -> result B) : result B :=
  match r with
  | Ok a => k a
  | Raise e => Raise e
  end.

Notation "'let!' x := r 'in' k" := (bind r (fun x => k))
  (at level 10, x name, r at level 100, k at level 200).

(** [try: r except Exception as e: h e] *)
Definition try_except {A} (r : result A) (h : exn -> result A) : result A :=
  match r with
  | Ok a => Ok a
  | Raise e => h e
  end.

(** ** [str]

    A Python [str] is modelled by [string], one [ascii] for one character of
    the Latin-1 range.  The one character beyond it that the services
    write, the naira sign of a decision reason, is spelled by its UTF-8
    bytes. *)

Fixpoint take (n : nat) (s : string) : string :=
  match n, s with
  | S n', String c s' => String c (take n' s')
  | _, _ => EmptyString
  end.

Fixpoint drop (n : nat) (s : string) : string :=
  match n, s with
  | S n', String _ s' => drop n' s'
  | _, _ => s
  end.

(** [s.startswith(p)] *)
Fixpoint startswith (p s : string) : bool :=
  match p, s with
  | EmptyString, _ => true
  | String a p', String b s' => Ascii.eqb a b && startswith p' s'
  | String _ _, EmptyString => false
  end.

(** [s.endswith(p)] *)
Definition endswith (p s : string) : bool :=
  (String.length p <=? String.length s)%nat
  && String.eqb (drop (String.length s - String.length p) s) p.

(** [needle in hay] for two strings *)
Fixpoint contains (needle hay : string) : bool :=
  startswith needle hay ||
  match hay with
  | EmptyString => false
  | String _ hay' => contains needle hay'
  end.

(** [str.isspace]: TAB, LF, VT, FF, CR, FS, GS, RS, US, the space, NEL and
    the no-break space. *)
Definition isspace (c : ascii) : bool :=
  let n := nat_of_ascii c in
  ((9 <=? n) && (n <=? 13) || (28 <=? n) && (n <=? 32)
   || Nat.eqb n 133 || Nat.eqb n 160)%nat.

Fixpoint lstrip (s : string) : string :=
  match s with
  | String c s' => if isspace c then lstrip s' else s
  | EmptyString => EmptyString
  end.

Fixpoint rstrip (s : string) : string :=
  match s with
  | EmptyString => EmptyString
  | String c s' =>
      match rstrip s' with
      | EmptyString => if isspace c then EmptyString else String c EmptyString
      | r => String c r
      end
  end.

(** [s.strip()] *)
Definition strip (s : string) : string := rstrip (lstrip s).

(** [s.lower()]: the capital letters A to Z, and those of Latin-1 (the
    multiplication sign lies among them and stays). *)
Definition lower_char (c : ascii) : ascii :=
  let n := nat_of_ascii c in
  if ((65 <=? n) && (n <=? 90)
      || (192 <=? n) && (n <=? 222) && negb (Nat.eqb n 215))%nat
  then ascii_of_nat (n + 32) else c.

Fixpoint lower (s : string) : string :=
  match s with
  | EmptyString => EmptyString
  | String c s' => String (lower_char c) (lower s')
  end.

(** [s.replace('Z', '+00:00')] *)
Fixpoint replace_Z (s : string) : string :=
  match s with
  | EmptyString => EmptyString
  | String c s' =>
      if Ascii.eqb c "Z" then "+00:00" +:+ replace_Z s'
      else String c (replace_Z s')
  end.

(** Truth value of an optional string: [None] and [''] are falsy. *)
Definition truthy (o : option string) : bool :=
  match o with
  | Some s => negb (String.eqb s "")
  | None => false
  end.

(** [str(n)] and [f"{n}"] for an [int] *)
Definition str_int (n : Z) : string := pretty n.

(** Grouping of a digit string by thousands, from the right. *)
Fixpoint group3 (fuel : nat) (digits : string) : string :=
  match fuel with
  | O => digits
  | S fuel' =>
      let len := String.length digits in
      if (len <=? 3)%nat then digits
      else group3 fuel' (take (len - 3) digits) +:+ "," +:+ drop (len - 3) digits
  end.

(** [f"{n:,}"] for an [int] *)
Definition format_thousands (n : Z) : string :=
  let digits := pretty (Z.abs n) in
  (if n <? 0 then "-" else "") +:+ group3 (String.length digits) digits.

(** ** Dynamically typed values

    What [json.loads] produces, and what the result dictionaries of the
    services hold.  A [dict] with string keys is an association list in
    insertion order; lookup returns the first binding. *)

Inductive json :=
  | JNull
  | JBool (b : bool)
  | JInt (n : Z)
  | JFloat (x : float)
  | JStr (s : string)
  | JArr (items : list json)
  | JObj (fields : list (string * json)).

Definition pydict := list (string * json).

Fixpoint dict_lookup (k : string) (d : pydict) : option json :=
  match d with
  | [] => None
  | (k', v) :: d' => if String.eqb k' k then Some v else dict_lookup k d'
  end.

(** [d.get(k, default)] *)
Definition dict_get (k : string) (default : json) (d : pydict) : json :=
  match dict_lookup k d with
  | Some v => v
  | None => default
  end.

Definition type_name (v : json) : string :=
  match v with
  | JNull => "NoneType" | JBool _ => "bool" | JInt _ => "int"
  | JFloat _ => "float" | JStr _ => "str" | JArr _ => "list"
  | JObj _ => "dict"
  end.

(** [key in data] for a string [key]: key membership in a dict, substring
    test in a str, element membership in a list, [TypeError] otherwise. *)
Definition py_in (key : string) (data : json) : result bool :=
  match data with
  | JObj fields => Ok (existsb (fun kv => String.eqb (fst kv) key) fields)
  | JStr s => Ok (contains key s)
  | JArr items =>
      Ok (existsb (fun v => match v with
                            | JStr s => String.eqb s key
                            | _ => false
                            end) items)
  | _ => Raise (Exn TypeError
                  ("argument of type '" +:+ type_name data +:+ "' is not iterable"))
  end.

(** [assert c] *)
Definition py_assert (c : bool) : result unit :=
  if c then Ok tt else Raise (Exn AssertionError "").

(** ** Numbers

    [int] is [Z]; [float] is the binary64 primitive type.  Python compares an
    [int] with a [float] by their exact values. *)

Definition float_compare_int (x : float) (n : Z) : option comparison :=
  match Prim2SF x with
  | S754_nan => None
  | S754_infinity s => Some (if s then Lt else Gt)
  | S754_zero _ => Some (0 ?= n)
  | S754_finite s m e =>
      let v := if s then Z.neg m else Z.pos m in
      if 0 <=? e then Some (v * 2 ^ e ?= n) else Some (v ?= n * 2 ^ (- e))
  end.

Definition unorderable (op : string) (v : json) (other : string) : exn :=
  Exn TypeError ("'" +:+ op +:+ "' not supported between instances of '"
                 +:+ type_name v +:+ "' and '" +:+ other +:+ "'").

(** [v > n] for an [int] [n] *)
Definition py_gt_int (v : json) (n : Z) : result bool :=
  match v with
  | JInt a => Ok (n <? a)
  | JBool b => Ok (n <? Z.b2z b)
  | JFloat x => Ok (match float_compare_int x n with
                    | Some Gt => true
                    | _ => false
                    end)
  | _ => Raise (unorderable ">" v "int")
  end.

(** [v < c] for a [float] [c] *)
Definition py_lt_float (v : json) (c : float) : result bool :=
  match v with
  | JFloat x => Ok (PrimFloat.ltb x c)
  | JInt a => Ok (match float_compare_int c a with
                  | Some Gt => true
                  | _ => false
                  end)
  | JBool b => Ok (match float_compare_int c (Z.b2z b) with
                   | Some Gt => true
                   | _ => false
                   end)
  | _ => Raise (unorderable "<" v "float")
  end.

(** ** [datetime]

    A [datetime] is its wall-clock reading in microseconds since
    0001-01-01T00:00:00 of the proleptic Gregorian calendar, with the UTC
    offset (in microseconds) of an aware value and [None] for a naive one. *)

Record datetime := DateTime { wall : Z; utcoffset : option Z }.

Definition us_per_day : Z := 86400 * 1000000.

Definition is_leap (y : Z) : bool :=
  (y mod 4 =? 0) && (negb (y mod 100 =? 0) || (y mod 400 =? 0)).

Definition days_before_year (y : Z) : Z :=
  let p := y - 1 in p * 365 + p / 4 - p / 100 + p / 400.

Definition days_before_month (y m : Z) : Z :=
  nth (Z.to_nat (m - 1)) [0; 31; 59; 90; 120; 151; 181; 212; 243; 273; 304; 334] 0
  + (if (2 <? m) && is_leap y then 1 else 0).

Definition days_in_month (y m : Z) : Z :=
  if (m =? 2) && is_leap y then 29
  else nth (Z.to_nat (m - 1)) [31; 28; 31; 30; 31; 30; 31; 31; 30; 31; 30; 31] 0.

(** Day number of a calendar date, 0001-01-01 being day 1. *)
Definition ymd2ord (y m d : Z) : Z :=
  days_before_year y + days_before_month y m + d.

(** [datetime(y, m, d, hh, mm, ss)], naive *)
Definition naive (y m d hh mm ss : Z) : datetime :=
  DateTime ((ymd2ord y m d - 1) * us_per_day
            + ((hh * 60 + mm) * 60 + ss) * 1000000) None.

(** A [timedelta] is a number of microseconds; [.days] is the floor of its
    quotient by the length of a day, so that [seconds] and [microseconds]
    are never negative. *)
Definition timedelta := Z.

Definition days (td : timedelta) : Z := td / us_per_day.

(** [a - b]: both naive, or both aware; a mixed pair raises. *)
Definition dt_sub (a b : datetime) : result timedelta :=
  match utcoffset a, utcoffset b with
  | None, None => Ok (wall a - wall b)
  | Some oa, Some ob => Ok ((wall a - oa) - (wall b - ob))
  | _, _ => Raise (Exn TypeError
                     "can't subtract offset-naive and offset-aware datetimes")
  end.

(** ** Calendar values and [isoformat]

    The [date] and naive [datetime] values held by the records of the
    database, by their fields. *)

Record date := Date { year : Z; month : Z; day : Z }.

Record civil := Civil {
  on : date; hour : Z; minute : Z; second : Z; microsecond : Z
}.

Fixpoint zeros (n : nat) : string :=
  match n with
  | O => EmptyString
  | S n' => String "0" (zeros n')
  end.

(** [f"{n:0{width}d}"] for [0 <= n] *)
Definition pad (width : nat) (n : Z) : string :=
  let digits := pretty n in
  zeros (width - String.length digits) +:+ digits.

Definition date_isoformat (d : date) : string :=
  pad 4 (year d) +:+ "-" +:+ pad 2 (month d) +:+ "-" +:+ pad 2 (day d).

Definition isoformat (c : civil) : string :=
  date_isoformat (on c) +:+ "T" +:+ pad 2 (hour c) +:+ ":"
  +:+ pad 2 (minute c) +:+ ":" +:+ pad 2 (second c)
  +:+ (if microsecond c =? 0 then "" else "." +:+ pad 6 (microsecond c)).

(** ** Parsing of dates in their canonical fixed-width layouts

    [strptime_exif_fixed] reads [YYYY:MM:DD HH:MM:SS], the layout EXIF writes
    and [strptime] is given; [fromisoformat_fixed] reads what [isoformat]
    prints: [YYYY-MM-DD], [YYYY-MM-DDTHH:MM:SS], the latter followed by
    [.ffffff], and the one without fraction followed by an offset [+HH:MM]
    or [-HH:MM].  On these layouts they return what the library functions
    return; every other input is rejected with [ValueError].  The analyzers
    below are stated over arbitrary parsers and instantiated with these two
    on concrete dates. *)

Definition digit (c : ascii) : option Z :=
  let n := nat_of_ascii c in
  if ((48 <=? n) && (n <=? 57))%nat then Some (Z.of_nat n - 48) else None.

Fixpoint number (s : string) (acc : Z) : option Z :=
  match s with
  | EmptyString => Some acc
  | String c s' =>
      match digit c with
      | Some d => number s' (acc * 10 + d)
      | None => None
      end
  end.

Definition field (pos len : nat) (s : string) : option Z :=
  let f := take len (drop pos s) in
  if Nat.eqb (String.length f) len then number f 0 else None.

Definition sep (pos : nat) (c : ascii) (s : string) : bool :=
  match String.get pos s with
  | Some c' => Ascii.eqb c c'
  | None => false
  end.

Definition valid_date (y m d : Z) : bool :=
  (1 <=? y) && (1 <=? m) && (m <=? 12) && (1 <=? d) && (d <=? days_in_month y m).

Definition valid_time (hh mm ss : Z) : bool :=
  (hh <=? 23) && (mm <=? 59) && (ss <=? 59).

Definition clock (pos : nat) (s : string) : option Z :=
  match field pos 2 s, field (pos + 3) 2 s, field (pos + 6) 2 s with
  | Some hh, Some mm, Some ss =>
      if sep (pos + 2) ":" s && sep (pos + 5) ":" s && valid_time hh mm ss
      then Some (((hh * 60 + mm) * 60 + ss) * 1000000) else None
  | _, _, _ => None
  end.

Definition midnight (y m d : Z) : Z := (ymd2ord y m d - 1) * us_per_day.

Definition strptime_exif_fixed (s : string) : result datetime :=
  match field 0 4 s, field 5 2 s, field 8 2 s, clock 11 s with
  | Some y, Some m, Some d, Some t =>
      if Nat.eqb (String.length s) 19 && sep 4 ":" s && sep 7 ":" s
         && sep 10 " " s && valid_date y m d
      then Ok (DateTime (midnight y m d + t) None)
      else Raise (Exn ValueError "time data does not match format")
  | _, _, _, _ => Raise (Exn ValueError "time data does not match format")
  end.

Definition offset (pos : nat) (s : string) : option Z :=
  match field (pos + 1) 2 s, field (pos + 4) 2 s with
  | Some hh, Some mm =>
      let v := (hh * 60 + mm) * 60 * 1000000 in
      if sep (pos + 3) ":" s && (hh <=? 23) && (mm <=? 59) then
        if sep pos "+" s then Some v
        else if sep pos "-" s then Some (- v) else None
      else None
  | _, _ => None
  end.

Definition fromisoformat_fixed (s : string) : result datetime :=
  let bad := Raise (Exn ValueError ("Invalid isoformat string: '" +:+ s +:+ "'")) in
  match field 0 4 s, field 5 2 s, field 8 2 s with
  | Some y, Some m, Some d =>
      if sep 4 "-" s && sep 7 "-" s && valid_date y m d then
        match String.length s with
        | 10%nat => Ok (DateTime (midnight y m d) None)
        | 19%nat =>
            match clock 11 s with
            | Some t => Ok (DateTime (midnight y m d + t) None)
            | None => bad
            end
        | 26%nat =>
            match clock 11 s, field 20 6 s with
            | Some t, Some us =>
                if sep 19 "." s then Ok (DateTime (midnight y m d + t + us) None)
                else bad
            | _, _ => bad
            end
        | 25%nat =>
            match clock 11 s, offset 19 s with
            | Some t, Some o => Ok (DateTime (midnight y m d + t) (Some o))
            | _, _ => bad
            end
        | _ => bad
        end
      else bad
  | _, _, _ => bad
  end.

(** ** A reader for a fragment of JSON

    [json_loads_fragment] covers documents built from objects, arrays,
    strings without escape sequences, integers and the three literals, which
    it reads as [json.loads] does (the last of several equal keys wins);
    anything else is answered with [JSONDecodeError] (its message without
    the position).  Numbers with a fraction or an exponent and escaped
    strings lie outside the fragment.  The damage assessor is stated over an
    arbitrary [json.loads] and run with this one on concrete replies. *)

Definition dquote : ascii := ascii_of_nat 34.

Definition quoted (s : string) : string :=
  String dquote (s +:+ String dquote EmptyString).

Definition json_space (c : ascii) : bool :=
  let n := nat_of_ascii c in
  (Nat.eqb n 32 || Nat.eqb n 9 || Nat.eqb n 10 || Nat.eqb n 13)%nat.

Fixpoint skip_ws (s : string) : string :=
  match s with
  | String c s' => if json_space c then skip_ws s' else s
  | EmptyString => EmptyString
  end.

(** The characters up to the closing quote, and what follows it. *)
Fixpoint read_string (s : string) : option (string * string) :=
  match s with
  | EmptyString => None
  | String c s' =>
      if Ascii.eqb c dquote then Some (EmptyString, s')
      else if Ascii.eqb c "\" || (nat_of_ascii c <? 32)%nat then None
      else match read_string s' with
           | Some (body, rest) => Some (String c body, rest)
           | None => None
           end
  end.

Fixpoint read_digits (s : string) (acc : Z) : Z * string :=
  match s with
  | String c s' =>
      match digit c with
      | Some d => read_digits s' (acc * 10 + d)
      | None => (acc, s)
      end
  | EmptyString => (acc, s)
  end.

(** An integer: a lone zero, or a run of digits that starts with another
    digit. *)
Definition read_nat (s : string) : option (Z * string) :=
  match s with
  | String c s' =>
      match digit c with
      | Some 0 => Some (0, s')
      | Some d => Some (read_digits s' d)
      | None => None
      end
  | EmptyString => None
  end.

Fixpoint dict_set (k : string) (v : json) (d : pydict) : pydict :=
  match d with
  | [] => [(k, v)]
  | (k', v') :: d' =>
      if String.eqb k' k then (k', v) :: d' else (k', v') :: dict_set k v d'
  end.

Fixpoint read_value (fuel : nat) (s : string) : option (json * string) :=
  match fuel with
  | O => None
  | S fuel' =>
      match skip_ws s with
      | EmptyString => None
      | String c rest as s0 =>
          if startswith "null" s0 then Some (JNull, drop 4 s0)
          else if startswith "true" s0 then Some (JBool true, drop 4 s0)
          else if startswith "false" s0 then Some (JBool false, drop 5 s0)
          else if Ascii.eqb c dquote then
            match read_string rest with
            | Some (body, rest') => Some (JStr body, rest')
            | None => None
            end
          else if Ascii.eqb c "[" then
            match skip_ws rest with
            | String "]" rest' => Some (JArr [], rest')
            | _ => read_items fuel' rest []
            end
          else if Ascii.eqb c "{" then
            match skip_ws rest with
            | String "}" rest' => Some (JObj [], rest')
            | _ => read_members fuel' rest []
            end
          else if Ascii.eqb c "-" then
            match read_nat rest with
            | Some (n, rest') => Some (JInt (- n), rest')
            | None => None
            end
          else
            match read_nat s0 with
            | Some (n, rest') => Some (JInt n, rest')
            | None => None
            end
      end
  end
with read_items (fuel : nat) (s : string) (acc : list json)
  : option (json * string) :=
  match fuel with
  | O => None
  | S fuel' =>
      match read_value fuel' s with
      | Some (v, rest) =>
          match skip_ws rest with
          | String "," rest' => read_items fuel' rest' (acc ++ [v])
          | String "]" rest' => Some (JArr (acc ++ [v]), rest')
          | _ => None
          end
      | None => None
      end
  end
with read_members (fuel : nat) (s : string) (acc : pydict)
  : option (json * string) :=
  match fuel with
  | O => None
  | S fuel' =>
      match skip_ws s with
      | String c rest =>
          if Ascii.eqb c dquote then
            match read_string rest with
            | Some (k, rest1) =>
                match skip_ws rest1 with
                | String ":" rest2 =>
                    match read_value fuel' rest2 with
                    | Some (v, rest3) =>
                        match skip_ws rest3 with
                        | String "," rest4 =>
                            read_members fuel' rest4 (dict_set k v acc)
                        | String "}" rest4 =>
                            Some (JObj (dict_set k v acc), rest4)
                        | _ => None
                        end
                    | None => None
                    end
                | _ => None
                end
            | None => None
            end
          else None
      | EmptyString => None
      end
  end.

Definition json_loads_fragment (s : string) : result json :=
  match read_value (S (String.length s)) s with
  | Some (v, rest) =>
      match skip_ws rest with
      | EmptyString => Ok v
      | _ => Raise (Exn JSONDecodeError "Extra data")
      end
  | None => Raise (Exn JSONDecodeError "Expecting value")
  end.

End Py.
Import Py.

(* ===================================================================== *)
(** * app/services/fraud_detection.py *)
(* ===================================================================== *)

Module Fraud.

(** The dictionary built by [extract_exif].  A field read with
    [metadata.get] is [None] when the key is missing or holds [None]. *)
Record Metadata := {
  has_metadata : bool;
  datetime_original : option string;
  make : option string;
  model : option string;
  gps_info : option string;
  software : option string;
  error : option string
}.

(** The dictionary returned by each analyzer; [recent_claims_count] is
    set by the frequency analyzer only. *)
Record SignalResult := {
  is_suspicious : bool;
  flags : list string;
  score : Z;
  recent_claims_count : option Z
}.

Inductive RiskLevel := low | medium | high.

Record Details := {
  metadata_details : SignalResult;
  frequency_details : SignalResult;
  timing_details : SignalResult
}.

(** The dictionary returned by [calculate_fraud_score]. *)
Record FraudScore := {
  fraud_score : Z;
  risk_level : RiskLevel;
  all_flags : list string;
  details : Details
}.

(** [claim_data] and [policy_data], read with [.get(key, "")]. *)
Record ClaimData := {
  cd_incident_date : option string;
  cd_policy_number : option string
}.

Record PolicyData := {
  pd_policy_start_date : option string;
  pd_policy_end_date : option string
}.

Definition editors : list string :=
  ["photoshop"; "gimp"; "affinity"; "lightroom"].

Section Analyzers.

(** [datetime.strptime(s, "%Y:%m:%d %H:%M:%S")] and
    [datetime.fromisoformat(s)] of the standard library. *)
Variable strptime_exif : string -> result datetime.
Variable fromisoformat : string -> result datetime.

(** PIL: the EXIF items of an image as pairs of tag name and [str(value)],
    in iteration order, a tag without a name being keyed by its number;
    [Image.open] or [_getexif] may raise. *)
Variable exif_items : list Byte.byte -> result (list (string * string)).

(** The claim-history store: [result.scalar()] of the count of claims of
    a policy created in the last 90 days; the query may raise. *)
Variable count_recent_claims : string -> result (option Z).

(** ** MetadataAnalyzer *)

(** The loop [metadata[tag_name] = str(value)]: a later item overwrites an
    earlier one of the same name. *)
Definition collect (items : list (string * string)) : gmap string string :=
  fold_left (fun m kv => <[fst kv := snd kv]> m) items ∅.

Definition extract_exif (image_bytes : list Byte.byte) : Metadata :=
  match exif_items image_bytes with
  | Ok items =>
      let metadata := collect items in
      {| has_metadata := negb (Nat.eqb (size metadata) 0);
         datetime_original := metadata !! "DateTimeOriginal";
         make := metadata !! "Make";
         model := metadata !! "Model";
         gps_info := metadata !! "GPSInfo";
         software := metadata !! "Software";
         error := None |}
  | Raise e =>
      {| has_metadata := false;
         datetime_original := None; make := None; model := None;
         gps_info := None; software := None;
         error := Some (message e) |}
  end.

(** Signal 2.  [Some diff_days] when both dates parse and can be
    subtracted, [None] when the [try] block is left by an exception. *)
Definition photo_diff_days (photo claimed_date : string) : option Z :=
  match (let! photo_date := strptime_exif photo in
         let! claim_date := fromisoformat (replace_Z claimed_date) in
         let! delta := dt_sub photo_date claim_date in
         Ok (Z.abs (days delta))) with
  | Ok d => Some d
  | Raise _ => None
  end.

Definition check_metadata_fraud (metadata : Metadata) (claimed_date : string)
  : SignalResult :=
  let flags := [] in
  let score := 0 in
  (* Signal 1: No metadata (stripped) *)
  let '(flags, score) :=
    if negb (has_metadata metadata)
    then (flags ++ ["Metadata stripped or missing"], score + 15)
    else (flags, score) in
  (* Signal 2: Date mismatch *)
  let '(flags, score) :=
    if truthy (datetime_original metadata) then
      match photo_diff_days (default "" (datetime_original metadata))
                            claimed_date with
      | Some diff_days =>
          if 7 <? diff_days
          then (flags ++ ["Photo taken " +:+ str_int diff_days
                          +:+ " days from claim date"], score + 10)
          else (flags, score)
      | None => (flags, score)
      end
    else (flags, score) in
  (* Signal 3: Edited with software *)
  let '(flags, score) :=
    if truthy (software metadata) then
      let software := lower (default "" (software metadata)) in
      if existsb (fun editor => contains editor software) editors
      then (flags ++ ["Image edited with photo software"], score + 5)
      else (flags, score)
    else (flags, score) in
  {| is_suspicious := 10 <? score;
     flags := flags;
     score := Z.min score 20;
     recent_claims_count := None |}.

(** ** FrequencyAnalyzer *)

Definition check_claim_history (policy_number : string) : result SignalResult :=
  let! scalar := count_recent_claims policy_number in
  (* result.scalar() or 0 *)
  let recent_claims := default 0 scalar in
  let '(flags, score) :=
    if 2 <? recent_claims
    then ([str_int recent_claims +:+ " claims in last 90 days"],
          Z.min 25 (recent_claims * 8))
    else ([], 0) in
  Ok {| is_suspicious := 2 <? recent_claims;
        flags := flags;
        score := score;
        recent_claims_count := Some recent_claims |}.

(** ** TimingAnalyzer *)

Definition no_timing_signal : SignalResult :=
  {| is_suspicious := false; flags := []; score := 0;
     recent_claims_count := None |}.

(** The three parses are guarded by [try]; the subtractions are not. *)
Definition check_suspicious_timing
    (incident_date policy_start_date policy_end_date : string)
  : result SignalResult :=
  match (let! incident := fromisoformat (replace_Z incident_date) in
         let! policy_start := fromisoformat policy_start_date in
         let! policy_end := fromisoformat policy_end_date in
         Ok (incident, policy_start, policy_end)) with
  | Raise _ => Ok no_timing_signal
  | Ok (incident, policy_start, policy_end) =>
      let flags := [] in
      let score := 0 in
      (* Check if within 7 days of policy start *)
      let! after_start := dt_sub incident policy_start in
      let days_after_start := days after_start in
      let '(flags, score) :=
        if (0 <=? days_after_start) && (days_after_start <=? 7)
        then (flags ++ ["Claim filed " +:+ str_int days_after_start
                        +:+ " days after policy start"], score + 10)
        else (flags, score) in
      (* Check if within 7 days of policy end *)
      let! before_end := dt_sub policy_end incident in
      let days_before_end := days before_end in
      let '(flags, score) :=
        if (0 <=? days_before_end) && (days_before_end <=? 7)
        then (flags ++ ["Claim filed " +:+ str_int days_before_end
                        +:+ " days before policy expiry"], score + 15)
        else (flags, score) in
      Ok {| is_suspicious := 0 <? score;
            flags := flags;
            score := score;
            recent_claims_count := None |}
  end.

(** ** FraudDetector *)

Definition risk_of (total_score : Z) : RiskLevel :=
  if total_score <=? 30 then low
  else if total_score <=? 70 then medium
  else high.

Definition calculate_fraud_score
    (image_bytes : list Byte.byte)
    (claim_data : ClaimData) (policy_data : PolicyData)
  : result FraudScore :=
  let total_score := 0 in
  let all_flags := [] in
  (* 1. Metadata analysis *)
  let metadata := extract_exif image_bytes in
  let metadata_result :=
    check_metadata_fraud metadata (default "" (cd_incident_date claim_data)) in
  let total_score := total_score + score metadata_result in
  let all_flags := all_flags ++ flags metadata_result in
  (* 2. Frequency check *)
  let! frequency_result :=
    check_claim_history (default "" (cd_policy_number claim_data)) in
  let total_score := total_score + score frequency_result in
  let all_flags := all_flags ++ flags frequency_result in
  (* 3. Timing analysis *)
  let! timing_result :=
    check_suspicious_timing
      (default "" (cd_incident_date claim_data))
      (default "" (pd_policy_start_date policy_data))
      (default "" (pd_policy_end_date policy_data)) in
  let total_score := total_score + score timing_result in
  let all_flags := all_flags ++ flags timing_result in
  Ok {| fraud_score := Z.min total_score 100;
        risk_level := risk_of total_score;
        all_flags := all_flags;
        details := {| metadata_details := metadata_result;
                      frequency_details := frequency_result;
                      timing_details := timing_result |} |}.

End Analyzers.

End Fraud.

(* ===================================================================== *)
(** * app/services/damage_assessment.py *)
(* ===================================================================== *)

Module Damage.

Section Assessor.

(** The instruction texts of [_get_prompt]: the common preamble and the
    reply template with its pricing guide for each claim type. *)
Variable base_instructions : string.
Variable motor_template property_template other_template : string.

(** The vision service: [Image.open], [generate_content] and the read of
    [response.text], for a prompt and the image bytes.  Any of the three
    may raise. *)
Variable generate_content : string -> list Byte.byte -> result string.

(** [json.loads] *)
Variable json_loads : string -> result json.

Definition _get_prompt (claim_type : string) : string :=
  if String.eqb claim_type "motor" then base_instructions +:+ motor_template
  else if String.eqb claim_type "property"
       then base_instructions +:+ property_template
       else base_instructions +:+ other_template.

(** Remove markdown code blocks if present. *)
Definition unfence (text : string) : string :=
  let text := strip text in
  let text := if startswith "```json" text then drop 7 text else text in
  let text := if startswith "```" text then drop 3 text else text in
  let text :=
    if endswith "```" text then take (String.length text - 3) text else text in
  text.

Definition parse_fallback (e : exn) (text : string) : json :=
  JObj [("damage_type", JStr "Unable to determine");
        ("severity", JStr "moderate");
        ("estimated_cost_ngn", JInt 200000);
        ("damaged_items", JArr []);
        ("confidence", JFloat 0.5);
        ("reasoning", JStr ("Error parsing response: " +:+ message e));
        ("raw_response", JStr (take 500 text))].

(** The body of the [try] block of [_parse_response]. *)
Definition load_and_validate (text : string) : result json :=
  let! data := json_loads (strip text) in
  let! has_type := py_in "damage_type" data in
  let! _ := py_assert has_type in
  let! has_severity := py_in "severity" data in
  let! _ := py_assert has_severity in
  let! has_cost := py_in "estimated_cost_ngn" data in
  let! _ := py_assert has_cost in
  Ok data.

(** [except (json.JSONDecodeError, AssertionError) as e] *)
Definition _parse_response (text : string) : result json :=
  let text := unfence text in
  try_except (load_and_validate text)
    (fun e =>
       match kind e with
       | JSONDecodeError | AssertionError => Ok (parse_fallback e text)
       | _ => Raise e
       end).

Definition call_fallback (e : exn) : json :=
  JObj [("damage_type", JStr "Unable to determine");
        ("severity", JStr "moderate");
        ("estimated_cost_ngn", JInt 200000);
        ("damaged_items", JArr []);
        ("confidence", JFloat 0.3);
        ("reasoning", JStr ("Error during analysis: " +:+ message e));
        ("error", JBool true)].

(** [except Exception as e] encloses the whole body, so the call returns
    on every path. *)
Definition analyze_damage (image_bytes : list Byte.byte) (claim_type : string)
  : json :=
  match (let prompt := _get_prompt claim_type in
         let! text := generate_content prompt image_bytes in
         _parse_response text) with
  | Ok result => result
  | Raise e => call_fallback e
  end.

End Assessor.

End Damage.

(* ===================================================================== *)
(** * app/services/decision_engine.py *)
(* ===================================================================== *)

Module Engine.

(** What [make_decision] reads of [fraud_analysis], each key with
    [.get(key, default)]: a missing key is [None]. *)
Record FraudAnalysis := {
  fa_fraud_score : option Z;
  fa_risk_level : option Fraud.RiskLevel;
  fa_flags : option (list string)
}.

(** The dictionary passed on by the pipeline holds every key. *)
Definition of_fraud_score (r : Fraud.FraudScore) : FraudAnalysis :=
  {| fa_fraud_score := Some (Fraud.fraud_score r);
     fa_risk_level := Some (Fraud.risk_level r);
     fa_flags := Some (Fraud.all_flags r) |}.

(** The returned dictionary.  [approved_amount] is always present and may
    hold [None]; [estimated_amount], [flags] and [payment_timeline] are
    keys of some branches only, [None] standing for a missing key. *)
Record Decision := {
  decision : string;
  approved_amount : option json;
  estimated_amount : option json;
  reason : string;
  flags : option (list string);
  payment_timeline : option string;
  next_steps : string
}.

Definition make_decision
    (damage_assessment : pydict) (fraud_analysis : FraudAnalysis)
    (policy_limit : Z) : result Decision :=
  let estimated_cost := dict_get "estimated_cost_ngn" (JInt 0) damage_assessment in
  let fraud_score := default 0 (fa_fraud_score fraud_analysis) in
  let risk_level := default Fraud.low (fa_risk_level fraud_analysis) in
  let flags := default [] (fa_flags fraud_analysis) in
  (* Rule 1: High fraud risk -> Reject *)
  if 70 <? fraud_score then
    Ok {| decision := "rejected";
          approved_amount := None;
          estimated_amount := None;
          reason := "High fraud indicators detected";
          flags := Some flags;
          payment_timeline := None;
          next_steps := "Please contact our fraud investigation team at fraud@claimguard.ai" |}
  (* Rule 2: Medium fraud risk -> Review *)
  else if 30 <? fraud_score then
    Ok {| decision := "under_review";
          approved_amount := None;
          estimated_amount := Some estimated_cost;
          reason := "Additional verification required";
          flags := Some flags;
          payment_timeline := None;
          next_steps := "Our team will review your claim within 4 hours" |}
  else
    (* Rule 3: Cost exceeds policy limit -> Review *)
    let! over_limit := py_gt_int estimated_cost policy_limit in
    if over_limit then
      Ok {| decision := "under_review";
            approved_amount := None;
            estimated_amount := Some estimated_cost;
            reason := "Claim exceeds policy limit (₦"
                      +:+ format_thousands policy_limit +:+ ")";
            flags := None;
            payment_timeline := None;
            next_steps := "Manual assessment required for high-value claims" |}
    else
      (* Rule 4: Low confidence from AI -> Review *)
      let confidence := dict_get "confidence" (JFloat 1.0) damage_assessment in
      let! unsure := py_lt_float confidence 0.6 in
      if unsure then
        Ok {| decision := "under_review";
              approved_amount := None;
              estimated_amount := Some estimated_cost;
              reason := "Image quality requires manual review";
              flags := None;
              payment_timeline := None;
              next_steps := "Our team will review within 2 hours" |}
      else
        (* Rule 5: Low risk + within limit -> Approve *)
        Ok {| decision := "approved";
              approved_amount := Some estimated_cost;
              estimated_amount := None;
              reason := "Claim meets all approval criteria";
              flags := None;
              payment_timeline := Some "Within 24 hours";
              next_steps := "You'll receive an SMS when payment is processed" |}.

End Engine.

(* ===================================================================== *)
(** * app/models and app/services/claim_processor.py *)
(* ===================================================================== *)

Module Processor.

Inductive ClaimStatus := PENDING | APPROVED | UNDER_REVIEW | REJECTED.

Definition status_value (s : ClaimStatus) : string :=
  match s with
  | PENDING => "pending" | APPROVED => "approved"
  | UNDER_REVIEW => "under_review" | REJECTED => "rejected"
  end.

(** [ClaimStatus(value)] *)
Definition status_of_value (v : string) : result ClaimStatus :=
  if String.eqb v "pending" then Ok PENDING
  else if String.eqb v "approved" then Ok APPROVED
  else if String.eqb v "under_review" then Ok UNDER_REVIEW
  else if String.eqb v "rejected" then Ok REJECTED
  else Raise (Exn ValueError ("'" +:+ v +:+ "' is not a valid ClaimStatus")).

Inductive ClaimType := MOTOR | PROPERTY | HEALTH.

Definition type_value (t : ClaimType) : string :=
  match t with
  | MOTOR => "motor" | PROPERTY => "property" | HEALTH => "health"
  end.

(** A row of [claims]: the columns the pipeline reads and those it writes.
    The description and the two row timestamps are left out; the pipeline
    assigns none of them. *)
Record Claim := {
  customer_id : option N;
  policy_number : string;
  claim_type : ClaimType;
  incident_date : civil;
  images : option (list string);
  damage_assessment : option json;
  fraud_score : Z;
  fraud_flags : list string;
  status : ClaimStatus;
  estimated_amount : json;
  approved_amount : option json;
  decision_reason : option string;
  decision_timestamp : option civil
}.

(** A row of [customers]: the policy columns. *)
Record Customer := {
  policy_start_date : date;
  policy_end_date : date;
  policy_limit : Z
}.

(** The committed content of the two tables, by primary key. *)
Record Database := {
  claims : gmap N Claim;
  customers : gmap N Customer
}.

(** Everything outside the process: library functions, the vision service,
    the stores, and which of the database calls fail. *)
Record Env := {
  uuid_of : string -> result N;
  strptime_exif : string -> result datetime;
  fromisoformat : string -> result datetime;
  json_loads : string -> result json;
  exif_items : list Byte.byte -> result (list (string * string));
  base_instructions : string;
  motor_template : string;
  property_template : string;
  other_template : string;
  generate_content : string -> list Byte.byte -> result string;
  count_recent_claims : string -> result (option Z);
  download_from_supabase : string -> result (list Byte.byte);
  utcnow : civil;
  (** the exception of the [select] of the claim, of the [select] of the
      customer, of the [commit] that ends the [try] block and of the
      [commit] of the handler, if it raises *)
  claim_query_fault : option exn;
  customer_query_fault : option exn;
  commit_fault : option exn;
  handler_commit_fault : option exn
}.

(** ** Assignments to the loaded claim *)

Definition set_damage (v : json) (e : json) (c : Claim) : Claim :=
  {| customer_id := customer_id c; policy_number := policy_number c;
     claim_type := claim_type c; incident_date := incident_date c;
     images := images c;
     damage_assessment := Some v;
     fraud_score := fraud_score c; fraud_flags := fraud_flags c;
     status := status c;
     estimated_amount := e;
     approved_amount := approved_amount c;
     decision_reason := decision_reason c;
     decision_timestamp := decision_timestamp c |}.

Definition set_fraud (n : Z) (fl : list string) (c : Claim) : Claim :=
  {| customer_id := customer_id c; policy_number := policy_number c;
     claim_type := claim_type c; incident_date := incident_date c;
     images := images c;
     damage_assessment := damage_assessment c;
     fraud_score := n; fraud_flags := fl;
     status := status c;
     estimated_amount := estimated_amount c;
     approved_amount := approved_amount c;
     decision_reason := decision_reason c;
     decision_timestamp := decision_timestamp c |}.

Definition set_status (st : ClaimStatus) (c : Claim) : Claim :=
  {| customer_id := customer_id c; policy_number := policy_number c;
     claim_type := claim_type c; incident_date := incident_date c;
     images := images c;
     damage_assessment := damage_assessment c;
     fraud_score := fraud_score c; fraud_flags := fraud_flags c;
     status := st;
     estimated_amount := estimated_amount c;
     approved_amount := approved_amount c;
     decision_reason := decision_reason c;
     decision_timestamp := decision_timestamp c |}.

Definition set_outcome (amount : option json) (why : string) (c : Claim) : Claim :=
  {| customer_id := customer_id c; policy_number := policy_number c;
     claim_type := claim_type c; incident_date := incident_date c;
     images := images c;
     damage_assessment := damage_assessment c;
     fraud_score := fraud_score c; fraud_flags := fraud_flags c;
     status := status c;
     estimated_amount := estimated_amount c;
     approved_amount := amount;
     decision_reason := Some why;
     decision_timestamp := decision_timestamp c |}.

Definition set_reason (why : string) (c : Claim) : Claim :=
  set_outcome (approved_amount c) why c.

Definition set_timestamp (t : civil) (c : Claim) : Claim :=
  {| customer_id := customer_id c; policy_number := policy_number c;
     claim_type := claim_type c; incident_date := incident_date c;
     images := images c;
     damage_assessment := damage_assessment c;
     fraud_score := fraud_score c; fraud_flags := fraud_flags c;
     status := status c;
     estimated_amount := estimated_amount c;
     approved_amount := approved_amount c;
     decision_reason := decision_reason c;
     decision_timestamp := Some t |}.

(** ** The session

    The loaded claim object lives in the session; assignments change the
    object only, and a successful [commit] writes it to its row.  A
    computation threads the object and the database and may end in an
    exception, in which case both are kept as they were at the raise. *)

Record Session := { uid : N; obj : Claim; stored : Database }.

Definition M (A : Type) : Type := Session -> Session * result A.

Definition ret {A} (a : A) : M A := fun s => (s, Ok a).

Definition seq {A B} (m : M A) (k : A -> M B) : M B :=
  fun s => match m s with
           | (s', Ok a) => k a s'
           | (s', Raise e) => (s', Raise e)
           end.

Notation "'do!' x := m 'in' k" := (seq m (fun x => k))
  (at level 10, x name, m at level 100, k at level 200).

Definition lift {A} (r : result A) : M A := fun s => (s, r).

Definition assign (f : Claim -> Claim) : M unit :=
  fun s => ({| uid := uid s; obj := f (obj s); stored := stored s |}, Ok tt).

Definition write_row (s : Session) : Database :=
  {| claims := <[uid s := obj s]> (claims (stored s));
     customers := customers (stored s) |}.

(** [await db.commit()] *)
Definition commit (fault : option exn) : M unit :=
  fun s => match fault with
           | Some e => (s, Raise e)
           | None => ({| uid := uid s; obj := obj s; stored := write_row s |}, Ok tt)
           end.

(** ** Pieces of Python used by the body *)

(** [damage_result.get]: only a dict has the method. *)
Definition as_dict (v : json) : result pydict :=
  match v with
  | JObj d => Ok d
  | _ => Raise (Exn AttributeError
                  ("'" +:+ type_name v +:+ "' object has no attribute 'get'"))
  end.

(** Whether [f"{v:,}"] can be formatted. *)
Definition format_comma (v : json) : result unit :=
  match v with
  | JInt _ | JBool _ | JFloat _ => Ok tt
  | JStr _ => Raise (Exn ValueError "Cannot specify ',' with 's'.")
  | _ => Raise (Exn TypeError
                  ("unsupported format string passed to " +:+ type_name v
                   +:+ ".__format__"))
  end.

(** Truth value of an object. *)
Definition py_bool (v : json) : bool :=
  match v with
  | JNull => false
  | JBool b => b
  | JInt n => negb (n =? 0)
  | JFloat x => negb (PrimFloat.eqb x 0)
  | JStr s => negb (String.eqb s "")
  | JArr l => negb (Nat.eqb (List.length l) 0)
  | JObj d => negb (Nat.eqb (List.length d) 0)
  end.

(** ** [process_claim] *)

Section Pipeline.

Variable env : Env.

Definition assess (image_bytes : list Byte.byte) (claim_type : string) : json :=
  Damage.analyze_damage
    (base_instructions env) (motor_template env) (property_template env)
    (other_template env) (generate_content env) (json_loads env)
    image_bytes claim_type.

Definition detect (image_bytes : list Byte.byte)
    (claim_data : Fraud.ClaimData) (policy_data : Fraud.PolicyData)
  : result Fraud.FraudScore :=
  Fraud.calculate_fraud_score
    (strptime_exif env) (fromisoformat env) (exif_items env)
    (count_recent_claims env) image_bytes claim_data policy_data.

(** From the damage assessment to the end of the [try] block: analysis,
    decision, write-back and the closing report. *)
Definition analyse_decide_write
    (claim : Claim) (customer : Customer) (image_bytes : list Byte.byte)
  : M unit :=
  (* 1. Damage Assessment with Gemini *)
  let damage_result := assess image_bytes (type_value (claim_type claim)) in
  do! _ := assign (fun c => set_damage damage_result (estimated_amount c) c) in
  do! damage := lift (as_dict damage_result) in
  do! _ := assign (fun c =>
             set_damage damage_result
               (dict_get "estimated_cost_ngn" (JInt 0) damage) c) in
  (* 2. Fraud Detection *)
  do! fraud_result :=
    lift (detect image_bytes
            {| Fraud.cd_incident_date := Some (isoformat (incident_date claim));
               Fraud.cd_policy_number := Some (policy_number claim) |}
            {| Fraud.pd_policy_start_date :=
                 Some (date_isoformat (policy_start_date customer));
               Fraud.pd_policy_end_date :=
                 Some (date_isoformat (policy_end_date customer)) |}) in
  do! _ := assign (set_fraud (Fraud.fraud_score fraud_result)
                             (Fraud.all_flags fraud_result)) in
  (* 3. Decision Engine *)
  do! decision :=
    lift (Engine.make_decision damage (Engine.of_fraud_score fraud_result)
            (policy_limit customer)) in
  (* Update claim with decision *)
  do! st := lift (status_of_value (Engine.decision decision)) in
  do! _ := assign (set_status st) in
  do! _ := assign (set_outcome (Engine.approved_amount decision)
                               (Engine.reason decision)) in
  do! _ := assign (set_timestamp (utcnow env)) in
  do! _ := commit (commit_fault env) in
  (* the report printed after the commit *)
  fun s =>
    let claim := obj s in
    (s, let! _ := format_comma (estimated_amount claim) in
        match approved_amount claim with
        | Some v => if py_bool v then format_comma v else Ok tt
        | None => Ok tt
        end).

(** How the [try] block is left. *)
Inductive exit :=
  | Returned
  | Failed (e : exn).

(** The [try] block: the final database, the object bound to the name
    [claim] with its key ([None] while the name is unbound) and the
    exit. *)
Definition try_block (claim_id : string) (db : Database)
  : Database * option (N * Claim) * exit :=
  match uuid_of env claim_id with
  | Raise e => (db, None, Failed e)
  | Ok id =>
      match claim_query_fault env with
      | Some e => (db, None, Failed e)
      | None =>
          match claims db !! id with
          | None => (db, None, Returned)          (* Claim not found *)
          | Some claim =>
              match customer_query_fault env with
              | Some e => (db, Some (id, claim), Failed e)
              | None =>
                  match customer_id claim ≫= (fun k => customers db !! k) with
                  | None => (db, Some (id, claim), Returned) (* Customer not found *)
                  | Some customer =>
                      match images claim with
                      | Some (url :: _) =>
                          match download_from_supabase env url with
                          | Raise e => (db, Some (id, claim), Failed e)
                          | Ok image_bytes =>
                              let '(s, r) :=
                                analyse_decide_write claim customer image_bytes
                                  {| uid := id; obj := claim; stored := db |} in
                              (stored s, Some (id, obj s),
                               match r with
                               | Ok _ => Returned
                               | Raise e => Failed e
                               end)
                          end
                      | _ => (db, Some (id, claim), Returned)  (* No images *)
                      end
                  end
              end
          end
      end
  end.

(** The assignments of the handler. *)
Definition mark_error (e : exn) (c : Claim) : Claim :=
  set_reason ("Processing error: " +:+ message e) (set_status UNDER_REVIEW c).

(** The handler: with the name [claim] unbound its first assignment
    raises [NameError], which the inner [except] swallows, as it does a
    failing commit. *)
Definition on_error (claim : option (N * Claim)) (e : exn) (db : Database)
  : Database :=
  match claim with
  | None => db
  | Some (id, c) =>
      match commit (handler_commit_fault env)
              {| uid := id; obj := mark_error e c; stored := db |} with
      | (s, Ok _) => stored s
      | (_, Raise _) => db
      end
  end.

Definition process_claim (claim_id : string) (db : Database) : Database :=
  match try_block claim_id db with
  | (db', _, Returned) => db'
  | (db', claim, Failed e) => on_error claim e db'
  end.

End Pipeline.

End Processor.

(* ===================================================================== *)
(** * Concrete runs *)
(* ===================================================================== *)

(** A claim, its customer and an environment to run the services on. *)
Module Scenario.

Import Processor.

Definition policy : Customer :=
  {| policy_start_date := Date 2025 1 1;
     policy_end_date := Date 2025 12 31;
     policy_limit := 500000 |}.

(** A policy of five days: an incident on its third day is close to both
    of its ends. *)
Definition short_policy : Customer :=
  {| policy_start_date := Date 2025 1 1;
     policy_end_date := Date 2025 1 5;
     policy_limit := 500000 |}.

Definition pending_claim : Claim :=
  {| customer_id := Some 7%N;
     policy_number := "POL-00017";
     claim_type := MOTOR;
     incident_date := Civil (Date 2025 6 10) 9 30 0 0;
     images := Some ["claims/front.jpg"];
     damage_assessment := None;
     fraud_score := 0;
     fraud_flags := [];
     status := PENDING;
     estimated_amount := JInt 0;
     approved_amount := None;
     decision_reason := None;
     decision_timestamp := None |}.

Definition db0 : Database :=
  {| claims := {[ 1%N := pending_claim ]};
     customers := {[ 7%N := policy ]} |}.

(** The claim is there, its customer is not. *)
Definition db_orphan : Database :=
  {| claims := {[ 1%N := pending_claim ]};
     customers := ∅ |}.

Definition camera_exif : list (string * string) :=
  [("Make", "Canon"); ("DateTimeOriginal", "2025:06:10 09:12:44")].

(** The reply of the vision service: an object with every field. *)
Definition good_reply : string :=
  "{" +:+ quoted "damage_type" +:+ ": " +:+ quoted "Front bumper collision"
  +:+ ", " +:+ quoted "severity" +:+ ": " +:+ quoted "moderate"
  +:+ ", " +:+ quoted "estimated_cost_ngn" +:+ ": 300000"
  +:+ ", " +:+ quoted "damaged_items" +:+ ": [" +:+ quoted "Bumper" +:+ "]"
  +:+ ", " +:+ quoted "reasoning" +:+ ": " +:+ quoted "Visible dent" +:+ "}".

Definition prose_reply : string :=
  "I am sorry, the photo is too dark to assess the damage.".

(** The metadata of a photo whose camera recorded the capture time [t]. *)
Definition photo_taken (t : string) : Fraud.Metadata :=
  Fraud.extract_exif
    (fun _ => Ok [("Make", "Canon"); ("DateTimeOriginal", t)]) [].

(** A claim on the third day of a policy of five days, for a policy with
    three claims in the window and a photo without metadata. *)
Definition short_claim_data : Fraud.ClaimData :=
  {| Fraud.cd_incident_date := Some "2025-01-03T00:00:00";
     Fraud.cd_policy_number := Some "POL-00017" |}.

Definition short_policy_data : Fraud.PolicyData :=
  {| Fraud.pd_policy_start_date := Some "2025-01-01";
     Fraud.pd_policy_end_date := Some "2025-01-05" |}.

Definition three_claims : Fraud.SignalResult :=
  {| Fraud.is_suspicious := true;
     Fraud.flags := ["3 claims in last 90 days"];
     Fraud.score := 24;
     Fraud.recent_claims_count := Some 3 |}.

Definition both_boundaries : Fraud.SignalResult :=
  {| Fraud.is_suspicious := true;
     Fraud.flags := ["Claim filed 2 days after policy start";
                     "Claim filed 2 days before policy expiry"];
     Fraud.score := 25;
     Fraud.recent_claims_count := None |}.

(** A reply that is one JSON string naming the three required fields. *)
Definition names_reply : string :=
  quoted "damage_type, severity and estimated_cost_ngn are unclear".

(** The damage assessor on a reply of the vision service. *)
Definition assess_reply (reply : string) : json :=
  Damage.analyze_damage
    "You are an expert insurance claims assessor in Nigeria."
    "PRICING GUIDE (Lagos, 2025)" "PRICING GUIDE" ""
    (fun _ _ => Ok reply) json_loads_fragment [] "motor".

Definition env0 : Env :=
  {| uuid_of := fun s => if String.eqb s "claim-1" then Ok 1%N
                         else Raise (Exn ValueError "badly formed hexadecimal UUID string");
     strptime_exif := strptime_exif_fixed;
     fromisoformat := fromisoformat_fixed;
     json_loads := json_loads_fragment;
     exif_items := fun _ => Ok camera_exif;
     base_instructions := "You are an expert insurance claims assessor in Nigeria.";
     motor_template := "PRICING GUIDE (Lagos, 2025)";
     property_template := "PRICING GUIDE";
     other_template := "";
     generate_content := fun _ _ => Ok good_reply;
     count_recent_claims := fun _ => Ok (Some 1);
     download_from_supabase := fun _ => Ok [];
     utcnow := Civil (Date 2025 6 11) 8 0 0 0;
     claim_query_fault := None;
     customer_query_fault := None;
     commit_fault := None;
     handler_commit_fault := None |}.

Definition store_down : exn := Exn RuntimeError "connection is closed".

(** The history query of the frequency analyzer fails. *)
Definition env_history_down : Env :=
  {| uuid_of := uuid_of env0;
     strptime_exif := strptime_exif env0;
     fromisoformat := fromisoformat env0;
     json_loads := json_loads env0;
     exif_items := exif_items env0;
     base_instructions := base_instructions env0;
     motor_template := motor_template env0;
     property_template := property_template env0;
     other_template := other_template env0;
     generate_content := generate_content env0;
     count_recent_claims := fun _ => Raise store_down;
     download_from_supabase := download_from_supabase env0;
     utcnow := utcnow env0;
     claim_query_fault := None;
     customer_query_fault := None;
     commit_fault := None;
     handler_commit_fault := None |}.

(** The history query fails, and so does the commit of the handler. *)
Definition env_store_down : Env :=
  {| uuid_of := uuid_of env0;
     strptime_exif := strptime_exif env0;
     fromisoformat := fromisoformat env0;
     json_loads := json_loads env0;
     exif_items := exif_items env0;
     base_instructions := base_instructions env0;
     motor_template := motor_template env0;
     property_template := property_template env0;
     other_template := other_template env0;
     generate_content := generate_content env0;
     count_recent_claims := fun _ => Raise store_down;
     download_from_supabase := download_from_supabase env0;
     utcnow := utcnow env0;
     claim_query_fault := None;
     customer_query_fault := None;
     commit_fault := None;
     handler_commit_fault := Some store_down |}.

End Scenario.

(* ===================================================================== *)
(** * Vocabulary of the specification *)
(* ===================================================================== *)

Module Spec.

(** A number of days is "within 7 days" of a policy boundary. *)
Definition near (d : Z) : bool := (0 <=? d) && (d <=? 7).

(** The fields a reply of the vision service must have. *)
Definition required_fields : list string :=
  ["damage_type"; "severity"; "estimated_cost_ngn"].

(** The value of a key of a result dictionary. *)
Definition field_of (k : string) (v : json) : option json :=
  match v with
  | JObj d => dict_lookup k d
  | _ => None
  end.

(** A decoded reply is a structured record with the required fields. *)
Definition structured_record (v : json) : bool :=
  match v with
  | JObj d => forallb (fun k => bool_decide (is_Some (dict_lookup k d)))
                      required_fields
  | _ => false
  end.

(** The reply cannot be parsed as such a record. *)
Definition unparseable (json_loads : string -> result json) (reply : string)
  : bool :=
  match json_loads (strip (Damage.unfence reply)) with
  | Ok v => negb (structured_record v)
  | Raise _ => true
  end.

(** The parse failures that [_parse_response] answers with its fallback:
    the text is not JSON, or it decodes to a value in which [in] does not
    find one of the required names.  The exception is the one whose message
    the fallback reports. *)
Inductive parse_failure (json_loads : string -> result json) (text : string)
  : exn -> Prop :=
  | not_json (e : exn) :
      json_loads (strip text) = Raise e ->
      kind e = JSONDecodeError ->
      parse_failure json_loads text e
  | field_not_found (data : json) (k : string) :
      json_loads (strip text) = Ok data ->
      In k required_fields ->
      py_in k data = Ok false ->
      parse_failure json_loads text (Exn AssertionError "").

End Spec.

(* ===================================================================== *)
(** * app/schemas.py *)
(* ===================================================================== *)

Module Schemas.

(** [a > b] on two datetimes: both naive, or both aware; a mixed pair
    raises. *)
Definition dt_gt (a b : datetime) : result bool :=
  match utcoffset a, utcoffset b with
  | None, None => Ok (wall b <? wall a)
  | Some oa, Some ob => Ok (wall b - ob <? wall a - oa)
  | _, _ => Raise (Exn TypeError
                     "can't compare offset-naive and offset-aware datetimes")
  end.

(** [ClaimSubmitRequest.validate_incident_date].  The validator reads the
    clock twice; [now1] and [now2] are the two naive readings of
    [datetime.utcnow()], as wall-clock microseconds. *)
Definition validate_incident_date (now1 now2 : Z) (v : datetime)
  : result datetime :=
  let! in_future := dt_gt v (DateTime now1 None) in
  if in_future
  then Raise (Exn ValueError "Incident date cannot be in the future")
  else
    let! age := dt_sub (DateTime now2 None) v in
    let days_ago := days age in
    if 30 <? days_ago
    then Raise (Exn ValueError "Incident must be within last 30 days")
    else Ok v.

End Schemas.

(* ===================================================================== *)
(** * app/utils/storage.py *)
(* ===================================================================== *)

Module Storage.

(** [s.split('.')[-1]]: what follows the last dot, the whole string when
    there is none. *)
Fixpoint last_segment (s : string) : string :=
  match s with
  | EmptyString => EmptyString
  | String c s' =>
      if contains "." s' then last_segment s'
      else if Ascii.eqb c "." then s' else s
  end.

Definition content_types : gmap string string :=
  <["jpg" := "image/jpeg"]>
    (<["jpeg" := "image/jpeg"]>
       (<["png" := "image/png"]>
          (<["webp" := "image/webp"]> ∅))).

(** [filename.split('.')[-1] if '.' in filename else 'jpg'] *)
Definition extension (filename : string) : string :=
  if contains "." filename then last_segment filename else "jpg".

(** [content_types.get(ext.lower(), 'image/jpeg')] *)
Definition content_type_of (ext : string) : string :=
  default "image/jpeg" (content_types !! lower ext).

Section Upload.

(** [str(uuid.uuid4())], and the two calls of the storage client:
    [upload(path, bytes, {"content-type": t})] and [get_public_url(path)]. *)
Variable uuid4 : string.
Variable upload : string -> list Byte.byte -> string -> result unit.
Variable get_public_url : string -> result string.

Definition upload_image_to_supabase
    (image_bytes : list Byte.byte) (filename : string) : result string :=
  (* Generate unique filename *)
  let ext := extension filename in
  let unique_name := "claims/" +:+ uuid4 +:+ "." +:+ ext in
  (* Determine content type *)
  let content_type := content_type_of ext in
  (* Upload to Supabase Storage *)
  let! _ := upload unique_name image_bytes content_type in
  (* Get public URL *)
  get_public_url unique_name.

End Upload.

End Storage.

(* ===================================================================== *)
(** * app/routers/claims.py: the status endpoint *)
(* ===================================================================== *)

Module Router.

Import Processor.

(** How a request ends: with a response, with an [HTTPException], or with
    an exception nobody handles. *)
Inductive http (A : Type) :=
  | Respond (a : A)
  | HTTPException (status_code : Z) (detail : string)
  | Unhandled (e : exn).
Arguments Respond {A} a.
Arguments HTTPException {A} status_code detail.
Arguments Unhandled {A} e.

(** The keyword arguments handed to [ClaimResponse]. *)
Record ResponseFields := {
  claim_id : string;
  status : string;
  damage_assessment : option json;
  fraud_score : Z;
  decision : option string;
  approved_amount : option json;
  reason : option string;
  flags : list string;
  next_steps : option string
}.

Section Status.

(** [uuid.UUID(s)] and [str(u)]; the [select] of the claim, which may
    raise; and the constructor [ClaimResponse(...)] of pydantic, which
    validates its arguments. *)
Variable uuid_of : string -> result N.
Variable uuid_str : N -> string.
Variable claim_query_fault : option exn.
Variable Response : Type.
Variable ClaimResponse : ResponseFields -> result Response.

(** Determine next steps based on status. *)
Definition next_steps_of (st : ClaimStatus) : option string :=
  match st with
  | APPROVED => Some "Payment will be processed within 24 hours"
  | UNDER_REVIEW => Some "Our team will review within 4 hours"
  | REJECTED => Some "Contact our fraud investigation team"
  | PENDING => None
  end.

Definition response_fields (id : N) (claim : Claim) : ResponseFields :=
  {| claim_id := uuid_str id;
     status := status_value (Processor.status claim);
     damage_assessment := Processor.damage_assessment claim;
     fraud_score := Processor.fraud_score claim;
     decision := match decision_timestamp claim with
                 | Some _ => Some (status_value (Processor.status claim))
                 | None => None
                 end;
     approved_amount := Processor.approved_amount claim;
     reason := decision_reason claim;
     flags := fraud_flags claim;
     next_steps := next_steps_of (Processor.status claim) |}.

Definition get_claim_status (claim_id : string) (db : Database) : http Response :=
  match uuid_of claim_id with
  | Raise e =>
      match kind e with
      | ValueError => HTTPException 400 "Invalid claim ID format"
      | _ => Unhandled e
      end
  | Ok claim_uuid =>
      match claim_query_fault with
      | Some e => Unhandled e
      | None =>
          match claims db !! claim_uuid with
          | None => HTTPException 404 "Claim not found"
          | Some claim =>
              match ClaimResponse (response_fields claim_uuid claim) with
              | Ok r => Respond r
              | Raise e => Unhandled e
              end
          end
      end
  end.

End Status.

End Router.

(* ===================================================================== *)
(** * Views of a pipeline run *)
(* ===================================================================== *)

Module Views.

Import Processor.

(** The first assignments of the pipeline: the damage assessment and its
    estimated cost. *)
Definition assessed (damage_result : json) (damage : pydict) (c : Claim) : Claim :=
  set_damage damage_result (dict_get "estimated_cost_ngn" (JInt 0) damage) c.

(** The loaded claim after every assignment of the [try] block. *)
Definition decided (now : civil) (damage_result : json) (damage : pydict)
    (fraud_result : Fraud.FraudScore) (decision : Engine.Decision)
    (st : ClaimStatus) (c : Claim) : Claim :=
  set_timestamp now
    (set_outcome (Engine.approved_amount decision) (Engine.reason decision)
       (set_status st
          (set_fraud (Fraud.fraud_score fraud_result)
             (Fraud.all_flags fraud_result)
             (assessed damage_result damage c)))).

(** The report printed after the commit: whether its two amounts can be
    formatted. *)
Definition report (c : Claim) : result unit :=
  let! _ := format_comma (estimated_amount c) in
  match approved_amount c with
  | Some v => if py_bool v then format_comma v else Ok tt
  | None => Ok tt
  end.

(** The arguments of the fraud detector in the pipeline. *)
Definition claim_data_of (c : Claim) : Fraud.ClaimData :=
  {| Fraud.cd_incident_date := Some (isoformat (incident_date c));
     Fraud.cd_policy_number := Some (policy_number c) |}.

Definition policy_data_of (cu : Customer) : Fraud.PolicyData :=
  {| Fraud.pd_policy_start_date := Some (date_isoformat (policy_start_date cu));
     Fraud.pd_policy_end_date := Some (date_isoformat (policy_end_date cu)) |}.

(** The columns the pipeline only reads. *)
Definition same_inputs (a b : Claim) : Prop :=
  customer_id a = customer_id b /\ policy_number a = policy_number b /\
  claim_type a = claim_type b /\ incident_date a = incident_date b /\
  images a = images b.

(** Nothing of a decision has been assigned to [a] since [b]. *)
Definition undecided (a b : Claim) : Prop :=
  same_inputs a b /\ status a = status b /\
  approved_amount a = approved_amount b /\
  decision_reason a = decision_reason b /\
  decision_timestamp a = decision_timestamp b.

(** The value is a [dict]. *)
Definition is_dict (v : json) : bool :=
  match v with
  | JObj _ => true
  | _ => false
  end.

(** The value is an [int], a [bool] or a [float]. *)
Definition is_number (v : json) : bool :=
  match v with
  | JInt _ | JBool _ | JFloat _ => true
  | _ => false
  end.

(** [s.replace(',', '')] *)
Fixpoint without_commas (s : string) : string :=
  match s with
  | EmptyString => EmptyString
  | String c s' =>
      if Ascii.eqb c "," then without_commas s' else String c (without_commas s')
  end.

End Views.

(* ===================================================================== *)
(** * Further concrete runs *)
(* ===================================================================== *)

Module Cases.

Import Processor.

(** A low fraud analysis and an assessment that meets the criteria. *)
Definition low_fraud : Engine.FraudAnalysis :=
  {| Engine.fa_fraud_score := Some 10;
     Engine.fa_risk_level := Some Fraud.low;
     Engine.fa_flags := Some [] |}.

Definition clear_damage : pydict :=
  [("estimated_cost_ngn", JInt 300000); ("confidence", JFloat 0.9)].

Definition costly_damage : pydict :=
  [("estimated_cost_ngn", JInt 600000); ("confidence", JFloat 0.9)].

(** An assessment whose cost is a string. *)
Definition quoted_cost : pydict :=
  [("estimated_cost_ngn", JStr "300000"); ("confidence", JFloat 0.9)].

Definition approved : Engine.Decision :=
  {| Engine.decision := "approved";
     Engine.approved_amount := Some (JInt 300000);
     Engine.estimated_amount := None;
     Engine.reason := "Claim meets all approval criteria";
     Engine.flags := None;
     Engine.payment_timeline := Some "Within 24 hours";
     Engine.next_steps := "You'll receive an SMS when payment is processed" |}.

(** What [Scenario.good_reply] decodes to. *)
Definition good_record : pydict :=
  [("damage_type", JStr "Front bumper collision");
   ("severity", JStr "moderate");
   ("estimated_cost_ngn", JInt 300000);
   ("damaged_items", JArr [JStr "Bumper"]);
   ("reasoning", JStr "Visible dent")].

(** The fraud detector of [Scenario.env0] on the claim of the scenario. *)
Definition clean_score : Fraud.FraudScore :=
  {| Fraud.fraud_score := 0;
     Fraud.risk_level := Fraud.low;
     Fraud.all_flags := [];
     Fraud.details :=
       {| Fraud.metadata_details :=
            {| Fraud.is_suspicious := false; Fraud.flags := [];
               Fraud.score := 0; Fraud.recent_claims_count := None |};
          Fraud.frequency_details :=
            {| Fraud.is_suspicious := false; Fraud.flags := [];
               Fraud.score := 0; Fraud.recent_claims_count := Some 1 |};
          Fraud.timing_details :=
            {| Fraud.is_suspicious := false; Fraud.flags := [];
               Fraud.score := 0; Fraud.recent_claims_count := None |} |} |}.

(** The metadata analyzer on a photo taken seven days and one hour before
    the claimed date. *)
Definition week_old_photo : Fraud.SignalResult :=
  Fraud.check_metadata_fraud strptime_exif_fixed fromisoformat_fixed
    (Scenario.photo_taken "2025:01:01 00:00:00") "2025-01-08T01:00:00".

(** [Scenario.env0] with another vision reply, history store, download and
    other failing database calls. *)
Definition env_with
    (reply : result string)
    (history : string -> result (option Z))
    (download : string -> result (list Byte.byte))
    (customer_fault commit_failure handler_failure : option exn) : Env :=
  {| uuid_of := uuid_of Scenario.env0;
     strptime_exif := strptime_exif Scenario.env0;
     fromisoformat := fromisoformat Scenario.env0;
     json_loads := json_loads Scenario.env0;
     exif_items := exif_items Scenario.env0;
     base_instructions := base_instructions Scenario.env0;
     motor_template := motor_template Scenario.env0;
     property_template := property_template Scenario.env0;
     other_template := other_template Scenario.env0;
     generate_content := fun _ _ => reply;
     count_recent_claims := history;
     download_from_supabase := download;
     utcnow := utcnow Scenario.env0;
     claim_query_fault := None;
     customer_query_fault := customer_fault;
     commit_fault := commit_failure;
     handler_commit_fault := handler_failure |}.

Definition timeout : exn := Exn RuntimeError "download timed out".

(** The image cannot be downloaded. *)
Definition env_download_down : Env :=
  env_with (Ok Scenario.good_reply) (fun _ => Ok (Some 1))
    (fun _ => Raise timeout) None None None.

(** The vision service answers with one JSON string. *)
Definition env_string_reply : Env :=
  env_with (Ok Scenario.names_reply) (fun _ => Ok (Some 1))
    (fun _ => Ok []) None None None.


(** A claim that lists no image, and a second claim of the same customer. *)
Definition imageless_claim : Claim :=
  {| customer_id := Some 7%N;
     policy_number := "POL-00017";
     claim_type := PROPERTY;
     incident_date := Civil (Date 2025 6 9) 18 0 0 0;
     images := Some [];
     damage_assessment := None;
     fraud_score := 0;
     fraud_flags := [];
     status := PENDING;
     estimated_amount := JInt 0;
     approved_amount := None;
     decision_reason := None;
     decision_timestamp := None |}.

Definition db_imageless : Database :=
  {| claims := {[ 1%N := imageless_claim ]};
     customers := {[ 7%N := Scenario.policy ]} |}.

Definition db_two : Database :=
  {| claims := <[ 2%N := imageless_claim ]> {[ 1%N := Scenario.pending_claim ]};
     customers := {[ 7%N := Scenario.policy ]} |}.

(** The status endpoint with a validation that accepts its arguments. *)
Definition uuid_text (n : N) : string :=
  "00000000-0000-0000-0000-00000000000" +:+ pretty n.

Definition accept (fields : Router.ResponseFields)
  : result Router.ResponseFields := Ok fields.

(** A storage client that takes PNG uploads only. *)
Definition png_only (path : string) (content : list Byte.byte)
    (content_type : string) : result unit :=
  if String.eqb content_type "image/png" then Ok tt
  else Raise (Exn ValueError "mime type not supported").

Definition public_url (path : string) : result string :=
  Ok ("https://cdn.example/" +:+ path).

End Cases.

(* ===================================================================== *)
(** * Properties of the fraud analyzers *)
(* ===================================================================== *)

Section FraudFacts.

Import Fraud Spec.

Variable strptime_exif : string -> result datetime.
Variable fromisoformat : string -> result datetime.
Variable exif_items : list Byte.byte -> result (list (string * string)).
Variable count_recent_claims : string -> result (option Z).

(** The metadata analyzer caps its score at 20. *)
Lemma metadata_score_bounds (metadata : Metadata) (claimed_date : string) :
  0 <= score (check_metadata_fraud strptime_exif fromisoformat
                metadata claimed_date) <= 20.
Proof.
  unfold check_metadata_fraud.
  repeat case_match; simplify_eq; cbn [score]; lia.
Qed.

(** What the frequency analyzer returns for a count read from the store;
    a [None] scalar counts as zero. *)
Lemma check_claim_history_eq (policy_number : string) (scalar : option Z) :
  count_recent_claims policy_number = Ok scalar ->
  let recent_claims := default 0 scalar in
  check_claim_history count_recent_claims policy_number =
  Ok {| is_suspicious := 2 <? recent_claims;
        flags := if 2 <? recent_claims
                 then [str_int recent_claims +:+ " claims in last 90 days"]
                 else [];
        score := if 2 <? recent_claims
                 then Z.min 25 (recent_claims * 8) else 0;
        recent_claims_count := Some recent_claims |}.
Proof.
  intros Hq. unfold check_claim_history. rewrite Hq. cbn [bind].
  destruct (2 <? default 0 scalar); reflexivity.
Qed.

Lemma frequency_score_bounds (policy_number : string) (r : SignalResult) :
  check_claim_history count_recent_claims policy_number = Ok r ->
  0 <= score r <= 25.
Proof.
  unfold check_claim_history.
  destruct (count_recent_claims policy_number) as [scalar|e]; cbn [bind];
    [|discriminate].
  destruct (2 <? default 0 scalar) eqn:Hc; intros [= <-]; cbn [score]; lia.
Qed.

(** What the timing analyzer returns once the three dates are parsed and
    can be subtracted: the two signals add up. *)
Lemma check_suspicious_timing_eq
    (incident_date policy_start_date policy_end_date : string)
    (incident policy_start policy_end : datetime) (a b : timedelta) :
  fromisoformat (replace_Z incident_date) = Ok incident ->
  fromisoformat policy_start_date = Ok policy_start ->
  fromisoformat policy_end_date = Ok policy_end ->
  dt_sub incident policy_start = Ok a ->
  dt_sub policy_end incident = Ok b ->
  check_suspicious_timing fromisoformat
    incident_date policy_start_date policy_end_date =
  Ok {| is_suspicious := near (days a) || near (days b);
        flags :=
          (if near (days a)
           then ["Claim filed " +:+ str_int (days a) +:+ " days after policy start"]
           else [])
          ++ (if near (days b)
              then ["Claim filed " +:+ str_int (days b)
                    +:+ " days before policy expiry"]
              else []);
        score := (if near (days a) then 10 else 0)
                 + (if near (days b) then 15 else 0);
        recent_claims_count := None |}.
Proof.
  intros Hi Hs He Ha Hb. unfold check_suspicious_timing, near.
  rewrite Hi, Hs, He. cbn [bind]. rewrite Ha. cbn [bind]. 
  destruct ((0 <=? days a) && (days a <=? 7)).
  all: rewrite Hb; cbn [bind].
  all: destruct ((0 <=? days b) && (days b <=? 7)); reflexivity.
Qed.

(** The timing analyzer never scores above 25, the sum of its two
    signals. *)
Lemma timing_score_bounds
    (incident_date policy_start_date policy_end_date : string)
    (r : SignalResult) :
  check_suspicious_timing fromisoformat
    incident_date policy_start_date policy_end_date = Ok r ->
  0 <= score r <= 25.
Proof.
  unfold check_suspicious_timing. intros Hr.
  destruct (bind (fromisoformat (replace_Z incident_date)) _)
    as [[[incident policy_start] policy_end]|]; simplify_eq.
  - destruct (dt_sub incident policy_start) as [a|]; cbn [bind] in Hr;
      [|discriminate].
    destruct ((0 <=? days a) && (days a <=? 7)).
    all: destruct (dt_sub policy_end incident) as [b|]; cbn [bind] in Hr;
      [|discriminate].
    all: destruct ((0 <=? days b) && (days b <=? 7)); simplify_eq;
      cbn [score]; lia.
  - cbn [score no_timing_signal]. lia.
Qed.

(** On what [extract_exif] builds the metadata analyzer stays at 15: a
    photo without metadata has neither a capture time nor a software tag,
    and one with metadata misses the first signal. *)
Lemma extracted_metadata_score_at_most_15
    (image_bytes : list Byte.byte) (claimed_date : string) :
  score (check_metadata_fraud strptime_exif fromisoformat
           (extract_exif exif_items image_bytes) claimed_date) <= 15.
Proof.
  unfold extract_exif.
  destruct (exif_items image_bytes) as [items|e]; [|cbn; lia].
  destruct (Nat.eqb_spec (size (collect items)) 0) as [Hempty|Hsome].
  - apply map_size_empty_inv in Hempty. rewrite Hempty.
    rewrite !lookup_empty. cbn. lia.
  - unfold check_metadata_fraud. cbn [has_metadata negb].
    repeat case_match; simplify_eq; cbn [score]; lia.
Qed.

(** The date-mismatch test [abs(delta.days) > 7] in terms of the elapsed
    time [delta = photo - claim]: a photo earlier than the claimed date by
    more than 7 days, or later by 8 days or more. *)
Lemma date_mismatch_threshold (delta : timedelta) :
  (7 <? Z.abs (days delta)) = true <->
  delta < - (7 * us_per_day) \/ 8 * us_per_day <= delta.
Proof.
  unfold days. rewrite Z.ltb_lt.
  pose proof (Z.div_mod delta us_per_day) as Hdm.
  pose proof (Z.mod_pos_bound delta us_per_day) as Hb.
  change us_per_day with 86400000000 in *. lia.
Qed.

(** C7.  The frequency analyzer has a strict boundary at a count above 2:
    for every 90-day count read from the history store, a count above 2
    scores [min(25, count * 8)] and is suspicious, any other count scores
    0 and is not suspicious; exactly 3 claims score 24 and are suspicious,
    exactly 2 score 0 and are not. *)
Theorem frequency_strict_boundary (policy_number : string) (count : Z) :
  count_recent_claims policy_number = Ok (Some count) ->
  exists r,
    check_claim_history count_recent_claims policy_number = Ok r /\
    (2 < count -> score r = Z.min 25 (count * 8) /\ is_suspicious r = true) /\
    (count <= 2 -> score r = 0 /\ is_suspicious r = false) /\
    (count = 3 -> score r = 24 /\ is_suspicious r = true) /\
    (count = 2 -> score r = 0 /\ is_suspicious r = false).
Proof.
  intros Hq. eexists. split.
  { apply (check_claim_history_eq policy_number (Some count) Hq). }
  cbn -[Z.min Z.mul Z.ltb].
  split; [intros Hc | split; [intros Hc | split; intros ->]].
  - destruct (Z.ltb_spec 2 count); [split; reflexivity | lia].
  - destruct (Z.ltb_spec 2 count); [lia | split; reflexivity].
  - split; reflexivity.
  - split; reflexivity.
Qed.

(** C3.  The two boundary conditions of the timing analyzer add up: for
    every incident date whose distance in days to the policy start and to
    the policy end both lie between 0 and 7, the analyzer returns score
    25 (10 for the start, 15 for the end), is suspicious, and returns one
    flag with the number of days after the start followed by one flag
    with the number of days before expiry. *)
Theorem timing_both_boundaries
    (incident_date policy_start_date policy_end_date : string)
    (incident policy_start policy_end : datetime) (a b : timedelta) :
  fromisoformat (replace_Z incident_date) = Ok incident ->
  fromisoformat policy_start_date = Ok policy_start ->
  fromisoformat policy_end_date = Ok policy_end ->
  dt_sub incident policy_start = Ok a ->
  dt_sub policy_end incident = Ok b ->
  0 <= days a <= 7 ->
  0 <= days b <= 7 ->
  check_suspicious_timing fromisoformat
    incident_date policy_start_date policy_end_date =
  Ok {| is_suspicious := true;
        flags := ["Claim filed " +:+ str_int (days a)
                  +:+ " days after policy start";
                  "Claim filed " +:+ str_int (days b)
                  +:+ " days before policy expiry"];
        score := 10 + 15;
        recent_claims_count := None |}.
Proof.
  intros Hi Hs He Ha Hb Hnear_start Hnear_end.
  rewrite (check_suspicious_timing_eq _ _ _ _ _ _ _ _ Hi Hs He Ha Hb).
  assert (near (days a) = true) as ->
    by (unfold near; apply andb_true_intro; split; apply Z.leb_le; lia).
  assert (near (days b) = true) as ->
    by (unfold near; apply andb_true_intro; split; apply Z.leb_le; lia).
  reflexivity.
Qed.

(** C4.  Whenever the frequency and the timing analyzer return, the
    aggregator returns; its fraud_score is the minimum of 100 and the sum
    of the three analyzer scores, its flags are the analyzer flags in the
    order metadata, frequency, timing, and its risk_level follows the sum:
    up to 30 low, up to 70 medium, above 70 high. *)
Theorem aggregate_score_flags_risk
    (image_bytes : list Byte.byte)
    (claim_data : ClaimData) (policy_data : PolicyData)
    (f t : SignalResult) :
  check_claim_history count_recent_claims
    (default "" (cd_policy_number claim_data)) = Ok f ->
  check_suspicious_timing fromisoformat
    (default "" (cd_incident_date claim_data))
    (default "" (pd_policy_start_date policy_data))
    (default "" (pd_policy_end_date policy_data)) = Ok t ->
  let m := check_metadata_fraud strptime_exif fromisoformat
             (extract_exif exif_items image_bytes)
             (default "" (cd_incident_date claim_data)) in
  let total := score m + score f + score t in
  exists r,
    calculate_fraud_score strptime_exif fromisoformat exif_items
      count_recent_claims image_bytes claim_data policy_data = Ok r /\
    fraud_score r = Z.min 100 total /\
    all_flags r = flags m ++ flags f ++ flags t /\
    (total <= 30 -> risk_level r = low) /\
    (30 < total <= 70 -> risk_level r = medium) /\
    (70 < total -> risk_level r = high).
Proof.
  intros Hf Ht m total. unfold calculate_fraud_score.
  rewrite Hf. cbn [bind]. rewrite Ht. cbn [bind].
  eexists. split; [reflexivity|].
  cbn [fraud_score all_flags risk_level]. fold m.
  replace (0 + score m + score f + score t) with total by (unfold total; lia).
  split; [apply Z.min_comm|].
  split; [rewrite app_nil_l, app_assoc; reflexivity|].
  unfold risk_of.
  destruct (Z.leb_spec total 30), (Z.leb_spec total 70);
    repeat split; intros; first [reflexivity | lia].
Qed.

End FraudFacts.

(** Witness of [frequency_strict_boundary]: three claims in the window. *)
Lemma frequency_strict_boundary_witness :
  (fun _ : string => Ok (Some 3)) "POL-00017" = Ok (Some 3) /\
  exists r,
    Fraud.check_claim_history (fun _ => Ok (Some 3)) "POL-00017" = Ok r /\
    Fraud.score r = 24 /\ Fraud.is_suspicious r = true.
Proof.
  split; [reflexivity|].
  destruct (frequency_strict_boundary (fun _ => Ok (Some 3)) "POL-00017" 3 eq_refl)
    as (r & Hr & _ & _ & H3 & _).
  exists r. split; [exact Hr | apply H3; reflexivity].
Defined.

(** Witness of [timing_both_boundaries]: the third day of a policy of five
    days. *)
Lemma timing_both_boundaries_witness :
  Fraud.check_suspicious_timing fromisoformat_fixed
    "2025-01-03T00:00:00" "2025-01-01" "2025-01-05" =
  Ok {| Fraud.is_suspicious := true;
        Fraud.flags := ["Claim filed 2 days after policy start";
                        "Claim filed 2 days before policy expiry"];
        Fraud.score := 25;
        Fraud.recent_claims_count := None |}.
Proof.
  apply (timing_both_boundaries fromisoformat_fixed
           "2025-01-03T00:00:00" "2025-01-01" "2025-01-05"
           (naive 2025 1 3 0 0 0) (naive 2025 1 1 0 0 0) (naive 2025 1 5 0 0 0)
           (2 * us_per_day) (2 * us_per_day));
    first [reflexivity | vm_compute; split; discriminate].
Defined.

(** Witness of [aggregate_score_flags_risk]: no metadata (15), three claims
    in the window (24), both policy boundaries (25). *)
Lemma aggregate_score_flags_risk_witness :
  exists r,
    Fraud.calculate_fraud_score strptime_exif_fixed fromisoformat_fixed
      (fun _ => Ok []) (fun _ => Ok (Some 3)) []
      Scenario.short_claim_data Scenario.short_policy_data = Ok r /\
    Fraud.fraud_score r = 64 /\
    Fraud.all_flags r = ["Metadata stripped or missing";
                         "3 claims in last 90 days";
                         "Claim filed 2 days after policy start";
                         "Claim filed 2 days before policy expiry"] /\
    Fraud.risk_level r = Fraud.medium.
Proof.
  destruct (aggregate_score_flags_risk strptime_exif_fixed fromisoformat_fixed
              (fun _ => Ok []) (fun _ => Ok (Some 3)) []
              Scenario.short_claim_data Scenario.short_policy_data
              Scenario.three_claims Scenario.both_boundaries)
    as (r & Hr & Hscore & Hflags & _ & Hmedium & _).
  - vm_compute. reflexivity.
  - vm_compute. reflexivity.
  - exists r. split; [exact Hr|]. split; [rewrite Hscore; reflexivity|].
    split; [rewrite Hflags; reflexivity|].
    apply Hmedium. vm_compute. split; [reflexivity | discriminate].
Defined.

(** C2.  The timing analyzer, documented to score between 0 and 15,
    returns 25 for an incident on the third day of a policy of five days:
    both of its signals fire.  (The metadata and the frequency analyzer keep
    to their caps of 20 and 25, [metadata_score_bounds] and
    [frequency_score_bounds]; the timing analyzer keeps to 25,
    [timing_score_bounds].) *)
Theorem timing_score_above_documented_cap :
  exists r,
    Fraud.check_suspicious_timing fromisoformat_fixed
      "2025-01-03T00:00:00" "2025-01-01" "2025-01-05" = Ok r /\
    Fraud.score r = 25 /\ 15 < Fraud.score r.
Proof.
  exists Scenario.both_boundaries.
  split; [vm_compute; reflexivity|]. split; reflexivity.
Qed.

(** C8.  The date-mismatch signal is not symmetric.  A photo taken 7 days
    and 1 hour before the claimed incident date gets the +10 and a flag of
    8 days; a photo taken 7 days and 1 hour after it, which also differs by
    more than 7 days, gets nothing ([date_mismatch_threshold] has the
    general rule).  Nor does a photo taken two months before a claimed date
    written with a trailing Z: the naive capture time cannot be subtracted
    from the aware claimed date, and the [TypeError] is swallowed. *)
Theorem date_mismatch_not_symmetric :
  dt_sub (naive 2025 1 1 0 0 0) (naive 2025 1 8 1 0 0)
    = Ok (- (7 * us_per_day + 3600 * 1000000)) /\
  Fraud.check_metadata_fraud strptime_exif_fixed fromisoformat_fixed
    (Scenario.photo_taken "2025:01:01 00:00:00") "2025-01-08T01:00:00"
    = {| Fraud.is_suspicious := false;
         Fraud.flags := ["Photo taken 8 days from claim date"];
         Fraud.score := 10;
         Fraud.recent_claims_count := None |} /\
  dt_sub (naive 2025 1 15 1 0 0) (naive 2025 1 8 0 0 0)
    = Ok (7 * us_per_day + 3600 * 1000000) /\
  Fraud.check_metadata_fraud strptime_exif_fixed fromisoformat_fixed
    (Scenario.photo_taken "2025:01:15 01:00:00") "2025-01-08T00:00:00"
    = {| Fraud.is_suspicious := false;
         Fraud.flags := [];
         Fraud.score := 0;
         Fraud.recent_claims_count := None |} /\
  Fraud.check_metadata_fraud strptime_exif_fixed fromisoformat_fixed
    (Scenario.photo_taken "2025:01:01 00:00:00") "2025-03-01T00:00:00Z"
    = {| Fraud.is_suspicious := false;
         Fraud.flags := [];
         Fraud.score := 0;
         Fraud.recent_claims_count := None |}.
Proof.
  repeat split; vm_compute; reflexivity.
Qed.

(* ===================================================================== *)
(** * Properties of the decision engine *)
(* ===================================================================== *)

Section EngineFacts.

Import Engine.

Variable damage_assessment : pydict.
Variable fraud_analysis : FraudAnalysis.
Variable policy_limit : Z.

Let fraud_score := default 0 (fa_fraud_score fraud_analysis).
Let estimated_cost := dict_get "estimated_cost_ngn" (JInt 0) damage_assessment.
Let confidence := dict_get "confidence" (JFloat 1.0) damage_assessment.

(** The engine returns a decision with this verdict and this approved
    amount. *)
Let decided (verdict : string) (amount : option json) : Prop :=
  exists d,
    make_decision damage_assessment fraud_analysis policy_limit = Ok d /\
    decision d = verdict /\ approved_amount d = amount.

(** C1.  The five rules are tried in order and the first match wins: a
    fraud_score above 70 is rejected without an approved amount; otherwise
    one above 30 is under review; otherwise an estimated cost above the
    policy limit is under review; otherwise a confidence below 0.6 is
    under review; otherwise the claim is approved for the estimated cost.
    A fraud_score of 75 is rejected whatever the cost and the
    confidence. *)
Theorem make_decision_first_match :
  (70 < fraud_score -> decided "rejected" None) /\
  (fraud_score <= 70 -> 30 < fraud_score -> decided "under_review" None) /\
  (fraud_score <= 30 ->
   py_gt_int estimated_cost policy_limit = Ok true ->
   decided "under_review" None) /\
  (fraud_score <= 30 ->
   py_gt_int estimated_cost policy_limit = Ok false ->
   py_lt_float confidence 0.6 = Ok true ->
   decided "under_review" None) /\
  (fraud_score <= 30 ->
   py_gt_int estimated_cost policy_limit = Ok false ->
   py_lt_float confidence 0.6 = Ok false ->
   decided "approved" (Some estimated_cost)) /\
  (fraud_score = 75 -> decided "rejected" None).
Proof.
  unfold decided, make_decision.
  fold fraud_score estimated_cost confidence.
  repeat apply conj.
  - intros H1. apply Z.ltb_lt in H1. rewrite H1. eauto.
  - intros H1 H2. apply Z.ltb_ge in H1. apply Z.ltb_lt in H2.
    rewrite H1, H2. eauto.
  - intros H1 Hc.
    assert ((70 <? fraud_score) = false) as -> by (apply Z.ltb_ge; lia).
    assert ((30 <? fraud_score) = false) as -> by (apply Z.ltb_ge; lia).
    rewrite Hc. cbn [bind]. eauto.
  - intros H1 Hc Hu.
    assert ((70 <? fraud_score) = false) as -> by (apply Z.ltb_ge; lia).
    assert ((30 <? fraud_score) = false) as -> by (apply Z.ltb_ge; lia).
    rewrite Hc. cbn [bind]. rewrite Hu. cbn [bind]. eauto.
  - intros H1 Hc Hu.
    assert ((70 <? fraud_score) = false) as -> by (apply Z.ltb_ge; lia).
    assert ((30 <? fraud_score) = false) as -> by (apply Z.ltb_ge; lia).
    rewrite Hc. cbn [bind]. rewrite Hu. cbn [bind]. eauto.
  - intros ->. cbn. eauto.
Qed.

(** On an integer cost and a float confidence the two tests of rules 3 and
    4 are the comparisons of [Z] and of binary64. *)
Lemma comparisons_on_numbers (cost : Z) (c : float) :
  py_gt_int (JInt cost) policy_limit = Ok (policy_limit <? cost) /\
  py_lt_float (JFloat c) 0.6 = Ok (PrimFloat.ltb c 0.6).
Proof. split; reflexivity. Qed.

End EngineFacts.

(** Witness of [make_decision_first_match]: a fraud score of 75 with cost 0
    and confidence 1.0 is rejected; a fraud score of 10 with cost 300000
    under a limit of 500000 and confidence 0.9 is approved for 300000. *)
Lemma make_decision_first_match_witness :
  (exists d,
     Engine.make_decision
       [("estimated_cost_ngn", JInt 0); ("confidence", JFloat 1.0)]
       {| Engine.fa_fraud_score := Some 75;
          Engine.fa_risk_level := Some Fraud.high;
          Engine.fa_flags := Some [] |} 500000 = Ok d /\
     Engine.decision d = "rejected" /\ Engine.approved_amount d = None) /\
  (exists d,
     Engine.make_decision
       [("estimated_cost_ngn", JInt 300000); ("confidence", JFloat 0.9)]
       {| Engine.fa_fraud_score := Some 10;
          Engine.fa_risk_level := Some Fraud.low;
          Engine.fa_flags := Some [] |} 500000 = Ok d /\
     Engine.decision d = "approved" /\
     Engine.approved_amount d = Some (JInt 300000)).
Proof.
  split.
  - apply (make_decision_first_match
             [("estimated_cost_ngn", JInt 0); ("confidence", JFloat 1.0)]
             {| Engine.fa_fraud_score := Some 75;
                Engine.fa_risk_level := Some Fraud.high;
                Engine.fa_flags := Some [] |} 500000).
    reflexivity.
  - apply (make_decision_first_match
             [("estimated_cost_ngn", JInt 300000); ("confidence", JFloat 0.9)]
             {| Engine.fa_fraud_score := Some 10;
                Engine.fa_risk_level := Some Fraud.low;
                Engine.fa_flags := Some [] |} 500000).
    + vm_compute. discriminate.
    + reflexivity.
    + vm_compute. reflexivity.
Defined.


(* ===================================================================== *)
(** * The fraud score that reaches the decision engine *)
(* ===================================================================== *)

Section ScoreRange.

Import Fraud Engine.

Variable strptime_exif : string -> result datetime.
Variable fromisoformat : string -> result datetime.
Variable exif_items : list Byte.byte -> result (list (string * string)).
Variable count_recent_claims : string -> result (option Z).

(** Rule 1 needs a fraud score above 70. *)
Lemma rejected_only_above_70
    (damage_assessment : pydict) (fraud_analysis : FraudAnalysis)
    (policy_limit : Z) (d : Decision) :
  make_decision damage_assessment fraud_analysis policy_limit = Ok d ->
  decision d = "rejected" ->
  70 < default 0 (fa_fraud_score fraud_analysis).
Proof.
  unfold make_decision. intros Hd Hrej.
  destruct (Z.ltb_spec 70 (default 0 (fa_fraud_score fraud_analysis)));
    [assumption|].
  exfalso.
  destruct (30 <? default 0 (fa_fraud_score fraud_analysis)).
  { injection Hd as <-. discriminate Hrej. }
  destruct (py_gt_int _ policy_limit) as [[|]|]; cbn [bind] in Hd;
    [injection Hd as <-; discriminate Hrej | | discriminate Hd].
  destruct (py_lt_float _ _) as [[|]|]; cbn [bind] in Hd;
    [injection Hd as <-; discriminate Hrej
    |injection Hd as <-; discriminate Hrej
    |discriminate Hd].
Qed.

(** C10.  Every fraud score the aggregator produces is at most 70, the sum
    of what the three analyzers can reach (20, 25 and 25): it is the plain
    sum of the analyzer scores, the cap at 100 never binds, the risk level
    is never high, and the decision engine never answers it with a
    rejection. *)
Theorem fraud_score_at_most_70
    (image_bytes : list Byte.byte)
    (claim_data : ClaimData) (policy_data : PolicyData) (r : FraudScore) :
  calculate_fraud_score strptime_exif fromisoformat exif_items
    count_recent_claims image_bytes claim_data policy_data = Ok r ->
  fraud_score r <= 70 /\
  fraud_score r = score (metadata_details (details r))
                  + score (frequency_details (details r))
                  + score (timing_details (details r)) /\
  risk_level r <> high /\
  forall (damage_assessment : pydict) (policy_limit : Z) (d : Decision),
    make_decision damage_assessment (of_fraud_score r) policy_limit = Ok d ->
    decision d <> "rejected".
Proof.
  unfold calculate_fraud_score. intros Hr.
  destruct (check_claim_history _ _) as [f|] eqn:Hf; cbn [bind] in Hr;
    [|discriminate].
  destruct (check_suspicious_timing _ _ _ _) as [t|] eqn:Ht; cbn [bind] in Hr;
    [|discriminate].
  pose proof (metadata_score_bounds strptime_exif fromisoformat
                (extract_exif exif_items image_bytes)
                (default "" (cd_incident_date claim_data))) as Hm.
  apply frequency_score_bounds in Hf. apply timing_score_bounds in Ht.
  set (m := check_metadata_fraud _ _ _ _) in *.
  assert (Hcap : fraud_score r <= 70 /\
                 fraud_score r = score m + score f + score t)
    by (simplify_eq; cbn [fraud_score]; lia).
  simplify_eq. cbn [details metadata_details frequency_details timing_details
                    risk_level] in *.
  destruct Hcap as [Hle Heq].
  split; [exact Hle|]. split; [exact Heq|]. split.
  - unfold risk_of. repeat case_match; try discriminate. lia.
  - intros damage_assessment policy_limit d Hd Hrej.
    apply (rejected_only_above_70 _ _ _ _ Hd) in Hrej.
    cbn in Hrej. lia.
Qed.

End ScoreRange.

(** Witness of [fraud_score_at_most_70]: the run with no metadata, three
    claims in the window and both policy boundaries scores 64. *)
Lemma fraud_score_at_most_70_witness :
  exists r,
    Fraud.calculate_fraud_score strptime_exif_fixed fromisoformat_fixed
      (fun _ => Ok []) (fun _ => Ok (Some 3)) []
      Scenario.short_claim_data Scenario.short_policy_data = Ok r /\
    Fraud.fraud_score r = 64 /\
    Fraud.fraud_score r <= 70 /\
    Fraud.risk_level r <> Fraud.high.
Proof.
  eexists. split; [vm_compute; reflexivity|]. split; [reflexivity|].
  match goal with
  | |- Fraud.fraud_score ?r <= 70 /\ _ =>
      destruct (fraud_score_at_most_70 strptime_exif_fixed fromisoformat_fixed
                  (fun _ => Ok []) (fun _ => Ok (Some 3)) []
                  Scenario.short_claim_data Scenario.short_policy_data r)
        as (Hle & _ & Hrisk & _)
  end.
  - vm_compute. reflexivity.
  - split; [exact Hle | exact Hrisk].
Defined.

(** Each analyzer reaches its maximum: 20 for a metadata dictionary with all
    three signals, 25 for four claims in the window, 25 for the third day of
    a policy of five days. *)
Lemma analyzer_maxima_attained :
  Fraud.score
    (Fraud.check_metadata_fraud strptime_exif_fixed fromisoformat_fixed
       {| Fraud.has_metadata := false;
          Fraud.datetime_original := Some "2025:01:01 00:00:00";
          Fraud.make := None; Fraud.model := None; Fraud.gps_info := None;
          Fraud.software := Some "Adobe Photoshop 25.0";
          Fraud.error := None |}
       "2025-02-01T00:00:00") = 20 /\
  (exists r, Fraud.check_claim_history (fun _ => Ok (Some 4)) "POL-00017" = Ok r
             /\ Fraud.score r = 25) /\
  (exists r, Fraud.check_suspicious_timing fromisoformat_fixed
               "2025-01-03T00:00:00" "2025-01-01" "2025-01-05" = Ok r
             /\ Fraud.score r = 25).
Proof.
  split; [vm_compute; reflexivity|].
  split; eexists; (split; [vm_compute; reflexivity | reflexivity]).
Qed.

(* ===================================================================== *)
(** * Properties of the damage assessor *)
(* ===================================================================== *)

Lemma take_length (n : nat) (s : string) : (String.length (take n s) <= n)%nat.
Proof.
  revert s. induction n as [|n IH]; intros [|c s]; cbn; try lia.
  specialize (IH s). lia.
Qed.

Section DamageFacts.

Import Damage Spec.

Variable base_instructions : string.
Variable motor_template property_template other_template : string.
Variable generate_content : string -> list Byte.byte -> result string.
Variable json_loads : string -> result json.

(** A parse failure leaves the [try] block of [_parse_response] with the
    exception it names. *)
Lemma load_and_validate_fails (text : string) (e : exn) :
  parse_failure json_loads text e ->
  load_and_validate json_loads text = Raise e /\
  (kind e = JSONDecodeError \/ kind e = AssertionError).
Proof.
  intros [e' Hload Hkind | data k Hload Hk Hin]; unfold load_and_validate.
  - rewrite Hload. cbn [bind]. auto.
  - rewrite Hload. cbn [bind]. split; [|right; reflexivity].
    assert (Hall : forall k', exists b, py_in k' data = Ok b).
    { intros k'. destruct data; cbn in Hin |- *; try discriminate; eauto. }
    destruct (Hall "damage_type") as [b1 H1].
    destruct (Hall "severity") as [b2 H2].
    destruct (Hall "estimated_cost_ngn") as [b3 H3].
    rewrite H1. cbn [bind].
    destruct b1; [|reflexivity]. cbn [bind py_assert]. rewrite H2. cbn [bind].
    destruct b2; [|reflexivity]. cbn [bind py_assert]. rewrite H3. cbn [bind].
    destruct b3; [|reflexivity].
    cbn in Hk. destruct Hk as [<-|[<-|[<-|[]]]]; congruence.
Qed.

(** C5, as the code has it.  For every reply that is not JSON, or that
    decodes to a value in which one of damage_type, severity and
    estimated_cost_ngn is not found, the assessor returns the parse
    fallback: damage_type "Unable to determine", severity "moderate",
    estimated_cost_ngn 200000, no damaged items, confidence 0.5, a reasoning
    that reports the parse error, and the first 500 characters at most of
    the reply without its code fence; the fallback carries neither an
    is_fallback nor an error key. *)
Theorem parse_failure_fallback
    (image_bytes : list Byte.byte) (claim_type reply : string) (e : exn) :
  generate_content
    (_get_prompt base_instructions motor_template property_template
       other_template claim_type) image_bytes = Ok reply ->
  parse_failure json_loads (unfence reply) e ->
  let result :=
    analyze_damage base_instructions motor_template property_template
      other_template generate_content json_loads image_bytes claim_type in
  let raw := take 500 (unfence reply) in
  result = JObj [("damage_type", JStr "Unable to determine");
                 ("severity", JStr "moderate");
                 ("estimated_cost_ngn", JInt 200000);
                 ("damaged_items", JArr []);
                 ("confidence", JFloat 0.5);
                 ("reasoning", JStr ("Error parsing response: " +:+ message e));
                 ("raw_response", JStr raw)] /\
  (String.length raw <= 500)%nat /\
  field_of "is_fallback" result = None /\
  field_of "error" result = None.
Proof.
  intros Hreply Hfail result raw.
  assert (Hres : result = parse_fallback e (unfence reply)).
  { unfold result, analyze_damage. rewrite Hreply. cbn [bind].
    unfold _parse_response.
    destruct (load_and_validate_fails _ _ Hfail) as [-> Hkind].
    cbn [try_except]. destruct Hkind as [-> | ->]; reflexivity. }
  rewrite Hres. split; [reflexivity|]. split; [apply take_length|].
  split; reflexivity.
Qed.

End DamageFacts.

(** Witness of [parse_failure_fallback]: a reply in prose. *)
Lemma parse_failure_fallback_witness :
  Spec.parse_failure json_loads_fragment (Damage.unfence Scenario.prose_reply)
    (Exn JSONDecodeError "Expecting value") /\
  Scenario.assess_reply Scenario.prose_reply =
  JObj [("damage_type", JStr "Unable to determine");
        ("severity", JStr "moderate");
        ("estimated_cost_ngn", JInt 200000);
        ("damaged_items", JArr []);
        ("confidence", JFloat 0.5);
        ("reasoning", JStr "Error parsing response: Expecting value");
        ("raw_response", JStr Scenario.prose_reply)].
Proof.
  assert (Hfail : Spec.parse_failure json_loads_fragment
                    (Damage.unfence Scenario.prose_reply)
                    (Exn JSONDecodeError "Expecting value"))
    by (apply Spec.not_json; vm_compute; reflexivity).
  split; [exact Hfail|].
  apply (parse_failure_fallback
           "You are an expert insurance claims assessor in Nigeria."
           "PRICING GUIDE (Lagos, 2025)" "PRICING GUIDE" ""
           (fun _ _ => Ok Scenario.prose_reply) json_loads_fragment
           [] "motor" Scenario.prose_reply _ eq_refl Hfail).
Defined.

(** Counterexample to C5 as stated.  The reply [123] is JSON but no record:
    the membership test raises [TypeError], which [_parse_response] does not
    catch, and the assessor answers with its call-failure fallback, of
    confidence 0.3 and without the raw reply.  A reply that is one JSON
    string containing the three names passes the three tests and is
    returned as it is.  And the fallback for a reply in prose has no
    is_fallback field. *)
Lemma parse_fallback_counterexample :
  Spec.unparseable json_loads_fragment "123" = true /\
  Scenario.assess_reply "123" =
    Damage.call_fallback (Exn TypeError "argument of type 'int' is not iterable") /\
  Spec.field_of "confidence" (Scenario.assess_reply "123") = Some (JFloat 0.3) /\
  Spec.field_of "confidence" (Scenario.assess_reply "123") <> Some (JFloat 0.5) /\
  Spec.field_of "raw_response" (Scenario.assess_reply "123") = None /\
  Spec.unparseable json_loads_fragment Scenario.names_reply = true /\
  Scenario.assess_reply Scenario.names_reply =
    JStr "damage_type, severity and estimated_cost_ngn are unclear" /\
  Spec.unparseable json_loads_fragment Scenario.prose_reply = true /\
  Spec.field_of "is_fallback" (Scenario.assess_reply Scenario.prose_reply)
    <> Some (JBool true).
Proof.
  repeat apply conj; try (vm_compute; reflexivity).
  - intros H.
    apply (f_equal (fun o => match o with
                             | Some (JFloat x) => PrimFloat.ltb x 0.4
                             | _ => false
                             end)) in H.
    vm_compute in H. discriminate H.
  - vm_compute. discriminate.
Qed.

(* ===================================================================== *)
(** * Properties of the pipeline *)
(* ===================================================================== *)

Section PipelineFacts.

Import Processor.

Variable env : Env.
Variable claim_id : string.
Variable db : Database.
Variable id : N.

Hypothesis claim_id_valid : uuid_of env claim_id = Ok id.
Hypothesis claim_query_answers : claim_query_fault env = None.

(** C9.  When the claim, or the customer of the claim, is not found, the
    pipeline ends without any write: the database is what it was, and a
    claim that was PENDING is PENDING. *)
Theorem missing_entity_no_change :
  (claims db !! id = None \/
   exists claim,
     claims db !! id = Some claim /\
     customer_query_fault env = None /\
     customer_id claim ≫= (fun k => customers db !! k) = None) ->
  process_claim env claim_id db = db /\
  forall claim,
    claims db !! id = Some claim -> status claim = PENDING ->
    exists claim',
      claims (process_claim env claim_id db) !! id = Some claim' /\
      status claim' = PENDING.
Proof.
  intros Hmissing.
  assert (Hsame : process_claim env claim_id db = db).
  { unfold process_claim, try_block.
    rewrite claim_id_valid, claim_query_answers.
    destruct Hmissing as [-> | (claim & -> & -> & ->)]; reflexivity. }
  split; [exact Hsame|].
  intros claim Hclaim Hpending. rewrite Hsame. eauto.
Qed.

(** C6, as the code has it.  When the analysis, the decision or the
    write-back raises, the handler marks the loaded claim UNDER_REVIEW with
    the reason "Processing error: <message>" and commits once.  If that
    commit succeeds the stored claim has this status and reason; if it
    raises too, the failure is swallowed and the database stays as the
    failed step left it. *)
Theorem processing_error_review
    (claim : Claim) (customer : Customer) (url : string) (urls : list string)
    (image_bytes : list Byte.byte) (s : Session) (e : exn) :
  claims db !! id = Some claim ->
  customer_query_fault env = None ->
  customer_id claim ≫= (fun k => customers db !! k) = Some customer ->
  images claim = Some (url :: urls) ->
  download_from_supabase env url = Ok image_bytes ->
  analyse_decide_write env claim customer image_bytes
    {| uid := id; obj := claim; stored := db |} = (s, Raise e) ->
  let final := process_claim env claim_id db in
  (handler_commit_fault env = None ->
   exists c,
     claims final !! id = Some c /\
     c = mark_error e (obj s) /\
     status c = UNDER_REVIEW /\
     decision_reason c = Some ("Processing error: " +:+ message e)) /\
  (forall e', handler_commit_fault env = Some e' -> final = stored s).
Proof.
  intros Hclaim Hcq Hcustomer Himages Hload Hrun final.
  assert (Hfinal : final = on_error env (Some (id, obj s)) e (stored s)).
  { unfold final, process_claim, try_block.
    rewrite claim_id_valid, claim_query_answers, Hclaim, Hcq, Hcustomer,
      Himages, Hload, Hrun.
    reflexivity. }
  rewrite Hfinal. unfold on_error, commit. split.
  - intros ->. exists (mark_error e (obj s)).
    cbn [stored write_row claims uid obj].
    split; [apply lookup_insert_eq|]. repeat split; reflexivity.
  - intros e' ->. reflexivity.
Qed.

End PipelineFacts.

(** Witness of [missing_entity_no_change]: the claim is stored, its customer
    is not. *)
Lemma missing_entity_no_change_witness :
  Processor.process_claim Scenario.env0 "claim-1" Scenario.db_orphan
    = Scenario.db_orphan /\
  exists claim',
    Processor.claims
      (Processor.process_claim Scenario.env0 "claim-1" Scenario.db_orphan)
      !! 1%N = Some claim' /\
    Processor.status claim' = Processor.PENDING.
Proof.
  destruct (missing_entity_no_change Scenario.env0 "claim-1" Scenario.db_orphan
              1%N eq_refl eq_refl) as [Hsame Hpending].
  - right. exists Scenario.pending_claim.
    split; [vm_compute; reflexivity|]. split; reflexivity.
  - split; [exact Hsame|].
    apply (Hpending Scenario.pending_claim); [vm_compute|]; reflexivity.
Defined.

(** Witness of [processing_error_review]: the history query of the
    frequency analyzer fails, the commit of the handler succeeds. *)
Lemma processing_error_review_witness :
  exists c,
    Processor.claims
      (Processor.process_claim Scenario.env_history_down "claim-1" Scenario.db0)
      !! 1%N = Some c /\
    Processor.status c = Processor.UNDER_REVIEW /\
    Processor.decision_reason c = Some "Processing error: connection is closed".
Proof.
  destruct (Processor.analyse_decide_write Scenario.env_history_down
              Scenario.pending_claim Scenario.policy []
              {| Processor.uid := 1%N; Processor.obj := Scenario.pending_claim;
                 Processor.stored := Scenario.db0 |}) as [s r] eqn:Hrun.
  assert (Hr : r = Raise Scenario.store_down).
  { apply (f_equal snd) in Hrun. cbn [snd] in Hrun. rewrite <- Hrun.
    vm_compute. reflexivity. }
  subst r.
  destruct (processing_error_review Scenario.env_history_down "claim-1"
              Scenario.db0 1%N eq_refl eq_refl
              Scenario.pending_claim Scenario.policy "claims/front.jpg" []
              [] s Scenario.store_down) as [Hok _];
    try reflexivity; try (vm_compute; reflexivity); try exact Hrun.
  destruct (Hok eq_refl) as (c & Hc & _ & Hstatus & Hreason).
  exists c. split; [exact Hc|]. split; [exact Hstatus | exact Hreason].
Defined.

(** Counterexample to C6 as stated.  The history query fails during the
    analysis and the commit of the handler fails as well: the stored claim
    is still PENDING and has no decision reason. *)
Lemma processing_error_counterexample :
  snd (Processor.analyse_decide_write Scenario.env_store_down
         Scenario.pending_claim Scenario.policy []
         {| Processor.uid := 1%N; Processor.obj := Scenario.pending_claim;
            Processor.stored := Scenario.db0 |}) = Raise Scenario.store_down /\
  Processor.claims
    (Processor.process_claim Scenario.env_store_down "claim-1" Scenario.db0)
    !! 1%N = Some Scenario.pending_claim /\
  Processor.status Scenario.pending_claim = Processor.PENDING /\
  Processor.decision_reason Scenario.pending_claim = None.
Proof.
  repeat apply conj; vm_compute; reflexivity.
Qed.

(* ===================================================================== *)
(** * Further properties of the decision engine *)
(* ===================================================================== *)

Section EngineMore.

Import Engine.

Variable damage_assessment : pydict.
Variable fraud_analysis : FraudAnalysis.
Variable policy_limit : Z.

(** The five shapes of a returned decision, by the rule that fired. *)
Lemma make_decision_cases (d : Decision) :
  make_decision damage_assessment fraud_analysis policy_limit = Ok d ->
  let fs := default 0 (fa_fraud_score fraud_analysis) in
  let cost := dict_get "estimated_cost_ngn" (JInt 0) damage_assessment in
  let conf := dict_get "confidence" (JFloat 1.0) damage_assessment in
  (70 < fs /\ decision d = "rejected" /\ approved_amount d = None) \/
  (30 < fs <= 70 /\ decision d = "under_review" /\ approved_amount d = None) \/
  (fs <= 30 /\ py_gt_int cost policy_limit = Ok true /\
   decision d = "under_review" /\ approved_amount d = None) \/
  (fs <= 30 /\ py_gt_int cost policy_limit = Ok false /\
   py_lt_float conf 0.6 = Ok true /\
   decision d = "under_review" /\ approved_amount d = None) \/
  (fs <= 30 /\ py_gt_int cost policy_limit = Ok false /\
   py_lt_float conf 0.6 = Ok false /\
   decision d = "approved" /\ approved_amount d = Some cost /\
   reason d = "Claim meets all approval criteria").
Proof.
  intros Hd fs cost conf. unfold make_decision in Hd. fold fs cost conf in Hd.
  destruct (Z.ltb_spec 70 fs) as [H70|H70].
  { injection Hd as <-. left. auto. }
  destruct (Z.ltb_spec 30 fs) as [H30|H30].
  { injection Hd as <-. right; left. cbn. auto with zarith. }
  destruct (py_gt_int cost policy_limit) as [[|]|] eqn:Hc; cbn [bind] in Hd;
    [injection Hd as <-; right; right; left; cbn; auto | | discriminate Hd].
  destruct (py_lt_float conf 0.6) as [[|]|] eqn:Hu; cbn [bind] in Hd;
    [injection Hd as <- | injection Hd as <- | discriminate Hd].
  - right; right; right; left. cbn. auto.
  - right; right; right; right. cbn. auto 10.
Qed.

(** X1.  An approval is sound: the engine approves only a fraud score of at most
    30, a cost that is not above the policy limit and a confidence that is
    not below 0.6, and then for exactly the estimated cost; an integer cost
    that is approved is at most the policy limit. *)
Theorem approval_is_sound (d : Decision) :
  make_decision damage_assessment fraud_analysis policy_limit = Ok d ->
  decision d = "approved" ->
  let cost := dict_get "estimated_cost_ngn" (JInt 0) damage_assessment in
  default 0 (fa_fraud_score fraud_analysis) <= 30 /\
  py_gt_int cost policy_limit = Ok false /\
  py_lt_float (dict_get "confidence" (JFloat 1.0) damage_assessment) 0.6
    = Ok false /\
  approved_amount d = Some cost /\
  (forall n, cost = JInt n -> n <= policy_limit).
Proof.
  intros Hd Happ cost.
  destruct (make_decision_cases d Hd)
    as [(_ & H & _)|[(_ & H & _)|[(_ & _ & H & _)|[(_ & _ & _ & H & _)|H]]]];
    try (rewrite H in Happ; discriminate Happ).
  destruct H as (Hfs & Hc & Hu & _ & Ha & _).
  fold cost in Hc, Ha. repeat split; try assumption.
  intros n Hn. rewrite Hn in Hc. cbn in Hc. injection Hc as Hc.
  apply Z.ltb_ge in Hc. exact Hc.
Qed.

(** X2.  The approved amount is present exactly in an approval. *)
Theorem approved_amount_iff_approved (d : Decision) :
  make_decision damage_assessment fraud_analysis policy_limit = Ok d ->
  (is_Some (approved_amount d) <-> decision d = "approved").
Proof.
  intros Hd.
  destruct (make_decision_cases d Hd)
    as [(_ & H & Ha)|[(_ & H & Ha)|[(_ & _ & H & Ha)|[(_ & _ & _ & H & Ha)
       |(_ & _ & _ & H & Ha & _)]]]];
    rewrite H, Ha; split; intros Hx;
    first [reflexivity | discriminate Hx | solve [eauto]
          | destruct Hx as [? Hx]; discriminate Hx].
Qed.

(** X3.  The verdict is always the value of a claim status other than pending,
    so [ClaimStatus(decision["decision"])] cannot raise on it. *)
Theorem decision_is_a_status (d : Decision) :
  make_decision damage_assessment fraud_analysis policy_limit = Ok d ->
  exists st,
    Processor.status_of_value (decision d) = Ok st /\
    st <> Processor.PENDING /\
    Processor.status_value st = decision d.
Proof.
  intros Hd.
  destruct (make_decision_cases d Hd)
    as [(_ & H & _)|[(_ & H & _)|[(_ & _ & H & _)|[(_ & _ & _ & H & _)
       |(_ & _ & _ & H & _)]]]];
    rewrite H; eexists; (split; [reflexivity|]); split;
    first [discriminate | reflexivity].
Qed.

(** X4.  The engine raises nothing but the [TypeError] of a comparison, and only
    below the two fraud rules; on a cost and a confidence that are numbers
    it always decides. *)
Theorem make_decision_raises_only_type_error :
  (forall e,
     make_decision damage_assessment fraud_analysis policy_limit = Raise e ->
     kind e = TypeError /\ default 0 (fa_fraud_score fraud_analysis) <= 30) /\
  (Views.is_number
     (dict_get "estimated_cost_ngn" (JInt 0) damage_assessment) = true ->
   Views.is_number
     (dict_get "confidence" (JFloat 1.0) damage_assessment) = true ->
   exists d, make_decision damage_assessment fraud_analysis policy_limit = Ok d).
Proof.
  split.
  - intros e. unfold make_decision.
    destruct (Z.ltb_spec 70 (default 0 (fa_fraud_score fraud_analysis)));
      [discriminate|].
    destruct (Z.ltb_spec 30 (default 0 (fa_fraud_score fraud_analysis)));
      [discriminate|].
    destruct (dict_get "estimated_cost_ngn" _ _) as [| | | | | |];
      cbn [bind py_gt_int];
      try (intros [= <-]; split; [reflexivity | assumption]).
    all: match goal with
         | |- context [if ?b then _ else _] => destruct b; [discriminate|]
         end.
    all: destruct (dict_get "confidence" _ _) as [| | | | | |];
      cbn [bind py_lt_float];
      try (intros [= <-]; split; [reflexivity | assumption]).
    all: match goal with
         | |- context [if ?b then _ else _] => destruct b; discriminate
         end.
  - unfold make_decision. intros Hcost Hconf.
    destruct (70 <? _); [eauto|]. destruct (30 <? _); [eauto|].
    destruct (dict_get "estimated_cost_ngn" _ _) as [| | | | | |];
      try discriminate Hcost; cbn [bind py_gt_int];
      match goal with
      | |- context [if ?b then _ else _] => destruct b; [eauto|]
      end;
      destruct (dict_get "confidence" _ _) as [| | | | | |];
      try discriminate Hconf; cbn [bind py_lt_float];
      match goal with
      | |- context [if ?b then _ else _] => destruct b; eauto
      end.
Qed.

End EngineMore.

(* ===================================================================== *)
(** * Further properties of the damage assessor *)
(* ===================================================================== *)

Lemma append_cons (c : ascii) (s t : string) :
  String c s +:+ t = String c (s +:+ t).
Proof. reflexivity. Qed.

Lemma length_of_append (s t : string) :
  String.length (s +:+ t) = (String.length s + String.length t)%nat.
Proof.
  induction s as [|c s IH]; [reflexivity|].
  rewrite append_cons. simpl. f_equal. exact IH.
Qed.

Lemma drop_append (s t : string) : drop (String.length s) (s +:+ t) = t.
Proof.
  induction s as [|c s IH]; [destruct t; reflexivity|].
  rewrite append_cons. exact IH.
Qed.

Lemma take_append (s t : string) : take (String.length s) (s +:+ t) = s.
Proof.
  induction s as [|c s IH]; [destruct t; reflexivity|].
  rewrite append_cons. simpl. f_equal. exact IH.
Qed.

Lemma take_drop (n : nat) (s : string) : take n s +:+ drop n s = s.
Proof.
  revert s. induction n as [|n IH]; intros [|c s]; try reflexivity.
  simpl. rewrite append_cons. f_equal. apply IH.
Qed.

Lemma string_eqb_refl (s : string) : String.eqb s s = true.
Proof. apply String.eqb_eq. reflexivity. Qed.

(** A text that ends with the three backticks of a fence has no trailing
    white space. *)
Lemma rstrip_fence (s : string) : rstrip (s +:+ "```") = s +:+ "```".
Proof.
  induction s as [|c s IH]; [reflexivity|].
  rewrite append_cons. cbn [rstrip]. rewrite IH.
  destruct s; reflexivity.
Qed.

Lemma endswith_fence (s : string) :
  endswith "```" (s +:+ "```") = true /\
  take (String.length (s +:+ "```") - 3) (s +:+ "```") = s.
Proof.
  unfold endswith. rewrite length_of_append. cbn [String.length].
  replace (String.length s + 3 - 3)%nat with (String.length s) by lia.
  rewrite drop_append, take_append. split; [|reflexivity].
  apply andb_true_intro. split; [apply Nat.leb_le; lia | reflexivity].
Qed.

(** Key membership as [in] computes it and as lookup finds it. *)
Lemma py_in_dict (k : string) (d : pydict) :
  py_in k (JObj d) = Ok (bool_decide (is_Some (dict_lookup k d))).
Proof.
  cbn [py_in]. f_equal. induction d as [|[k' v] d IH]; [reflexivity|].
  cbn [existsb dict_lookup fst]. destruct (String.eqb k' k); [reflexivity|].
  exact IH.
Qed.

Section DamageMore.

Import Damage Spec.

Variable base_instructions : string.
Variable motor_template property_template other_template : string.
Variable generate_content : string -> list Byte.byte -> result string.
Variable json_loads : string -> result json.

Let prompt := _get_prompt base_instructions motor_template property_template
                other_template.
Let analyze := analyze_damage base_instructions motor_template
                 property_template other_template generate_content json_loads.

(** X6.  The code fence is removed: a reply wrapped in a fence opened with
    [```json], or with the bare three backticks, is reduced to what the
    fence encloses. *)
Theorem unfence_removes_fence (body : string) :
  (startswith "```" (body +:+ "```") = false ->
   unfence ("```json" +:+ body +:+ "```") = body) /\
  (startswith "json" (body +:+ "```") = false ->
   unfence ("```" +:+ body +:+ "```") = body).
Proof.
  split; intros Hstart; unfold unfence, strip.
  - assert (L : lstrip ("```json" +:+ body +:+ "```")
                = "```json" +:+ body +:+ "```") by reflexivity.
    assert (R : rstrip ("```json" +:+ body +:+ "```")
                = "```json" +:+ body +:+ "```")
      by exact (rstrip_fence ("```json" +:+ body)).
    assert (S1 : startswith "```json" ("```json" +:+ body +:+ "```") = true)
      by reflexivity.
    assert (D : drop 7 ("```json" +:+ body +:+ "```") = body +:+ "```")
      by reflexivity.
    rewrite L, R, S1, D, Hstart.
    destruct (endswith_fence body) as [-> ->]. reflexivity.
  - assert (L : lstrip ("```" +:+ body +:+ "```") = "```" +:+ body +:+ "```")
      by reflexivity.
    assert (R : rstrip ("```" +:+ body +:+ "```") = "```" +:+ body +:+ "```")
      by exact (rstrip_fence ("```" +:+ body)).
    assert (S0 : startswith "```json" ("```" +:+ body +:+ "```")
                 = startswith "json" (body +:+ "```")) by reflexivity.
    assert (S1 : startswith "```" ("```" +:+ body +:+ "```") = true)
      by reflexivity.
    assert (D : drop 3 ("```" +:+ body +:+ "```") = body +:+ "```")
      by reflexivity.
    rewrite L, R, S0, Hstart, S1, D.
    destruct (endswith_fence body) as [-> ->]. reflexivity.
Qed.

(** X7.  A reply that decodes to an object with the three required keys is
    returned as decoded, whatever the keys hold and whatever else the object
    has: no type or range of a field is checked. *)
Theorem structured_reply_returned
    (image_bytes : list Byte.byte) (claim_type reply : string) (d : pydict) :
  generate_content (prompt claim_type) image_bytes = Ok reply ->
  json_loads (strip (unfence reply)) = Ok (JObj d) ->
  structured_record (JObj d) = true ->
  analyze image_bytes claim_type = JObj d.
Proof.
  intros Hreply Hload Hrec. unfold analyze, analyze_damage. fold prompt.
  rewrite Hreply. cbn [bind]. unfold _parse_response, load_and_validate.
  rewrite Hload. cbn [bind]. rewrite !py_in_dict. cbn [bind].
  cbn [structured_record required_fields forallb] in Hrec.
  apply andb_prop in Hrec as [H1 Hrec]. apply andb_prop in Hrec as [H2 Hrec].
  apply andb_prop in Hrec as [H3 _].
  rewrite H1. cbn [py_assert bind]. rewrite H2. cbn [py_assert bind].
  rewrite H3. reflexivity.
Qed.

(** X8.  A reply that decodes to [null], a boolean or a number is not answered
    with the parse fallback: the membership test raises [TypeError], and the
    assessor returns its call-failure fallback, with confidence 0.3, the
    error flag and no copy of the reply. *)
Theorem scalar_reply_call_fallback
    (image_bytes : list Byte.byte) (claim_type reply : string) (v : json) :
  generate_content (prompt claim_type) image_bytes = Ok reply ->
  json_loads (strip (unfence reply)) = Ok v ->
  match v with
  | JNull | JBool _ | JInt _ | JFloat _ => True
  | _ => False
  end ->
  analyze image_bytes claim_type =
  call_fallback
    (Exn TypeError ("argument of type '" +:+ type_name v +:+ "' is not iterable")) /\
  field_of "confidence" (analyze image_bytes claim_type) = Some (JFloat 0.3) /\
  field_of "error" (analyze image_bytes claim_type) = Some (JBool true) /\
  field_of "raw_response" (analyze image_bytes claim_type) = None.
Proof.
  intros Hreply Hload Hscalar.
  assert (Hres : analyze image_bytes claim_type =
                 call_fallback
                   (Exn TypeError ("argument of type '" +:+ type_name v
                                   +:+ "' is not iterable"))).
  { unfold analyze, analyze_damage. fold prompt.
    rewrite Hreply. cbn [bind]. unfold _parse_response, load_and_validate.
    rewrite Hload. cbn [bind].
    destruct v; try contradiction; reflexivity. }
  rewrite Hres. repeat split; reflexivity.
Qed.

(** What the assessor returns after a parse failure. *)
Lemma analyze_parse_failure
    (image_bytes : list Byte.byte) (claim_type reply : string) (e : exn) :
  generate_content (prompt claim_type) image_bytes = Ok reply ->
  parse_failure json_loads (unfence reply) e ->
  analyze image_bytes claim_type = parse_fallback e (unfence reply).
Proof.
  intros Hreply Hfail. unfold analyze, analyze_damage. fold prompt.
  rewrite Hreply. cbn [bind]. unfold _parse_response.
  destruct (load_and_validate_fails _ _ _ Hfail) as [-> Hkind].
  cbn [try_except]. destruct Hkind as [-> | ->]; reflexivity.
Qed.

(** The decision engine on one of the two fallback dictionaries: the
    confidence written into them is below 0.6. *)
Lemma fallback_not_approved
    (c : float) (why : string) (rest : pydict)
    (fraud_analysis : Engine.FraudAnalysis) (policy_limit : Z) :
  PrimFloat.ltb c 0.6 = true ->
  exists d,
    Engine.make_decision
      (("damage_type", JStr "Unable to determine")
       :: ("severity", JStr "moderate")
       :: ("estimated_cost_ngn", JInt 200000)
       :: ("damaged_items", JArr [])
       :: ("confidence", JFloat c)
       :: ("reasoning", JStr why) :: rest)
      fraud_analysis policy_limit = Ok d /\
    Engine.decision d <> "approved" /\ Engine.approved_amount d = None.
Proof.
  intros Hc. unfold Engine.make_decision.
  destruct (70 <? _); [eexists; split; [reflexivity|]; split; [discriminate|reflexivity]|].
  destruct (30 <? _); [eexists; split; [reflexivity|]; split; [discriminate|reflexivity]|].
  change (dict_get "estimated_cost_ngn" (JInt 0) _) with (JInt 200000).
  change (dict_get "confidence" (JFloat 1.0) _) with (JFloat c).
  cbn [py_gt_int bind].
  destruct (policy_limit <? 200000);
    [eexists; split; [reflexivity|]; split; [discriminate|reflexivity]|].
  cbn [py_lt_float bind]. rewrite Hc.
  eexists; split; [reflexivity|]; split; [discriminate|reflexivity].
Qed.

(** X9.  A degraded assessment is never approved.  When the vision service
    fails, or its reply fails to parse, the assessor returns a dictionary on
    which the decision engine decides, for every fraud analysis and every
    policy limit, and never with an approval. *)
Theorem degraded_assessment_not_approved
    (image_bytes : list Byte.byte) (claim_type : string)
    (fraud_analysis : Engine.FraudAnalysis) (policy_limit : Z) :
  (exists e, generate_content (prompt claim_type) image_bytes = Raise e) \/
  (exists reply e,
     generate_content (prompt claim_type) image_bytes = Ok reply /\
     parse_failure json_loads (unfence reply) e) ->
  exists damage d,
    Processor.as_dict (analyze image_bytes claim_type) = Ok damage /\
    Engine.make_decision damage fraud_analysis policy_limit = Ok d /\
    Engine.decision d <> "approved" /\ Engine.approved_amount d = None.
Proof.
  intros [[e He] | (reply & e & Hreply & Hfail)].
  - assert (Hres : analyze image_bytes claim_type = call_fallback e).
    { unfold analyze, analyze_damage. fold prompt. rewrite He. reflexivity. }
    rewrite Hres. unfold call_fallback. cbn [Processor.as_dict].
    destruct (fallback_not_approved 0.3 ("Error during analysis: " +:+ message e)
                [("error", JBool true)] fraud_analysis policy_limit eq_refl)
      as (d & Hd & Hrest).
    eauto.
  - rewrite (analyze_parse_failure _ _ _ _ Hreply Hfail).
    unfold parse_fallback. cbn [Processor.as_dict].
    destruct (fallback_not_approved 0.5
                ("Error parsing response: " +:+ message e)
                [("raw_response", JStr (take 500 (unfence reply)))]
                fraud_analysis policy_limit eq_refl)
      as (d & Hd & Hrest).
    eauto.
Qed.

End DamageMore.

(* ===================================================================== *)
(** * Further properties of the fraud analyzers *)
(* ===================================================================== *)

Section FraudMore.

Import Fraud.

Variable strptime_exif : string -> result datetime.
Variable fromisoformat : string -> result datetime.
Variable exif_items : list Byte.byte -> result (list (string * string)).
Variable count_recent_claims : string -> result (option Z).

Let check_metadata := check_metadata_fraud strptime_exif fromisoformat.
Let check_timing := check_suspicious_timing fromisoformat.
Let calculate := calculate_fraud_score strptime_exif fromisoformat exif_items
                   count_recent_claims.

(** X10.  An image without readable EXIF data, because PIL raises on it or
    because it has no tag, always gets the same metadata result: the single
    flag of stripped metadata, 15 points, suspicious. *)
Theorem missing_exif_scores_15
    (image_bytes : list Byte.byte) (claimed_date : string) :
  (exists e, exif_items image_bytes = Raise e) \/ exif_items image_bytes = Ok [] ->
  check_metadata (extract_exif exif_items image_bytes) claimed_date =
  {| is_suspicious := true;
     flags := ["Metadata stripped or missing"];
     score := 15;
     recent_claims_count := None |}.
Proof.
  unfold check_metadata, extract_exif. intros [[e ->] | ->]; [reflexivity|].
  cbn [collect fold_left]. rewrite map_size_empty, !lookup_empty. reflexivity.
Qed.

(** X11.  The date signal alone.  For a photo with metadata, a capture time and
    no editing software, whose dates parse and can be subtracted, the
    analyzer adds its 10 points and the flag with [abs(delta.days)] when the
    photo is earlier than the claimed date by more than 7 days or later by 8
    days or more, and nothing in between; 10 points alone are not
    suspicious. *)
Theorem date_signal_threshold
    (metadata : Metadata) (claimed_date photo : string)
    (photo_date claim_date : datetime) (delta : timedelta) :
  has_metadata metadata = true ->
  truthy (software metadata) = false ->
  datetime_original metadata = Some photo ->
  photo <> "" ->
  strptime_exif photo = Ok photo_date ->
  fromisoformat (replace_Z claimed_date) = Ok claim_date ->
  dt_sub photo_date claim_date = Ok delta ->
  let r := check_metadata metadata claimed_date in
  (delta < - (7 * us_per_day) \/ 8 * us_per_day <= delta ->
   score r = 10 /\ is_suspicious r = false /\
   flags r = ["Photo taken " +:+ str_int (Z.abs (days delta))
              +:+ " days from claim date"]) /\
  (- (7 * us_per_day) <= delta < 8 * us_per_day ->
   score r = 0 /\ is_suspicious r = false /\ flags r = []).
Proof.
  intros Hmeta Hsoft Horig Hne Hphoto Hclaim Hsub r.
  assert (Htruthy : truthy (datetime_original metadata) = true).
  { rewrite Horig. cbn. apply negb_true_iff, String.eqb_neq. exact Hne. }
  assert (Hdiff : photo_diff_days strptime_exif fromisoformat photo claimed_date
                  = Some (Z.abs (days delta))).
  { unfold photo_diff_days. rewrite Hphoto. cbn [bind]. rewrite Hclaim.
    cbn [bind]. rewrite Hsub. reflexivity. }
  unfold r, check_metadata, check_metadata_fraud.
  rewrite Hmeta, Htruthy, Hsoft, Horig. cbn [negb default from_option id].
  rewrite Hdiff. split; intros Hdelta.
  - apply date_mismatch_threshold in Hdelta. rewrite Hdelta.
    repeat split; reflexivity.
  - assert (Hno : (7 <? Z.abs (days delta)) = false).
    { destruct (7 <? Z.abs (days delta)) eqn:E; [|reflexivity].
      apply date_mismatch_threshold in E. lia. }
    rewrite Hno. repeat split; reflexivity.
Qed.

(** A date that does not parse is passed over in silence: when any of the
    three dates is rejected by the parser, the timing analyzer returns its
    empty result, not an error. *)
Theorem timing_unparseable_is_silent
    (incident_date policy_start_date policy_end_date : string) :
  (exists e, fromisoformat (replace_Z incident_date) = Raise e) \/
  (exists e, fromisoformat policy_start_date = Raise e) \/
  (exists e, fromisoformat policy_end_date = Raise e) ->
  check_timing incident_date policy_start_date policy_end_date =
  Ok {| is_suspicious := false; flags := []; score := 0;
        recent_claims_count := None |}.
Proof.
  unfold check_timing, check_suspicious_timing.
  intros [[e He] | [[e He] | [e He]]].
  - rewrite He. reflexivity.
  - rewrite He. destruct (fromisoformat (replace_Z incident_date)); reflexivity.
  - rewrite He. destruct (fromisoformat (replace_Z incident_date));
      [destruct (fromisoformat policy_start_date)|]; reflexivity.
Qed.

(** X12.  Dates that parse but cannot be subtracted are not passed over: an aware
    incident date (one written with an offset or a trailing Z) against a
    naive policy start makes the analyzer raise [TypeError]. *)
Theorem timing_mixed_awareness_raises
    (incident_date policy_start_date policy_end_date : string)
    (incident policy_start policy_end : datetime) (o : Z) :
  fromisoformat (replace_Z incident_date) = Ok incident ->
  fromisoformat policy_start_date = Ok policy_start ->
  fromisoformat policy_end_date = Ok policy_end ->
  utcoffset incident = Some o ->
  utcoffset policy_start = None ->
  check_timing incident_date policy_start_date policy_end_date =
  Raise (Exn TypeError "can't subtract offset-naive and offset-aware datetimes").
Proof.
  intros Hi Hs He Ho Hn. unfold check_timing, check_suspicious_timing.
  rewrite Hi, Hs, He. cbn [bind]. unfold dt_sub at 1. rewrite Ho, Hn.
  reflexivity.
Qed.

(** X13.  Both timing signals fire only on a short policy: when the analyzer
    returns 25, the policy end is less than 16 days after the policy
    start. *)
Theorem both_boundaries_short_policy
    (incident_date policy_start_date policy_end_date : string)
    (incident policy_start policy_end : datetime) (r : SignalResult) :
  fromisoformat (replace_Z incident_date) = Ok incident ->
  fromisoformat policy_start_date = Ok policy_start ->
  fromisoformat policy_end_date = Ok policy_end ->
  check_timing incident_date policy_start_date policy_end_date = Ok r ->
  score r = 25 ->
  exists length_of_policy,
    dt_sub policy_end policy_start = Ok length_of_policy /\
    0 <= length_of_policy < 16 * us_per_day.
Proof.
  intros Hi Hs He Hr Hscore. unfold check_timing, check_suspicious_timing in Hr.
  rewrite Hi, Hs, He in Hr. cbn [bind] in Hr.
  destruct (dt_sub incident policy_start) as [a|] eqn:Ha; cbn [bind] in Hr;
    [|discriminate Hr].
  destruct ((0 <=? days a) && (days a <=? 7)) eqn:Hna.
  all: destruct (dt_sub policy_end incident) as [b|] eqn:Hb; cbn [bind] in Hr;
    [|discriminate Hr].
  all: destruct ((0 <=? days b) && (days b <=? 7)) eqn:Hnb;
    injection Hr as <-; cbn [score] in Hscore; try lia.
  exists (a + b). split.
  - unfold dt_sub in *.
    destruct (utcoffset incident), (utcoffset policy_start),
      (utcoffset policy_end); simplify_eq; f_equal; lia.
  - apply andb_prop in Hna as [Ha0 Ha7]. apply andb_prop in Hnb as [Hb0 Hb7].
    apply Z.leb_le in Ha0, Ha7, Hb0, Hb7. unfold days in *.
    pose proof (Z.div_mod a us_per_day) as Hda.
    pose proof (Z.mod_pos_bound a us_per_day) as Hma.
    pose proof (Z.div_mod b us_per_day) as Hdb.
    pose proof (Z.mod_pos_bound b us_per_day) as Hmb.
    change us_per_day with 86400000000 in *. lia.
Qed.

(** Each analyzer scores zero exactly when it raises no flag. *)
Lemma metadata_zero_iff_no_flags (metadata : Metadata) (claimed_date : string) :
  let r := check_metadata metadata claimed_date in
  0 <= score r /\ (score r = 0 <-> flags r = []).
Proof.
  unfold check_metadata, check_metadata_fraud.
  repeat case_match; simplify_eq; cbn [score flags app];
    (split; [lia | split; intros Hx; first [discriminate Hx | reflexivity | lia]]).
Qed.

Lemma frequency_zero_iff_no_flags (policy_number : string) (r : SignalResult) :
  check_claim_history count_recent_claims policy_number = Ok r ->
  0 <= score r /\ (score r = 0 <-> flags r = []).
Proof.
  unfold check_claim_history.
  destruct (count_recent_claims policy_number) as [scalar|]; cbn [bind];
    [|discriminate].
  destruct (Z.ltb_spec 2 (default 0 scalar)); intros [= <-]; cbn [score flags];
    (split; [lia | split; intros Hx; first [discriminate Hx | reflexivity | lia]]).
Qed.

Lemma timing_zero_iff_no_flags
    (incident_date policy_start_date policy_end_date : string)
    (r : SignalResult) :
  check_timing incident_date policy_start_date policy_end_date = Ok r ->
  0 <= score r /\ (score r = 0 <-> flags r = []).
Proof.
  unfold check_timing, check_suspicious_timing. intros Hr.
  destruct (bind (fromisoformat (replace_Z incident_date)) _)
    as [[[incident policy_start] policy_end]|]; simplify_eq.
  - destruct (dt_sub incident policy_start) as [a|]; cbn [bind] in Hr;
      [|discriminate].
    destruct ((0 <=? days a) && (days a <=? 7)).
    all: destruct (dt_sub policy_end incident) as [b|]; cbn [bind] in Hr;
      [|discriminate].
    all: destruct ((0 <=? days b) && (days b <=? 7)); simplify_eq;
      cbn [score flags app];
      (split; [lia | split; intros Hx;
                     first [discriminate Hx | reflexivity | lia]]).
  - cbn. split; [lia | split; reflexivity].
Qed.

(** X14.  Every point is explained: the aggregate fraud score is 0 exactly when
    the aggregate list of flags is empty. *)
Theorem score_zero_iff_no_flags
    (image_bytes : list Byte.byte)
    (claim_data : ClaimData) (policy_data : PolicyData) (r : FraudScore) :
  calculate image_bytes claim_data policy_data = Ok r ->
  (fraud_score r = 0 <-> all_flags r = []).
Proof.
  unfold calculate, calculate_fraud_score. intros Hr.
  destruct (check_claim_history _ _) as [f|] eqn:Hf; cbn [bind] in Hr;
    [|discriminate].
  destruct (check_suspicious_timing _ _ _ _) as [t|] eqn:Ht; cbn [bind] in Hr;
    [|discriminate].
  apply frequency_zero_iff_no_flags in Hf as [Hf0 Hf].
  apply timing_zero_iff_no_flags in Ht as [Ht0 Ht].
  destruct (metadata_zero_iff_no_flags (extract_exif exif_items image_bytes)
              (default "" (cd_incident_date claim_data))) as [Hm0 Hm].
  unfold check_metadata in Hm0, Hm.
  set (m := check_metadata_fraud _ _ _ _) in *.
  injection Hr as <-. cbn [fraud_score all_flags app]. split.
  - intros Hz.
    assert (score m = 0 /\ score f = 0 /\ score t = 0) as (Z1 & Z2 & Z3) by lia.
    apply Hm in Z1. apply Hf in Z2. apply Ht in Z3.
    rewrite Z1, Z2, Z3. reflexivity.
  - intros Hnil. apply app_eq_nil in Hnil as [Hnil Z3].
    apply app_eq_nil in Hnil as [Z1 Z2].
    apply Hm in Z1. apply Hf in Z2. apply Ht in Z3. lia.
Qed.

(** The bound used by the pipeline lemmas. *)
Lemma aggregate_bound
    (image_bytes : list Byte.byte)
    (claim_data : ClaimData) (policy_data : PolicyData) (r : FraudScore) :
  calculate image_bytes claim_data policy_data = Ok r ->
  0 <= fraud_score r <= 65 /\ fraud_score r <= 70.
Proof.
  unfold calculate, calculate_fraud_score. intros Hr.
  destruct (check_claim_history _ _) as [f|] eqn:Hf; cbn [bind] in Hr;
    [|discriminate].
  destruct (check_suspicious_timing _ _ _ _) as [t|] eqn:Ht; cbn [bind] in Hr;
    [|discriminate].
  apply frequency_score_bounds in Hf. apply timing_score_bounds in Ht.
  pose proof (extracted_metadata_score_at_most_15 strptime_exif fromisoformat
                exif_items image_bytes
                (default "" (cd_incident_date claim_data))) as Hm.
  pose proof (metadata_score_bounds strptime_exif fromisoformat
                (extract_exif exif_items image_bytes)
                (default "" (cd_incident_date claim_data))) as Hm0.
  set (m := check_metadata_fraud _ _ _ _) in *.
  injection Hr as <-. cbn [fraud_score]. lia.
Qed.

(** X15.  In the pipeline the metadata come from [extract_exif], which keeps the
    metadata score at 15 or below: every fraud score the aggregator returns
    is at most 65, and its risk level is low or medium. *)
Theorem aggregate_score_at_most_65
    (image_bytes : list Byte.byte)
    (claim_data : ClaimData) (policy_data : PolicyData) (r : FraudScore) :
  calculate image_bytes claim_data policy_data = Ok r ->
  0 <= fraud_score r <= 65 /\
  (risk_level r = low \/ risk_level r = medium).
Proof.
  intros Hr. destruct (aggregate_bound _ _ _ _ Hr) as [Hb _].
  split; [exact Hb|].
  unfold calculate, calculate_fraud_score in Hr.
  destruct (check_claim_history _ _) as [f|]; cbn [bind] in Hr; [|discriminate].
  destruct (check_suspicious_timing _ _ _ _) as [t|]; cbn [bind] in Hr;
    [|discriminate].
  injection Hr as <-. cbn [fraud_score risk_level] in *.
  unfold risk_of. repeat case_match; auto. lia.
Qed.

End FraudMore.

(* ===================================================================== *)
(** * Further properties of the pipeline *)
(* ===================================================================== *)

(** The aggregator's score is at most 70, so the engine does not reject
    it. *)
Lemma detected_never_rejected
    (env : Processor.Env) (image_bytes : list Byte.byte)
    (claim_data : Fraud.ClaimData) (policy_data : Fraud.PolicyData)
    (fr : Fraud.FraudScore) (damage : pydict) (policy_limit : Z)
    (dec : Engine.Decision) :
  Processor.detect env image_bytes claim_data policy_data = Ok fr ->
  Engine.make_decision damage (Engine.of_fraud_score fr) policy_limit = Ok dec ->
  Engine.decision dec <> "rejected".
Proof.
  intros Hfr Hdec Hrej.
  apply (rejected_only_above_70 _ _ _ _ Hdec) in Hrej. cbn in Hrej.
  destruct (aggregate_bound _ _ _ _ _ _ _ _ Hfr). lia.
Qed.

Section PipelineMore.

Import Processor.

Variable env : Env.
Variable claim_id : string.
Variable db : Database.
Variable id : N.

Hypothesis claim_id_valid : uuid_of env claim_id = Ok id.
Hypothesis claim_query_answers : claim_query_fault env = None.

(** The run of the pipeline once the claim, its customer and the image are
    loaded. *)
Lemma process_claim_runs
    (claim : Claim) (customer : Customer) (url : string) (urls : list string)
    (image_bytes : list Byte.byte) :
  claims db !! id = Some claim ->
  customer_query_fault env = None ->
  customer_id claim ≫= (fun k => customers db !! k) = Some customer ->
  images claim = Some (url :: urls) ->
  download_from_supabase env url = Ok image_bytes ->
  process_claim env claim_id db =
  match analyse_decide_write env claim customer image_bytes
          {| uid := id; obj := claim; stored := db |} with
  | (s, Ok _) => stored s
  | (s, Raise e) => on_error env (Some (id, obj s)) e (stored s)
  end.
Proof.
  intros Hclaim Hcq Hcustomer Himages Hload.
  unfold process_claim, try_block.
  rewrite claim_id_valid, claim_query_answers, Hclaim, Hcq, Hcustomer,
    Himages, Hload.
  destruct (analyse_decide_write _ _ _ _ _) as [s [u|e]]; reflexivity.
Qed.

(** The steps of the [try] block, one after the other. *)
Lemma run_not_a_dict
    (claim : Claim) (customer : Customer) (image_bytes : list Byte.byte)
    (c0 : Claim) (e : exn) :
  as_dict (assess env image_bytes (type_value (claim_type claim))) = Raise e ->
  analyse_decide_write env claim customer image_bytes
    {| uid := id; obj := c0; stored := db |} =
  ({| uid := id;
      obj := set_damage (assess env image_bytes (type_value (claim_type claim)))
               (estimated_amount c0) c0;
      stored := db |}, Raise e).
Proof.
  intros H. unfold analyse_decide_write, seq, lift, assign. cbn.
  rewrite H. reflexivity.
Qed.

Lemma run_detect_fails
    (claim : Claim) (customer : Customer) (image_bytes : list Byte.byte)
    (c0 : Claim) (damage : pydict) (e : exn) :
  as_dict (assess env image_bytes (type_value (claim_type claim))) = Ok damage ->
  detect env image_bytes (Views.claim_data_of claim)
    (Views.policy_data_of customer) = Raise e ->
  analyse_decide_write env claim customer image_bytes
    {| uid := id; obj := c0; stored := db |} =
  ({| uid := id;
      obj := Views.assessed
               (assess env image_bytes (type_value (claim_type claim))) damage c0;
      stored := db |}, Raise e).
Proof.
  intros H1 H2. unfold analyse_decide_write, seq, lift, assign. cbn.
  rewrite H1. cbn.
  unfold Views.claim_data_of, Views.policy_data_of in H2. rewrite H2.
  reflexivity.
Qed.

Lemma run_decision_fails
    (claim : Claim) (customer : Customer) (image_bytes : list Byte.byte)
    (c0 : Claim) (damage : pydict) (fr : Fraud.FraudScore) (e : exn) :
  as_dict (assess env image_bytes (type_value (claim_type claim))) = Ok damage ->
  detect env image_bytes (Views.claim_data_of claim)
    (Views.policy_data_of customer) = Ok fr ->
  Engine.make_decision damage (Engine.of_fraud_score fr) (policy_limit customer)
    = Raise e ->
  analyse_decide_write env claim customer image_bytes
    {| uid := id; obj := c0; stored := db |} =
  ({| uid := id;
      obj := set_fraud (Fraud.fraud_score fr) (Fraud.all_flags fr)
               (Views.assessed
                  (assess env image_bytes (type_value (claim_type claim)))
                  damage c0);
      stored := db |}, Raise e).
Proof.
  intros H1 H2 H3. unfold analyse_decide_write, seq, lift, assign. cbn.
  rewrite H1. cbn.
  unfold Views.claim_data_of, Views.policy_data_of in H2. rewrite H2. cbn.
  rewrite H3. reflexivity.
Qed.

Lemma run_decided
    (claim : Claim) (customer : Customer) (image_bytes : list Byte.byte)
    (c0 : Claim) (damage : pydict) (fr : Fraud.FraudScore)
    (dec : Engine.Decision) (st : ClaimStatus) :
  as_dict (assess env image_bytes (type_value (claim_type claim))) = Ok damage ->
  detect env image_bytes (Views.claim_data_of claim)
    (Views.policy_data_of customer) = Ok fr ->
  Engine.make_decision damage (Engine.of_fraud_score fr) (policy_limit customer)
    = Ok dec ->
  status_of_value (Engine.decision dec) = Ok st ->
  let decided :=
    Views.decided (utcnow env)
      (assess env image_bytes (type_value (claim_type claim)))
      damage fr dec st c0 in
  analyse_decide_write env claim customer image_bytes
    {| uid := id; obj := c0; stored := db |} =
  match commit_fault env with
  | Some e => ({| uid := id; obj := decided; stored := db |}, Raise e)
  | None =>
      ({| uid := id; obj := decided;
          stored := write_row {| uid := id; obj := decided; stored := db |} |},
       Views.report decided)
  end.
Proof.
  intros H1 H2 H3 H4 decided.
  unfold analyse_decide_write, seq, lift, assign, commit. cbn.
  rewrite H1. cbn.
  unfold Views.claim_data_of, Views.policy_data_of in H2. rewrite H2. cbn.
  rewrite H3. cbn. rewrite H4. cbn.
  destruct (commit_fault env); reflexivity.
Qed.

(** How a run can end: before a decision was assigned, with the stored
    rows and the decision columns untouched; or with the decided claim in
    the session, which the commit either stored or failed to store. *)
Lemma run_shape
    (claim : Claim) (customer : Customer) (image_bytes : list Byte.byte)
    (c0 : Claim) (s : Session) (r : result unit) :
  analyse_decide_write env claim customer image_bytes
    {| uid := id; obj := c0; stored := db |} = (s, r) ->
  (exists e, r = Raise e /\ stored s = db /\ Views.undecided (obj s) c0) \/
  (exists damage fr dec st,
     detect env image_bytes (Views.claim_data_of claim)
       (Views.policy_data_of customer) = Ok fr /\
     Engine.make_decision damage (Engine.of_fraud_score fr)
       (policy_limit customer) = Ok dec /\
     status_of_value (Engine.decision dec) = Ok st /\
     obj s = Views.decided (utcnow env)
               (assess env image_bytes (type_value (claim_type claim)))
               damage fr dec st c0 /\
     ((exists e, r = Raise e /\ stored s = db) \/
      stored s = write_row {| uid := id; obj := obj s; stored := db |})).
Proof.
  intros Hrun.
  destruct (as_dict (assess env image_bytes (type_value (claim_type claim))))
    as [damage|e] eqn:H1.
  2: { rewrite (run_not_a_dict _ customer _ c0 _ H1) in Hrun.
       injection Hrun as <- <-. left. exists e.
       repeat split; reflexivity. }
  destruct (detect env image_bytes (Views.claim_data_of claim)
              (Views.policy_data_of customer)) as [fr|e] eqn:H2.
  2: { rewrite (run_detect_fails _ _ _ c0 _ _ H1 H2) in Hrun.
       injection Hrun as <- <-. left. exists e.
       repeat split; reflexivity. }
  destruct (Engine.make_decision damage (Engine.of_fraud_score fr)
              (policy_limit customer)) as [dec|e] eqn:H3.
  2: { rewrite (run_decision_fails _ _ _ c0 _ _ _ H1 H2 H3) in Hrun.
       injection Hrun as <- <-. left. exists e.
       repeat split; reflexivity. }
  assert (exists st, status_of_value (Engine.decision dec) = Ok st) as [st H4].
  { destruct (make_decision_cases _ _ _ _ H3)
      as [(_ & H & _)|[(_ & H & _)|[(_ & _ & H & _)|[(_ & _ & _ & H & _)
         |(_ & _ & _ & H & _)]]]]; rewrite H; eexists; reflexivity. }
  rewrite (run_decided _ _ _ c0 _ _ _ _ H1 H2 H3 H4) in Hrun.
  right. exists damage, fr, dec, st.
  destruct (commit_fault env) as [e|]; injection Hrun as <- <-;
    cbn [obj stored]; repeat split; eauto.
Qed.

(** What a decided claim holds. *)
Lemma decided_status
    (damage_result : json) (damage : pydict) (fr : Fraud.FraudScore)
    (dec : Engine.Decision) (st : ClaimStatus) (now : civil) (c0 : Claim)
    (image_bytes : list Byte.byte)
    (claim_data : Fraud.ClaimData) (policy_data : Fraud.PolicyData)
    (limit : Z) :
  detect env image_bytes claim_data policy_data = Ok fr ->
  Engine.make_decision damage (Engine.of_fraud_score fr) limit = Ok dec ->
  status_of_value (Engine.decision dec) = Ok st ->
  status (Views.decided now damage_result damage fr dec st c0) = st /\
  (st = APPROVED \/ st = UNDER_REVIEW) /\
  status_value st = Engine.decision dec.
Proof.
  intros Hfr Hdec Hst. split; [reflexivity|].
  pose proof (detected_never_rejected _ _ _ _ _ _ _ _ Hfr Hdec) as Hnr.
  destruct (make_decision_cases _ _ _ _ Hdec)
    as [(_ & H & _)|[(_ & H & _)|[(_ & _ & H & _)|[(_ & _ & _ & H & _)
       |(_ & _ & _ & H & _)]]]];
    rewrite H in Hst, Hnr |- *; try contradiction;
    injection Hst as <-; auto.
Qed.

(** The handler writes the row of the claim only. *)
Lemma on_error_rows (c : Claim) (e : exn) (d : Database) :
  customers (on_error env (Some (id, c)) e d) = customers d /\
  (forall k, k <> id ->
     claims (on_error env (Some (id, c)) e d) !! k = claims d !! k) /\
  (claims (on_error env (Some (id, c)) e d) !! id = claims d !! id \/
   claims (on_error env (Some (id, c)) e d) !! id = Some (mark_error e c)).
Proof.
  unfold on_error, commit.
  destruct (handler_commit_fault env); cbn [stored write_row claims customers
                                            uid obj].
  - auto.
  - split; [reflexivity|]. split.
    + intros k Hk. apply lookup_insert_ne. congruence.
    + right. apply lookup_insert_eq.
Qed.

(** The row of the claim after the pipeline: as it was, or marked by the
    handler, or the decided claim. *)
Lemma final_row (c0 c' : Claim) :
  claims db !! id = Some c0 ->
  claims (process_claim env claim_id db) !! id = Some c' ->
  c' = c0 \/
  (exists e x, c' = mark_error e x) \/
  (exists customer image_bytes damage fr dec st,
     customer_id c0 ≫= (fun k => customers db !! k) = Some customer /\
     detect env image_bytes (Views.claim_data_of c0)
       (Views.policy_data_of customer) = Ok fr /\
     Engine.make_decision damage (Engine.of_fraud_score fr)
       (policy_limit customer) = Ok dec /\
     status_of_value (Engine.decision dec) = Ok st /\
     c' = Views.decided (utcnow env)
            (assess env image_bytes (type_value (claim_type c0)))
            damage fr dec st c0).
Proof.
  intros Hc0. unfold process_claim, try_block.
  rewrite claim_id_valid, claim_query_answers, Hc0.
  destruct (customer_query_fault env) as [e|].
  { intros H. destruct (on_error_rows c0 e db) as (_ & _ & [Hx|Hx]);
      rewrite Hx in H; [left | right; left; exists e, c0]; congruence. }
  destruct (customer_id c0 ≫= _) as [customer|] eqn:Hcu; [|left; congruence].
  destruct (images c0) as [[|url urls]|]; [left; congruence| |left; congruence].
  destruct (download_from_supabase env url) as [image_bytes|e].
  2: { intros H. destruct (on_error_rows c0 e db) as (_ & _ & [Hx|Hx]);
         rewrite Hx in H; [left | right; left; exists e, c0]; congruence. }
  destruct (analyse_decide_write _ _ _ _ _) as [s r] eqn:Hrun.
  destruct (run_shape _ _ _ _ _ _ Hrun)
    as [(e & -> & Hdb & _)
       |(damage & fr & dec & st & Hfr & Hdec & Hst & Hobj & Hstored)].
  - intros H. destruct (on_error_rows (obj s) e (stored s)) as (_ & _ & [Hx|Hx]);
      rewrite Hx in H;
      [rewrite Hdb in H; left | right; left; exists e, (obj s)]; congruence.
  - assert (Hdecided :
      forall c, claims (stored s) !! id = Some c ->
                c = c0 \/ c = obj s).
    { intros c Hc. destruct Hstored as [(e & _ & Hdb)|Hdb]; rewrite Hdb in Hc.
      - left. congruence.
      - right. cbn [write_row claims uid obj] in Hc.
        rewrite lookup_insert_eq in Hc. congruence. }
    intros H.
    assert (Hfinal : c' = c0 \/ c' = obj s \/ exists e x, c' = mark_error e x).
    { destruct r as [u|e].
      - destruct (Hdecided _ H); auto.
      - destruct (on_error_rows (obj s) e (stored s)) as (_ & _ & [Hx|Hx]);
          rewrite Hx in H.
        + destruct (Hdecided _ H); auto.
        + right; right. exists e, (obj s). congruence. }
    destruct Hfinal as [->|[->|Hm]]; [left; reflexivity | | right; left; exact Hm].
    right; right. exists customer, image_bytes, damage, fr, dec, st.
    repeat split; assumption.
Qed.

(** X23.  The pipeline writes one row.  Whatever happens, every other claim and
    every customer is as before. *)
Theorem other_rows_untouched (k : N) :
  k <> id ->
  claims (process_claim env claim_id db) !! k = claims db !! k /\
  customers (process_claim env claim_id db) = customers db.
Proof.
  intros Hk. unfold process_claim, try_block.
  rewrite claim_id_valid, claim_query_answers.
  destruct (claims db !! id) as [c0|]; [|auto].
  destruct (customer_query_fault env) as [e|].
  { destruct (on_error_rows c0 e db) as (H1 & H2 & _). auto. }
  destruct (customer_id c0 ≫= _) as [customer|]; [|auto].
  destruct (images c0) as [[|url urls]|]; [auto| |auto].
  destruct (download_from_supabase env url) as [image_bytes|e].
  2: { destruct (on_error_rows c0 e db) as (H1 & H2 & _). auto. }
  destruct (analyse_decide_write _ _ _ _ _) as [s r] eqn:Hrun.
  assert (Hs : claims (stored s) !! k = claims db !! k /\
               customers (stored s) = customers db).
  { destruct (run_shape _ _ _ _ _ _ Hrun)
      as [(e & _ & -> & _)|(damage & fr & dec & st & _ & _ & _ & _ & Hst)];
      [auto|].
    destruct Hst as [(e & _ & ->)| ->]; [auto|].
    cbn [write_row claims customers uid obj]. split; [|reflexivity].
    apply lookup_insert_ne. congruence. }
  destruct r as [u|e]; [exact Hs|].
  destruct (on_error_rows (obj s) e (stored s)) as (H1 & H2 & _).
  rewrite H1, (H2 k Hk). exact Hs.
Qed.

(** X24.  The pipeline never rejects, and never sets a claim back to pending:
    after it the status of the claim is what it was, or approved, or under
    review. *)
Theorem pipeline_never_rejects (c0 c' : Claim) :
  claims db !! id = Some c0 ->
  claims (process_claim env claim_id db) !! id = Some c' ->
  status c' = status c0 \/ status c' = APPROVED \/ status c' = UNDER_REVIEW.
Proof.
  intros Hc0 Hc'.
  destruct (final_row _ _ Hc0 Hc')
    as [->|[(e & x & ->)
       |(customer & img & damage & fr & dec & st & _ & Hfr & Hdec & Hst & ->)]].
  - left. reflexivity.
  - right; right. reflexivity.
  - destruct (decided_status
                (assess env img (type_value (claim_type c0))) damage fr dec st
                (utcnow env) c0 _ _ _ _ Hfr Hdec Hst) as (-> & Hst' & _).
    right. exact Hst'.
Qed.

(** X25.  A claim the pipeline turned to approved meets the approval criteria:
    its fraud score is at most 30, its approved amount is its estimated
    amount, which, when an integer, is at most the policy limit of its
    customer, and it carries the approval reason, the assessment and a
    decision timestamp. *)
Theorem approved_claim_meets_criteria (c0 c' : Claim) :
  claims db !! id = Some c0 ->
  status c0 <> APPROVED ->
  claims (process_claim env claim_id db) !! id = Some c' ->
  status c' = APPROVED ->
  fraud_score c' <= 30 /\
  approved_amount c' = Some (estimated_amount c') /\
  decision_reason c' = Some "Claim meets all approval criteria" /\
  is_Some (decision_timestamp c') /\
  is_Some (damage_assessment c') /\
  forall customer n,
    customer_id c0 ≫= (fun k => customers db !! k) = Some customer ->
    estimated_amount c' = JInt n -> n <= policy_limit customer.
Proof.
  intros Hc0 Hnot Hc' Happ.
  destruct (final_row _ _ Hc0 Hc')
    as [->|[(e & x & ->)
       |(customer & img & damage & fr & dec & st & Hcu & Hfr & Hdec & Hst & ->)]].
  - contradiction.
  - discriminate Happ.
  - destruct (decided_status
                (assess env img (type_value (claim_type c0))) damage fr dec st
                (utcnow env) c0 _ _ _ _ Hfr Hdec Hst) as (Hs & _ & Hval).
    rewrite Hs in Happ. subst st. cbn [status_value] in Hval.
    destruct (make_decision_cases _ _ _ _ Hdec)
      as [(_ & H & _)|[(_ & H & _)|[(_ & _ & H & _)|[(_ & _ & _ & H & _)|H]]]];
      try (rewrite H in Hval; discriminate Hval).
    destruct H as (Hfs & Hcost & _ & _ & Hamount & Hreason).
    cbn in Hfs.
    unfold Views.decided, Views.assessed.
    cbn [fraud_score approved_amount estimated_amount decision_reason
         decision_timestamp damage_assessment set_timestamp set_outcome
         set_status set_fraud set_damage].
    rewrite Hamount, Hreason.
    repeat split; eauto.
    intros customer' n Hcu' Hn. rewrite Hcu in Hcu'. injection Hcu' as <-.
    rewrite Hn in Hcost. cbn in Hcost. injection Hcost as Hcost.
    apply Z.ltb_ge in Hcost. exact Hcost.
Qed.

End PipelineMore.

(** X16.  A claim id that is no UUID, or a failing query for the claim, raises
    before the name [claim] is bound: the handler's own assignment fails,
    the failure is swallowed, and nothing is written. *)
Theorem failure_before_load_no_change
    (env : Processor.Env) (claim_id : string) (db : Processor.Database) :
  (exists e, Processor.uuid_of env claim_id = Raise e) \/
  (exists e, Processor.claim_query_fault env = Some e) ->
  Processor.process_claim env claim_id db = db.
Proof.
  unfold Processor.process_claim, Processor.try_block.
  intros [[e ->] | [e He]]; [reflexivity|].
  destruct (Processor.uuid_of env claim_id); [rewrite He|]; reflexivity.
Qed.

Section PipelineCases.

Import Processor.

Variable env : Env.
Variable claim_id : string.
Variable db : Database.
Variable id : N.
Variable claim : Claim.

Hypothesis claim_id_valid : uuid_of env claim_id = Ok id.
Hypothesis claim_query_answers : claim_query_fault env = None.
Hypothesis claim_found : claims db !! id = Some claim.

(** X17.  A claim without an image is left alone: with no list of images, or an
    empty one, the pipeline ends without any write. *)
Theorem no_image_no_change :
  customer_query_fault env = None ->
  images claim = None \/ images claim = Some [] ->
  process_claim env claim_id db = db.
Proof.
  intros Hcq Himages. unfold process_claim, try_block.
  rewrite claim_id_valid, claim_query_answers, claim_found, Hcq.
  destruct (customer_id claim ≫= _); [|reflexivity].
  destruct Himages as [-> | ->]; reflexivity.
Qed.

(** X18.  A failure while loading, of the query for the customer or of the
    download of the first image, sends the claim to review: when the commit
    of the handler succeeds, the stored claim is the loaded one with status
    UNDER_REVIEW and the reason "Processing error: <message>", and nothing
    else changed; it has no decision timestamp unless it had one. *)
Theorem load_failure_review (e : exn) :
  customer_query_fault env = Some e \/
  (customer_query_fault env = None /\
   exists customer url urls,
     customer_id claim ≫= (fun k => customers db !! k) = Some customer /\
     images claim = Some (url :: urls) /\
     download_from_supabase env url = Raise e) ->
  handler_commit_fault env = None ->
  exists c,
    claims (process_claim env claim_id db) !! id = Some c /\
    status c = UNDER_REVIEW /\
    decision_reason c = Some ("Processing error: " +:+ message e) /\
    Views.same_inputs c claim /\
    damage_assessment c = damage_assessment claim /\
    estimated_amount c = estimated_amount claim /\
    fraud_score c = fraud_score claim /\
    fraud_flags c = fraud_flags claim /\
    approved_amount c = approved_amount claim /\
    decision_timestamp c = decision_timestamp claim.
Proof.
  intros Hfail Hhandler.
  assert (Hfinal : process_claim env claim_id db
                   = on_error env (Some (id, claim)) e db).
  { unfold process_claim, try_block.
    rewrite claim_id_valid, claim_query_answers, claim_found.
    destruct Hfail as [-> | (-> & customer & url & urls & -> & -> & ->)];
      reflexivity. }
  rewrite Hfinal. unfold on_error, commit. rewrite Hhandler.
  cbn [stored write_row claims uid obj]. rewrite lookup_insert_eq.
  eexists. split; [reflexivity|]. unfold Views.same_inputs.
  repeat split; reflexivity.
Qed.

Variable customer : Customer.
Variable url : string.
Variable urls : list string.
Variable image_bytes : list Byte.byte.

Hypothesis customer_query_answers : customer_query_fault env = None.
Hypothesis customer_found :
  customer_id claim ≫= (fun k => customers db !! k) = Some customer.
Hypothesis image_listed : images claim = Some (url :: urls).
Hypothesis image_loaded : download_from_supabase env url = Ok image_bytes.

Let damage_result := assess env image_bytes (type_value (claim_type claim)).

(** X19.  The write-back of a run in which no step fails: the stored claim holds
    the assessment and its estimated cost, the fraud score and flags, the
    status named by the verdict, the approved amount and reason of the
    decision, and the time of the decision; what the pipeline reads of the
    claim is unchanged. *)
Theorem successful_run_writes_back
    (damage : pydict) (fr : Fraud.FraudScore) (dec : Engine.Decision) :
  as_dict damage_result = Ok damage ->
  detect env image_bytes (Views.claim_data_of claim)
    (Views.policy_data_of customer) = Ok fr ->
  Engine.make_decision damage (Engine.of_fraud_score fr) (policy_limit customer)
    = Ok dec ->
  commit_fault env = None ->
  format_comma (dict_get "estimated_cost_ngn" (JInt 0) damage) = Ok tt ->
  exists c,
    claims (process_claim env claim_id db) !! id = Some c /\
    status_value (status c) = Engine.decision dec /\
    damage_assessment c = Some damage_result /\
    estimated_amount c = dict_get "estimated_cost_ngn" (JInt 0) damage /\
    fraud_score c = Fraud.fraud_score fr /\
    fraud_flags c = Fraud.all_flags fr /\
    approved_amount c = Engine.approved_amount dec /\
    decision_reason c = Some (Engine.reason dec) /\
    decision_timestamp c = Some (utcnow env) /\
    Views.same_inputs c claim.
Proof.
  intros H1 H2 H3 Hcommit Hformat.
  assert (exists st, status_of_value (Engine.decision dec) = Ok st /\
                     status_value st = Engine.decision dec) as (st & H4 & Hval).
  { destruct (make_decision_cases _ _ _ _ H3)
      as [(_ & H & _)|[(_ & H & _)|[(_ & _ & H & _)|[(_ & _ & _ & H & _)
         |(_ & _ & _ & H & _)]]]]; rewrite H; eexists; split; reflexivity. }
  rewrite (process_claim_runs env claim_id db id claim_id_valid
             claim_query_answers claim customer url urls image_bytes
             claim_found customer_query_answers customer_found image_listed
             image_loaded).
  rewrite (run_decided env db id claim customer image_bytes claim damage fr dec
             st H1 H2 H3 H4).
  rewrite Hcommit.
  assert (Hreport : Views.report
                      (Views.decided (utcnow env) damage_result damage fr dec
                         st claim) = Ok tt).
  { unfold Views.report, Views.decided, Views.assessed.
    cbn [estimated_amount approved_amount set_timestamp set_outcome set_status
         set_fraud set_damage].
    rewrite Hformat. cbn [bind].
    destruct (make_decision_cases _ _ _ _ H3)
      as [(_ & _ & H)|[(_ & _ & H)|[(_ & _ & _ & H)|[(_ & _ & _ & _ & H)
         |(_ & _ & _ & _ & H & _)]]]]; rewrite H; try reflexivity.
    rewrite Hformat. destruct (py_bool _); reflexivity. }
  fold damage_result. rewrite Hreport.
  cbn [stored write_row claims uid obj]. rewrite lookup_insert_eq.
  eexists. split; [reflexivity|]. unfold Views.same_inputs.
  repeat split; try reflexivity. exact Hval.
Qed.

(** X20.  The history query is not recovered.  When the count of recent claims
    cannot be read, the pipeline keeps the damage assessment it already has
    and ends, after a successful commit of the handler, with the claim
    UNDER_REVIEW for "Processing error: <message>", without fraud score,
    decision or timestamp. *)
Theorem history_failure_review (damage : pydict) (e : exn) :
  as_dict damage_result = Ok damage ->
  count_recent_claims env (policy_number claim) = Raise e ->
  handler_commit_fault env = None ->
  exists c,
    claims (process_claim env claim_id db) !! id = Some c /\
    status c = UNDER_REVIEW /\
    decision_reason c = Some ("Processing error: " +:+ message e) /\
    damage_assessment c = Some damage_result /\
    estimated_amount c = dict_get "estimated_cost_ngn" (JInt 0) damage /\
    fraud_score c = fraud_score claim /\
    fraud_flags c = fraud_flags claim /\
    approved_amount c = approved_amount claim /\
    decision_timestamp c = decision_timestamp claim.
Proof.
  intros H1 Hcount Hhandler.
  assert (H2 : detect env image_bytes (Views.claim_data_of claim)
                 (Views.policy_data_of customer) = Raise e).
  { unfold detect, Fraud.calculate_fraud_score, Fraud.check_claim_history,
      Views.claim_data_of.
    simpl. rewrite Hcount. reflexivity. }
  rewrite (process_claim_runs env claim_id db id claim_id_valid
             claim_query_answers claim customer url urls image_bytes
             claim_found customer_query_answers customer_found image_listed
             image_loaded).
  rewrite (run_detect_fails env db id claim customer image_bytes claim damage e
             H1 H2).
  unfold on_error, commit. rewrite Hhandler.
  cbn [stored write_row claims uid obj]. rewrite lookup_insert_eq.
  eexists. split; [reflexivity|]. repeat split; reflexivity.
Qed.

(** X21.  An assessment that is no dictionary stops the pipeline at its first
    read: the value is kept as the damage assessment, and after a
    successful commit of the handler the claim is UNDER_REVIEW for the
    [AttributeError] of the missing [get]. *)
Theorem non_dict_assessment_review :
  Views.is_dict damage_result = false ->
  handler_commit_fault env = None ->
  exists c,
    claims (process_claim env claim_id db) !! id = Some c /\
    status c = UNDER_REVIEW /\
    decision_reason c =
      Some ("Processing error: '" +:+ type_name damage_result
            +:+ "' object has no attribute 'get'") /\
    damage_assessment c = Some damage_result /\
    estimated_amount c = estimated_amount claim /\
    decision_timestamp c = decision_timestamp claim.
Proof.
  intros Hnd Hhandler.
  assert (H1 : as_dict damage_result =
               Raise (Exn AttributeError
                        ("'" +:+ type_name damage_result
                         +:+ "' object has no attribute 'get'"))).
  { unfold as_dict. destruct damage_result; try reflexivity. discriminate Hnd. }
  rewrite (process_claim_runs env claim_id db id claim_id_valid
             claim_query_answers claim customer url urls image_bytes
             claim_found customer_query_answers customer_found image_listed
             image_loaded).
  rewrite (run_not_a_dict env db id claim customer image_bytes claim _ H1).
  unfold on_error, commit. rewrite Hhandler.
  cbn [stored write_row claims uid obj]. rewrite lookup_insert_eq.
  eexists. split; [reflexivity|]. repeat split; reflexivity.
Qed.


End PipelineCases.

(* ===================================================================== *)
(** * Properties of the incident-date validator *)
(* ===================================================================== *)

(** X28.  The window of [validate_incident_date].  A naive date is accepted
    exactly when it is not after the first reading of the clock and less
    than 31 full days before the second, so that a date 30 days and some
    hours old still passes; a naive date outside the window is refused with
    [ValueError]; an aware date is never accepted, since its comparison with
    the naive clock raises [TypeError]. *)
Theorem incident_date_window (now1 now2 : Z) (v : datetime) :
  (utcoffset v = None ->
   (Schemas.validate_incident_date now1 now2 v = Ok v <->
    wall v <= now1 /\ now2 - wall v < 31 * us_per_day) /\
   (Schemas.validate_incident_date now1 now2 v = Ok v \/
    exists msg,
      Schemas.validate_incident_date now1 now2 v = Raise (Exn ValueError msg))) /\
  (forall o, utcoffset v = Some o ->
     Schemas.validate_incident_date now1 now2 v =
     Raise (Exn TypeError
              "can't compare offset-naive and offset-aware datetimes")).
Proof.
  unfold Schemas.validate_incident_date, Schemas.dt_gt, dt_sub, days.
  cbn [utcoffset wall]. split.
  - intros ->. cbn [bind].
    pose proof (Z.div_mod (now2 - wall v) us_per_day) as Hdm.
    pose proof (Z.mod_pos_bound (now2 - wall v) us_per_day) as Hmb.
    change us_per_day with 86400000000 in *.
    destruct (Z.ltb_spec now1 (wall v)) as [Hf|Hf].
    + split; [split; [discriminate | lia] | right; eauto].
    + destruct (Z.ltb_spec 30 ((now2 - wall v) / 86400000000)) as [Ho|Ho].
      * split; [split; [discriminate | lia] | right; eauto].
      * split; [split; [lia | reflexivity] | left; reflexivity].
  - intros o ->. reflexivity.
Qed.

(* ===================================================================== *)
(** * Properties of the upload naming *)
(* ===================================================================== *)

Lemma contains_dot_inside (stem ext : string) :
  contains "." (stem +:+ "." +:+ ext) = true.
Proof.
  induction stem as [|c stem IH]; [reflexivity|].
  rewrite append_cons. cbn [contains]. rewrite IH. apply orb_true_r.
Qed.

Lemma last_segment_inside (stem ext : string) :
  contains "." ext = false ->
  Storage.last_segment (stem +:+ "." +:+ ext) = ext.
Proof.
  intros Hext. induction stem as [|c stem IH].
  - change ("" +:+ "." +:+ ext) with (String "." ext).
    cbn [Storage.last_segment]. rewrite Hext. reflexivity.
  - rewrite append_cons. cbn [Storage.last_segment].
    rewrite contains_dot_inside. exact IH.
Qed.

Section UploadFacts.

Variable uuid4 : string.
Variable upload : string -> list Byte.byte -> string -> result unit.
Variable get_public_url : string -> result string.

(** X29.  The stored object is named after the extension of the file.  For a file
    name that ends in a dot and an extension without dots, the image is
    uploaded as [claims/<uuid>.<extension>], the extension as the user wrote
    it, under the content type of that extension, and the public URL of
    that path is returned. *)
Theorem upload_keeps_extension
    (image_bytes : list Byte.byte) (stem ext : string) :
  contains "." ext = false ->
  Storage.upload_image_to_supabase uuid4 upload get_public_url image_bytes
    (stem +:+ "." +:+ ext) =
  (let! _ := upload ("claims/" +:+ uuid4 +:+ "." +:+ ext) image_bytes
               (Storage.content_type_of ext) in
   get_public_url ("claims/" +:+ uuid4 +:+ "." +:+ ext)).
Proof.
  intros Hext. unfold Storage.upload_image_to_supabase, Storage.extension.
  rewrite contains_dot_inside, (last_segment_inside _ _ Hext). reflexivity.
Qed.

End UploadFacts.

(** X30.  No file is refused for its extension, and none gets a content type of
    its own: the content type is image/png for png, image/webp for webp, in
    any letter case, and image/jpeg for every other extension. *)
Theorem content_type_is_one_of_three (ext : string) :
  (lower ext = "png" /\ Storage.content_type_of ext = "image/png") \/
  (lower ext = "webp" /\ Storage.content_type_of ext = "image/webp") \/
  (lower ext <> "png" /\ lower ext <> "webp" /\
   Storage.content_type_of ext = "image/jpeg").
Proof.
  unfold Storage.content_type_of, Storage.content_types.
  destruct (decide (lower ext = "png")) as [Hp|Hp].
  { left. split; [exact Hp|]. rewrite Hp. reflexivity. }
  destruct (decide (lower ext = "webp")) as [Hw|Hw].
  { right; left. split; [exact Hw|]. rewrite Hw. reflexivity. }
  right; right. split; [exact Hp|]. split; [exact Hw|].
  destruct (decide (lower ext = "jpg")) as [Hj|Hj]; [rewrite Hj; reflexivity|].
  destruct (decide (lower ext = "jpeg")) as [Hj'|Hj']; [rewrite Hj'; reflexivity|].
  rewrite !lookup_insert_ne by congruence. rewrite lookup_empty. reflexivity.
Qed.

(* ===================================================================== *)
(** * The status endpoint after the pipeline *)
(* ===================================================================== *)

Section StatusFacts.

Import Processor.

Variable env : Env.
Variable uuid_str : N -> string.
Variable Response : Type.
Variable ClaimResponse : Router.ResponseFields -> result Response.
Variable claim_id : string.
Variable db : Database.
Variable id : N.
Variable claim : Claim.

Hypothesis claim_id_valid : uuid_of env claim_id = Ok id.
Hypothesis claim_query_answers : claim_query_fault env = None.
Hypothesis claim_found : claims db !! id = Some claim.

(** The endpoint on a database, its own query succeeding. *)
Let get_status (d : Database) : Router.http Response :=
  Router.get_claim_status (uuid_of env) uuid_str None Response ClaimResponse
    claim_id d.

Let respond (fields : Router.ResponseFields) : Router.http Response :=
  match ClaimResponse fields with
  | Ok r => Router.Respond r
  | Raise e => Router.Unhandled e
  end.

(** X26.  A claim that failed while loading is shown under review without a
    decision.  After a failure of the customer query or of the download,
    handled with a successful commit, the endpoint reports the status
    under_review, the reason "Processing error: <message>" and the next
    steps of a review, but, for a claim that had no decision timestamp, no
    decision. *)
Theorem status_after_load_failure (e : exn) :
  customer_query_fault env = Some e \/
  (customer_query_fault env = None /\
   exists customer url urls,
     customer_id claim ≫= (fun k => customers db !! k) = Some customer /\
     images claim = Some (url :: urls) /\
     download_from_supabase env url = Raise e) ->
  handler_commit_fault env = None ->
  decision_timestamp claim = None ->
  get_status (process_claim env claim_id db) =
  respond
    {| Router.claim_id := uuid_str id;
       Router.status := "under_review";
       Router.damage_assessment := damage_assessment claim;
       Router.fraud_score := fraud_score claim;
       Router.decision := None;
       Router.approved_amount := approved_amount claim;
       Router.reason := Some ("Processing error: " +:+ message e);
       Router.flags := fraud_flags claim;
       Router.next_steps := Some "Our team will review within 4 hours" |}.
Proof.
  intros Hfail Hhandler Hts.
  assert (Hfinal : process_claim env claim_id db
                   = on_error env (Some (id, claim)) e db).
  { unfold process_claim, try_block.
    rewrite claim_id_valid, claim_query_answers, claim_found.
    destruct Hfail as [-> | (-> & customer & url & urls & -> & -> & ->)];
      reflexivity. }
  unfold get_status, Router.get_claim_status. rewrite claim_id_valid, Hfinal.
  unfold on_error, commit. rewrite Hhandler.
  cbn [stored write_row claims uid obj]. rewrite lookup_insert_eq.
  unfold Router.response_fields, mark_error, set_reason.
  cbn [status decision_timestamp damage_assessment fraud_score approved_amount
       decision_reason fraud_flags set_outcome set_status status_value
       Router.next_steps_of].
  rewrite Hts. reflexivity.
Qed.

Variable customer : Customer.
Variable url : string.
Variable urls : list string.
Variable image_bytes : list Byte.byte.

Hypothesis customer_query_answers : customer_query_fault env = None.
Hypothesis customer_found :
  customer_id claim ≫= (fun k => customers db !! k) = Some customer.
Hypothesis image_listed : images claim = Some (url :: urls).
Hypothesis image_loaded : download_from_supabase env url = Ok image_bytes.

(** X27.  After a run in which no step fails the endpoint reports the decision
    that was made: its verdict as status and as decision, its approved
    amount and its reason, with the fraud score, the flags and the
    assessment.  The next steps are those of the status; the next steps the
    engine wrote into its decision are not among the fields. *)
Theorem status_after_successful_run
    (damage : pydict) (fr : Fraud.FraudScore) (dec : Engine.Decision) :
  as_dict (assess env image_bytes (type_value (claim_type claim))) = Ok damage ->
  detect env image_bytes (Views.claim_data_of claim)
    (Views.policy_data_of customer) = Ok fr ->
  Engine.make_decision damage (Engine.of_fraud_score fr) (policy_limit customer)
    = Ok dec ->
  commit_fault env = None ->
  format_comma (dict_get "estimated_cost_ngn" (JInt 0) damage) = Ok tt ->
  get_status (process_claim env claim_id db) =
  respond
    {| Router.claim_id := uuid_str id;
       Router.status := Engine.decision dec;
       Router.damage_assessment :=
         Some (assess env image_bytes (type_value (claim_type claim)));
       Router.fraud_score := Fraud.fraud_score fr;
       Router.decision := Some (Engine.decision dec);
       Router.approved_amount := Engine.approved_amount dec;
       Router.reason := Some (Engine.reason dec);
       Router.flags := Fraud.all_flags fr;
       Router.next_steps :=
         if String.eqb (Engine.decision dec) "approved"
         then Some "Payment will be processed within 24 hours"
         else Some "Our team will review within 4 hours" |}.
Proof.
  intros H1 H2 H3 Hcommit Hformat.
  pose proof (detected_never_rejected _ _ _ _ _ _ _ _ H2 H3) as Hnr.
  assert (exists st, status_of_value (Engine.decision dec) = Ok st /\
                     status_value st = Engine.decision dec /\
                     Router.next_steps_of st =
                       if String.eqb (Engine.decision dec) "approved"
                       then Some "Payment will be processed within 24 hours"
                       else Some "Our team will review within 4 hours")
    as (st & H4 & Hval & Hnext).
  { destruct (make_decision_cases _ _ _ _ H3)
      as [(_ & H & _)|[(_ & H & _)|[(_ & _ & H & _)|[(_ & _ & _ & H & _)
         |(_ & _ & _ & H & _)]]]]; rewrite H in Hnr |- *;
      try contradiction; eexists; repeat split; reflexivity. }
  rewrite (process_claim_runs env claim_id db id claim_id_valid
             claim_query_answers claim customer url urls image_bytes
             claim_found customer_query_answers customer_found image_listed
             image_loaded).
  rewrite (run_decided env db id claim customer image_bytes claim damage fr dec
             st H1 H2 H3 H4).
  rewrite Hcommit.
  assert (Hreport : Views.report
                      (Views.decided (utcnow env)
                         (assess env image_bytes (type_value (claim_type claim)))
                         damage fr dec st claim) = Ok tt).
  { unfold Views.report, Views.decided, Views.assessed.
    cbn [estimated_amount approved_amount set_timestamp set_outcome set_status
         set_fraud set_damage].
    rewrite Hformat. cbn [bind].
    destruct (make_decision_cases _ _ _ _ H3)
      as [(_ & _ & H)|[(_ & _ & H)|[(_ & _ & _ & H)|[(_ & _ & _ & _ & H)
         |(_ & _ & _ & _ & H & _)]]]]; rewrite H; try reflexivity.
    rewrite Hformat. destruct (py_bool _); reflexivity. }
  rewrite Hreport.
  unfold get_status, Router.get_claim_status. rewrite claim_id_valid.
  cbn [stored write_row claims uid obj]. rewrite lookup_insert_eq.
  unfold Router.response_fields, Views.decided, Views.assessed.
  cbn [status decision_timestamp damage_assessment fraud_score approved_amount
       decision_reason fraud_flags set_timestamp set_outcome set_status
       set_fraud set_damage].
  rewrite Hval, Hnext. reflexivity.
Qed.

End StatusFacts.

(* ===================================================================== *)
(** * The reason of a claim above the policy limit *)
(* ===================================================================== *)

Lemma without_commas_append (s t : string) :
  Views.without_commas (s +:+ t)
  = Views.without_commas s +:+ Views.without_commas t.
Proof.
  induction s as [|c s IH]; [reflexivity|].
  rewrite append_cons. cbn [Views.without_commas].
  destruct (Ascii.eqb c ","); [exact IH|].
  rewrite append_cons, IH. reflexivity.
Qed.

(** Grouping inserts commas and nothing else. *)
Lemma group3_only_commas (fuel : nat) (digits : string) :
  Views.without_commas (group3 fuel digits) = Views.without_commas digits.
Proof.
  revert digits. induction fuel as [|fuel IH]; intros digits; [reflexivity|].
  cbn [group3]. destruct (String.length digits <=? 3)%nat; [reflexivity|].
  rewrite !without_commas_append, IH.
  change (Views.without_commas ",") with "".
  change ("" +:+ Views.without_commas (drop (String.length digits - 3) digits))
    with (Views.without_commas (drop (String.length digits - 3) digits)).
  rewrite <- without_commas_append, take_drop. reflexivity.
Qed.

(** The decimal digits of a number hold no comma. *)
Lemma pretty_N_go_no_commas (x : N) (s : string) :
  Views.without_commas s = s ->
  Views.without_commas (pretty_N_go x s) = pretty_N_go x s.
Proof.
  revert s. induction (N.lt_wf_0 x) as [x _ IH]; intros s Hs.
  destruct (decide (x = 0)%N) as [->|Hx].
  - rewrite pretty_N_go_0. exact Hs.
  - rewrite pretty_N_go_step by lia. apply IH.
    + apply N.div_lt; lia.
    + cbn [Views.without_commas].
      assert (Hd : Ascii.eqb (pretty_N_char (x `mod` 10)) "," = false)
        by (unfold pretty_N_char; repeat case_match; reflexivity).
      rewrite Hd, Hs. reflexivity.
Qed.

Lemma pretty_positive_no_commas (p : positive) :
  Views.without_commas (pretty (N.pos p)) = pretty (N.pos p).
Proof.
  unfold pretty, pretty_N. destruct (decide (N.pos p = 0%N)); [reflexivity|].
  apply pretty_N_go_no_commas. reflexivity.
Qed.

Lemma format_thousands_digits (n : Z) :
  Views.without_commas (format_thousands n) = str_int n.
Proof.
  unfold str_int. destruct n as [|p|p]; [reflexivity| |].
  - replace (format_thousands (Z.pos p))
      with (group3 (String.length (pretty (N.pos p))) (pretty (N.pos p)))
      by reflexivity.
    replace (pretty (Z.pos p)) with (pretty (N.pos p)) by reflexivity.
    rewrite group3_only_commas. apply pretty_positive_no_commas.
  - replace (format_thousands (Z.neg p))
      with ("-" +:+ group3 (String.length (pretty (N.pos p))) (pretty (N.pos p)))
      by reflexivity.
    replace (pretty (Z.neg p)) with ("-" +:+ pretty (N.pos p)) by reflexivity.
    rewrite without_commas_append, group3_only_commas,
      pretty_positive_no_commas.
    reflexivity.
Qed.

(** X5.  The reason of rule 3 names the policy limit.  When the estimated cost
    is above the policy limit and the fraud score at most 30, the reason of
    the decision is "Claim exceeds policy limit (" followed by the naira
    sign, the limit grouped by thousands and ")": without the commas, the
    reason spells the limit as [str] does. *)
Theorem limit_reason_names_the_limit
    (damage_assessment : pydict) (fraud_analysis : Engine.FraudAnalysis)
    (policy_limit : Z) :
  default 0 (Engine.fa_fraud_score fraud_analysis) <= 30 ->
  py_gt_int (dict_get "estimated_cost_ngn" (JInt 0) damage_assessment)
    policy_limit = Ok true ->
  exists d,
    Engine.make_decision damage_assessment fraud_analysis policy_limit = Ok d /\
    Engine.reason d =
      "Claim exceeds policy limit (₦" +:+ format_thousands policy_limit +:+ ")" /\
    Views.without_commas (Engine.reason d) =
      "Claim exceeds policy limit (₦" +:+ str_int policy_limit +:+ ")".
Proof.
  intros Hfs Hcost. unfold Engine.make_decision.
  assert ((70 <? default 0 (Engine.fa_fraud_score fraud_analysis)) = false) as ->
    by (apply Z.ltb_ge; lia).
  assert ((30 <? default 0 (Engine.fa_fraud_score fraud_analysis)) = false) as ->
    by (apply Z.ltb_ge; lia).
  rewrite Hcost. cbn [bind]. eexists. split; [reflexivity|].
  cbn [Engine.reason]. split; [reflexivity|].
  rewrite !without_commas_append, format_thousands_digits. reflexivity.
Qed.

(* ===================================================================== *)
(** * The properties on concrete runs *)
(* ===================================================================== *)

(** Witness of [approval_is_sound]: a cost of 300000 under a limit of
    500000, confidence 0.9 and fraud score 10. *)
Lemma approval_is_sound_witness :
  Engine.make_decision Cases.clear_damage Cases.low_fraud 500000
    = Ok Cases.approved /\
  Engine.approved_amount Cases.approved = Some (JInt 300000) /\
  300000 <= 500000.
Proof.
  assert (H : Engine.make_decision Cases.clear_damage Cases.low_fraud 500000
              = Ok Cases.approved) by (vm_compute; reflexivity).
  split; [exact H|].
  destruct (approval_is_sound Cases.clear_damage Cases.low_fraud 500000
              Cases.approved H eq_refl) as (_ & _ & _ & Ha & Hn).
  split; [exact Ha | apply (Hn 300000); reflexivity].
Defined.

(** Witness of [approved_amount_iff_approved], on the same decision. *)
Lemma approved_amount_iff_approved_witness :
  Engine.make_decision Cases.clear_damage Cases.low_fraud 500000
    = Ok Cases.approved /\
  (is_Some (Engine.approved_amount Cases.approved)
   <-> Engine.decision Cases.approved = "approved").
Proof.
  assert (H : Engine.make_decision Cases.clear_damage Cases.low_fraud 500000
              = Ok Cases.approved) by (vm_compute; reflexivity).
  split; [exact H|].
  apply (approved_amount_iff_approved Cases.clear_damage Cases.low_fraud 500000
           Cases.approved H).
Defined.

(** Witness of [decision_is_a_status], on the same decision. *)
Lemma decision_is_a_status_witness :
  exists st,
    Processor.status_of_value (Engine.decision Cases.approved) = Ok st /\
    st <> Processor.PENDING /\
    Processor.status_value st = Engine.decision Cases.approved.
Proof.
  apply (decision_is_a_status Cases.clear_damage Cases.low_fraud 500000
           Cases.approved).
  vm_compute. reflexivity.
Defined.

(** Witness of [make_decision_raises_only_type_error]: a cost that is a
    string makes the comparison with the limit raise; a cost and a
    confidence that are numbers are decided on. *)
Lemma make_decision_raises_only_type_error_witness :
  (forall e,
     Engine.make_decision Cases.quoted_cost Cases.low_fraud 500000 = Raise e ->
     kind e = TypeError) /\
  (exists e, Engine.make_decision Cases.quoted_cost Cases.low_fraud 500000
             = Raise e) /\
  exists d, Engine.make_decision Cases.clear_damage Cases.low_fraud 500000 = Ok d.
Proof.
  split; [|split].
  - intros e He.
    apply (proj1 (make_decision_raises_only_type_error Cases.quoted_cost
                    Cases.low_fraud 500000) e He).
  - eexists. vm_compute. reflexivity.
  - apply (proj2 (make_decision_raises_only_type_error Cases.clear_damage
                    Cases.low_fraud 500000)); reflexivity.
Defined.

(** Witness of [unfence_removes_fence]: an empty object in a fence. *)
Lemma unfence_removes_fence_witness :
  Damage.unfence ("```json" +:+ "{}" +:+ "```") = "{}" /\
  Damage.unfence ("```" +:+ "{}" +:+ "```") = "{}".
Proof.
  destruct (unfence_removes_fence "{}") as [Hjson Hbare].
  split; [apply Hjson | apply Hbare]; reflexivity.
Defined.

(** Witness of [structured_reply_returned]: the reply of the scenario. *)
Lemma structured_reply_returned_witness :
  Scenario.assess_reply Scenario.good_reply = JObj Cases.good_record.
Proof.
  apply (structured_reply_returned
           "You are an expert insurance claims assessor in Nigeria."
           "PRICING GUIDE (Lagos, 2025)" "PRICING GUIDE" ""
           (fun _ _ => Ok Scenario.good_reply) json_loads_fragment
           [] "motor" Scenario.good_reply Cases.good_record eq_refl);
    vm_compute; reflexivity.
Defined.

(** Witness of [scalar_reply_call_fallback]: the reply is the number 123. *)
Lemma scalar_reply_call_fallback_witness :
  json_loads_fragment (strip (Damage.unfence "123")) = Ok (JInt 123) /\
  Spec.field_of "confidence" (Scenario.assess_reply "123") = Some (JFloat 0.3) /\
  Spec.field_of "error" (Scenario.assess_reply "123") = Some (JBool true) /\
  Spec.field_of "raw_response" (Scenario.assess_reply "123") = None.
Proof.
  assert (H : json_loads_fragment (strip (Damage.unfence "123")) = Ok (JInt 123))
    by (vm_compute; reflexivity).
  split; [exact H|].
  apply (scalar_reply_call_fallback
           "You are an expert insurance claims assessor in Nigeria."
           "PRICING GUIDE (Lagos, 2025)" "PRICING GUIDE" ""
           (fun _ _ => Ok "123") json_loads_fragment
           [] "motor" "123" (JInt 123) eq_refl H I).
Defined.

(** Witness of [degraded_assessment_not_approved]: the vision service is
    down, the fraud score is 10 and the limit 500000. *)
Lemma degraded_assessment_not_approved_witness :
  exists damage d,
    Processor.as_dict
      (Damage.analyze_damage
         "You are an expert insurance claims assessor in Nigeria."
         "PRICING GUIDE (Lagos, 2025)" "PRICING GUIDE" ""
         (fun _ _ => Raise Cases.timeout) json_loads_fragment [] "motor")
      = Ok damage /\
    Engine.make_decision damage Cases.low_fraud 500000 = Ok d /\
    Engine.decision d <> "approved" /\ Engine.approved_amount d = None.
Proof.
  apply (degraded_assessment_not_approved
           "You are an expert insurance claims assessor in Nigeria."
           "PRICING GUIDE (Lagos, 2025)" "PRICING GUIDE" ""
           (fun _ _ => Raise Cases.timeout) json_loads_fragment [] "motor"
           Cases.low_fraud 500000).
  left. exists Cases.timeout. reflexivity.
Defined.

(** Witness of [missing_exif_scores_15]: an image without any tag. *)
Lemma missing_exif_scores_15_witness :
  Fraud.check_metadata_fraud strptime_exif_fixed fromisoformat_fixed
    (Fraud.extract_exif (fun _ => Ok []) []) "2025-06-10T09:30:00" =
  {| Fraud.is_suspicious := true;
     Fraud.flags := ["Metadata stripped or missing"];
     Fraud.score := 15;
     Fraud.recent_claims_count := None |}.
Proof.
  apply (missing_exif_scores_15 strptime_exif_fixed fromisoformat_fixed
           (fun _ => Ok []) [] "2025-06-10T09:30:00").
  right. reflexivity.
Defined.

(** Witness of [date_signal_threshold]: a photo taken seven days and one
    hour before the claimed date. *)
Lemma date_signal_threshold_witness :
  Fraud.score Cases.week_old_photo = 10 /\
  Fraud.is_suspicious Cases.week_old_photo = false /\
  Fraud.flags Cases.week_old_photo = ["Photo taken 8 days from claim date"].
Proof.
  destruct (date_signal_threshold strptime_exif_fixed fromisoformat_fixed
              (Scenario.photo_taken "2025:01:01 00:00:00") "2025-01-08T01:00:00"
              "2025:01:01 00:00:00"
              (naive 2025 1 1 0 0 0) (naive 2025 1 8 1 0 0)
              (- (7 * us_per_day + 3600000000)))
    as [Hout _]; try (vm_compute; reflexivity); try discriminate.
  apply Hout. left. vm_compute. reflexivity.
Defined.

(** Witness of [timing_mixed_awareness_raises]: an incident date written
    with a trailing Z against the dates of a policy. *)
Lemma timing_mixed_awareness_raises_witness :
  Fraud.check_suspicious_timing fromisoformat_fixed
    "2025-01-03T00:00:00Z" "2025-01-01" "2025-01-05" =
  Raise (Exn TypeError "can't subtract offset-naive and offset-aware datetimes").
Proof.
  apply (timing_mixed_awareness_raises fromisoformat_fixed
           "2025-01-03T00:00:00Z" "2025-01-01" "2025-01-05"
           {| wall := wall (naive 2025 1 3 0 0 0); utcoffset := Some 0 |}
           (naive 2025 1 1 0 0 0) (naive 2025 1 5 0 0 0) 0);
    vm_compute; reflexivity.
Defined.

(** Witness of [both_boundaries_short_policy]: the policy of five days. *)
Lemma both_boundaries_short_policy_witness :
  exists length_of_policy,
    dt_sub (naive 2025 1 5 0 0 0) (naive 2025 1 1 0 0 0) = Ok length_of_policy /\
    0 <= length_of_policy < 16 * us_per_day.
Proof.
  apply (both_boundaries_short_policy fromisoformat_fixed
           "2025-01-03T00:00:00" "2025-01-01" "2025-01-05"
           (naive 2025 1 3 0 0 0) (naive 2025 1 1 0 0 0) (naive 2025 1 5 0 0 0)
           Scenario.both_boundaries);
    vm_compute; reflexivity.
Defined.

(** Witness of [score_zero_iff_no_flags]: the photo of the scenario, taken
    on the day of the incident, one claim in the window, a policy of a
    year. *)
Lemma score_zero_iff_no_flags_witness :
  exists r,
    Fraud.calculate_fraud_score strptime_exif_fixed fromisoformat_fixed
      (fun _ => Ok Scenario.camera_exif) (fun _ => Ok (Some 1)) []
      {| Fraud.cd_incident_date := Some "2025-06-10T09:30:00";
         Fraud.cd_policy_number := Some "POL-00017" |}
      {| Fraud.pd_policy_start_date := Some "2025-01-01";
         Fraud.pd_policy_end_date := Some "2025-12-31" |} = Ok r /\
    (Fraud.fraud_score r = 0 <-> Fraud.all_flags r = []) /\
    Fraud.fraud_score r = 0.
Proof.
  eexists. split; [vm_compute; reflexivity|]. split; [|reflexivity].
  apply (score_zero_iff_no_flags strptime_exif_fixed fromisoformat_fixed
           (fun _ => Ok Scenario.camera_exif) (fun _ => Ok (Some 1)) []
           {| Fraud.cd_incident_date := Some "2025-06-10T09:30:00";
              Fraud.cd_policy_number := Some "POL-00017" |}
           {| Fraud.pd_policy_start_date := Some "2025-01-01";
              Fraud.pd_policy_end_date := Some "2025-12-31" |}).
  vm_compute. reflexivity.
Defined.

(** Witness of [aggregate_score_at_most_65]: no metadata, three claims in
    the window and both ends of a policy of five days give 64. *)
Lemma aggregate_score_at_most_65_witness :
  exists r,
    Fraud.calculate_fraud_score strptime_exif_fixed fromisoformat_fixed
      (fun _ => Ok []) (fun _ => Ok (Some 3)) []
      Scenario.short_claim_data Scenario.short_policy_data = Ok r /\
    Fraud.fraud_score r = 64 /\
    0 <= Fraud.fraud_score r <= 65 /\
    (Fraud.risk_level r = Fraud.low \/ Fraud.risk_level r = Fraud.medium).
Proof.
  eexists. split; [vm_compute; reflexivity|]. split; [reflexivity|].
  apply (aggregate_score_at_most_65 strptime_exif_fixed fromisoformat_fixed
           (fun _ => Ok []) (fun _ => Ok (Some 3)) []
           Scenario.short_claim_data Scenario.short_policy_data).
  vm_compute. reflexivity.
Defined.

(** Witness of [failure_before_load_no_change]: the claim id is no UUID. *)
Lemma failure_before_load_no_change_witness :
  Processor.process_claim Scenario.env0 "claim-one" Scenario.db0 = Scenario.db0.
Proof.
  apply (failure_before_load_no_change Scenario.env0 "claim-one" Scenario.db0).
  left. eexists. reflexivity.
Defined.

(** Witness of [no_image_no_change]: a claim with an empty list of images. *)
Lemma no_image_no_change_witness :
  Processor.process_claim Scenario.env0 "claim-1" Cases.db_imageless
    = Cases.db_imageless.
Proof.
  apply (no_image_no_change Scenario.env0 "claim-1" Cases.db_imageless 1%N
           Cases.imageless_claim eq_refl eq_refl);
    [vm_compute; reflexivity | reflexivity | right; reflexivity].
Defined.

(** Witness of [load_failure_review]: the download of the image times
    out. *)
Lemma load_failure_review_witness :
  exists c,
    Processor.claims
      (Processor.process_claim Cases.env_download_down "claim-1" Scenario.db0)
      !! 1%N = Some c /\
    Processor.status c = Processor.UNDER_REVIEW /\
    Processor.decision_reason c = Some "Processing error: download timed out" /\
    Processor.decision_timestamp c = None.
Proof.
  destruct (load_failure_review Cases.env_download_down "claim-1" Scenario.db0
              1%N Scenario.pending_claim eq_refl eq_refl)
    with (e := Cases.timeout)
    as (c & Hc & Hstatus & Hreason & _ & _ & _ & _ & _ & _ & Hts).
  - vm_compute. reflexivity.
  - right. split; [reflexivity|].
    exists Scenario.policy, "claims/front.jpg", [].
    repeat split; vm_compute; reflexivity.
  - reflexivity.
  - exists c. repeat split; assumption.
Defined.

(** Witness of [successful_run_writes_back]: the run of the scenario ends
    with an approval of 300000. *)
Lemma successful_run_writes_back_witness :
  exists c,
    Processor.claims
      (Processor.process_claim Scenario.env0 "claim-1" Scenario.db0)
      !! 1%N = Some c /\
    Processor.status_value (Processor.status c) = "approved" /\
    Processor.estimated_amount c = JInt 300000 /\
    Processor.approved_amount c = Some (JInt 300000) /\
    Processor.fraud_score c = 0 /\
    Processor.decision_timestamp c = Some (Processor.utcnow Scenario.env0).
Proof.
  destruct (successful_run_writes_back Scenario.env0 "claim-1" Scenario.db0
              1%N Scenario.pending_claim eq_refl eq_refl)
    with (customer := Scenario.policy) (url := "claims/front.jpg")
         (urls := @nil string) (image_bytes := @nil Byte.byte)
         (damage := Cases.good_record) (fr := Cases.clean_score)
         (dec := Cases.approved)
    as (c & Hc & Hstatus & _ & Hest & Hfs & _ & Hamount & _ & Hts & _);
    try reflexivity; try (vm_compute; reflexivity).
  exists c. repeat split; assumption.
Defined.

(** Witness of [history_failure_review]: the history query fails after the
    assessment of the scenario. *)
Lemma history_failure_review_witness :
  exists c,
    Processor.claims
      (Processor.process_claim Scenario.env_history_down "claim-1" Scenario.db0)
      !! 1%N = Some c /\
    Processor.status c = Processor.UNDER_REVIEW /\
    Processor.decision_reason c = Some "Processing error: connection is closed" /\
    Processor.estimated_amount c = JInt 300000 /\
    Processor.decision_timestamp c = None.
Proof.
  destruct (history_failure_review Scenario.env_history_down "claim-1"
              Scenario.db0 1%N Scenario.pending_claim eq_refl eq_refl)
    with (customer := Scenario.policy) (url := "claims/front.jpg")
         (urls := @nil string) (image_bytes := @nil Byte.byte)
         (damage := Cases.good_record) (e := Scenario.store_down)
    as (c & Hc & Hstatus & Hreason & _ & Hest & _ & _ & _ & Hts);
    try reflexivity; try (vm_compute; reflexivity).
  exists c. repeat split; assumption.
Defined.

(** Witness of [non_dict_assessment_review]: the reply is one JSON string
    that names the three required fields. *)
Lemma non_dict_assessment_review_witness :
  exists c,
    Processor.claims
      (Processor.process_claim Cases.env_string_reply "claim-1" Scenario.db0)
      !! 1%N = Some c /\
    Processor.status c = Processor.UNDER_REVIEW /\
    Processor.decision_reason c =
      Some "Processing error: 'str' object has no attribute 'get'".
Proof.
  destruct (non_dict_assessment_review Cases.env_string_reply "claim-1"
              Scenario.db0 1%N Scenario.pending_claim eq_refl eq_refl)
    with (customer := Scenario.policy) (url := "claims/front.jpg")
         (urls := @nil string) (image_bytes := @nil Byte.byte)
    as (c & Hc & Hstatus & Hreason & _);
    try reflexivity; try (vm_compute; reflexivity).
  exists c. split; [exact Hc|]. split; [exact Hstatus|].
  rewrite Hreason. vm_compute. reflexivity.
Defined.


(** Witness of [other_rows_untouched]: the second claim of the customer
    during the run on the first. *)
Lemma other_rows_untouched_witness :
  Processor.claims
    (Processor.process_claim Scenario.env0 "claim-1" Cases.db_two) !! 2%N
    = Some Cases.imageless_claim /\
  Processor.customers
    (Processor.process_claim Scenario.env0 "claim-1" Cases.db_two)
    = Processor.customers Cases.db_two.
Proof.
  destruct (other_rows_untouched Scenario.env0 "claim-1" Cases.db_two 1%N
              eq_refl eq_refl 2%N) as [Hrow Hcustomers]; [discriminate|].
  split; [|exact Hcustomers].
  rewrite Hrow. vm_compute. reflexivity.
Defined.

(** Witness of [pipeline_never_rejects]: the run with a failing history
    query ends under review. *)
Lemma pipeline_never_rejects_witness :
  exists c',
    Processor.claims
      (Processor.process_claim Scenario.env_history_down "claim-1" Scenario.db0)
      !! 1%N = Some c' /\
    (Processor.status c' = Processor.status Scenario.pending_claim \/
     Processor.status c' = Processor.APPROVED \/
     Processor.status c' = Processor.UNDER_REVIEW).
Proof.
  eexists. split; [vm_compute; reflexivity|].
  apply (pipeline_never_rejects Scenario.env_history_down "claim-1" Scenario.db0
           1%N eq_refl eq_refl Scenario.pending_claim);
    vm_compute; reflexivity.
Defined.

(** Witness of [approved_claim_meets_criteria]: the approval of the
    scenario. *)
Lemma approved_claim_meets_criteria_witness :
  exists c',
    Processor.claims
      (Processor.process_claim Scenario.env0 "claim-1" Scenario.db0)
      !! 1%N = Some c' /\
    Processor.status c' = Processor.APPROVED /\
    Processor.fraud_score c' <= 30 /\
    Processor.approved_amount c' = Some (Processor.estimated_amount c') /\
    Processor.estimated_amount c' = JInt 300000 /\
    300000 <= Processor.policy_limit Scenario.policy.
Proof.
  eexists. split; [vm_compute; reflexivity|]. split; [reflexivity|].
  destruct (approved_claim_meets_criteria Scenario.env0 "claim-1" Scenario.db0
              1%N eq_refl eq_refl Scenario.pending_claim)
    with (c' := Views.decided (Processor.utcnow Scenario.env0)
                  (JObj Cases.good_record) Cases.good_record Cases.clean_score
                  Cases.approved Processor.APPROVED Scenario.pending_claim)
    as (Hfs & Hamount & _ & _ & _ & Hlimit);
    try discriminate; try (vm_compute; reflexivity).
  split; [exact Hfs|]. split; [exact Hamount|]. split; [reflexivity|].
  apply (Hlimit Scenario.policy 300000); vm_compute; reflexivity.
Defined.

(** Witness of [status_after_load_failure]: the endpoint after the download
    of the image timed out. *)
Lemma status_after_load_failure_witness :
  Router.get_claim_status (Processor.uuid_of Cases.env_download_down)
    Cases.uuid_text None Router.ResponseFields Cases.accept "claim-1"
    (Processor.process_claim Cases.env_download_down "claim-1" Scenario.db0) =
  Router.Respond
    {| Router.claim_id := "00000000-0000-0000-0000-000000000001";
       Router.status := "under_review";
       Router.damage_assessment := None;
       Router.fraud_score := 0;
       Router.decision := None;
       Router.approved_amount := None;
       Router.reason := Some "Processing error: download timed out";
       Router.flags := [];
       Router.next_steps := Some "Our team will review within 4 hours" |}.
Proof.
  rewrite (status_after_load_failure Cases.env_download_down Cases.uuid_text
             Router.ResponseFields Cases.accept "claim-1" Scenario.db0 1%N
             Scenario.pending_claim eq_refl eq_refl)
    with (e := Cases.timeout).
  - vm_compute. reflexivity.
  - vm_compute. reflexivity.
  - right. split; [reflexivity|].
    exists Scenario.policy, "claims/front.jpg", [].
    repeat split; vm_compute; reflexivity.
  - reflexivity.
  - reflexivity.
Defined.

(** Witness of [status_after_successful_run]: the endpoint after the
    approval of the scenario. *)
Lemma status_after_successful_run_witness :
  Router.get_claim_status (Processor.uuid_of Scenario.env0)
    Cases.uuid_text None Router.ResponseFields Cases.accept "claim-1"
    (Processor.process_claim Scenario.env0 "claim-1" Scenario.db0) =
  Router.Respond
    {| Router.claim_id := "00000000-0000-0000-0000-000000000001";
       Router.status := "approved";
       Router.damage_assessment := Some (JObj Cases.good_record);
       Router.fraud_score := 0;
       Router.decision := Some "approved";
       Router.approved_amount := Some (JInt 300000);
       Router.reason := Some "Claim meets all approval criteria";
       Router.flags := [];
       Router.next_steps := Some "Payment will be processed within 24 hours" |}.
Proof.
  rewrite (status_after_successful_run Scenario.env0 Cases.uuid_text
             Router.ResponseFields Cases.accept "claim-1" Scenario.db0 1%N
             Scenario.pending_claim eq_refl eq_refl eq_refl
             Scenario.policy "claims/front.jpg" [] [])
    with (damage := Cases.good_record) (fr := Cases.clean_score)
         (dec := Cases.approved);
    vm_compute; reflexivity.
Defined.

(** Witness of [incident_date_window]: an incident 30 days and 8 hours
    before the clock is accepted, one of 31 days before is refused, and
    one written with an offset raises. *)
Lemma incident_date_window_witness :
  Schemas.validate_incident_date
    (wall (naive 2025 6 11 8 0 0)) (wall (naive 2025 6 11 8 0 0))
    (naive 2025 5 12 0 0 0) = Ok (naive 2025 5 12 0 0 0) /\
  Schemas.validate_incident_date
    (wall (naive 2025 6 11 8 0 0)) (wall (naive 2025 6 11 8 0 0))
    (naive 2025 5 11 8 0 0) <> Ok (naive 2025 5 11 8 0 0) /\
  Schemas.validate_incident_date
    (wall (naive 2025 6 11 8 0 0)) (wall (naive 2025 6 11 8 0 0))
    {| wall := wall (naive 2025 6 10 0 0 0); utcoffset := Some 0 |} =
  Raise (Exn TypeError "can't compare offset-naive and offset-aware datetimes").
Proof.
  split; [|split].
  - apply (proj1 (incident_date_window (wall (naive 2025 6 11 8 0 0))
                    (wall (naive 2025 6 11 8 0 0)) (naive 2025 5 12 0 0 0))
             eq_refl).
    vm_compute. split; [discriminate | reflexivity].
  - intros Haccepted.
    apply (proj1 (incident_date_window (wall (naive 2025 6 11 8 0 0))
                    (wall (naive 2025 6 11 8 0 0)) (naive 2025 5 11 8 0 0))
             eq_refl) in Haccepted.
    vm_compute in Haccepted. destruct Haccepted as [_ Hlate].
    discriminate Hlate.
  - apply (proj2 (incident_date_window (wall (naive 2025 6 11 8 0 0))
                    (wall (naive 2025 6 11 8 0 0))
                    {| wall := wall (naive 2025 6 10 0 0 0);
                       utcoffset := Some 0 |}) 0 eq_refl).
Defined.

(** Witness of [upload_keeps_extension]: a PNG named in capitals, with a
    storage client that takes PNG uploads only. *)
Lemma upload_keeps_extension_witness :
  Storage.upload_image_to_supabase "4f1c" Cases.png_only Cases.public_url []
    ("front.bumper" +:+ "." +:+ "PNG")
  = Ok "https://cdn.example/claims/4f1c.PNG".
Proof.
  rewrite (upload_keeps_extension "4f1c" Cases.png_only Cases.public_url []
             "front.bumper" "PNG" eq_refl).
  vm_compute. reflexivity.
Defined.

(** Witness of [limit_reason_names_the_limit]: a cost of 600000 against a
    limit of 500000. *)
Lemma limit_reason_names_the_limit_witness :
  exists d,
    Engine.make_decision Cases.costly_damage Cases.low_fraud 500000 = Ok d /\
    Engine.reason d = "Claim exceeds policy limit (₦500,000)" /\
    Views.without_commas (Engine.reason d) = "Claim exceeds policy limit (₦500000)".
Proof.
  destruct (limit_reason_names_the_limit Cases.costly_damage Cases.low_fraud
              500000) as (d & Hd & Hreason & Hplain);
    [vm_compute; discriminate | reflexivity |].
  exists d. split; [exact Hd|]. split; [exact Hreason | exact Hplain].
Defined.
